(** * x402-agent-pay: spending policy enforcement and receipt storage

    A shallow embedding of the class [PolicyEnforcer] (the policy module of
    the sources, in its enhanced variant with daily, weekly and monthly totals,
    a velocity limit and per-recipient limits) and of the class [ReceiptStore]
    ([receipts.ts]), with the types of [config.ts] they use.

    Conventions of the embedding:
    - a JavaScript [number] is an IEEE-754 binary64 value: Rocq's primitive
      [float], with the same [+], [-], [<] and [<=];
    - a string is a [string] of bytes; [toLowerCase] maps the ASCII letters
      (addresses are hexadecimal strings);
    - the object [perRecipient] is a finite map from keys to numbers (keys
      are lower-cased addresses; members inherited from [Object.prototype]
      are outside the model);
    - a method of a class is a computation in the monad [M]: it reads the
      clock (one reading for each call), reads and writes the instance and
      returns a value;
    - the policy object belongs to the instance: only [freeze] changes it.
      In the code the instance keeps the object that the caller passed, and
      [freeze] assigns to that object; an enforcer that shares its policy
      object with another one, or runs on the exported [DEFAULT_POLICY], is
      outside the model;
    - the file behind [spendingPath] holds the ledger that [saveState] last
      wrote.  The JSON text is not modelled: what is read back is taken to be
      what was written, which JSON provides for finite numbers other than -0;
      [Json.readBack] gives what is read back from any ledger.

    Embedded besides: the earlier, daily-only variant of [PolicyEnforcer]
    (module [DailyPolicy]), and the method [fetch] of [AgentPayClient] as far
    as it drives the enforcer and the receipt store (module [Client]). *)

From Stdlib Require Import ZArith Floats String Ascii List Bool Lia QArith.
From Stdlib Require Import DecimalString.
From stdpp Require Import gmap strings.
Import ListNotations.

Set Warnings "-inexact-float".
Local Open Scope string_scope.
Local Open Scope Z_scope.

(** ** JavaScript values *)

Module Js.

Abbreviation number := float (only parsing).

(** [a > b] and [a >= b] on numbers; both are false when an operand is NaN. *)
Definition gt (a b : number) : bool := (b <? a)%float.
Definition ge (a b : number) : bool := (b <=? a)%float.

(** A number is falsy when it is [0], [-0] or [NaN]. *)
Definition falsy (x : number) : bool := (x =? 0)%float || is_nan x.

(** [v || 0] for a property lookup [v] that is a number or [undefined]. *)
Definition orZero (v : option number) : number :=
  match v with
  | Some x => if falsy x then 0%float else x
  | None => 0%float
  end.

(** [Math.max(0, x)]. *)
Definition mathMax0 (x : number) : number :=
  if is_nan x then nan else if (0 <? x)%float then x else 0%float.

(** The number of an array length. *)
Definition numOfNat (n : nat) : number :=
  PrimFloat.of_uint63 (Uint63.of_Z (Z.of_nat n)).

Definition lowerChar (c : ascii) : ascii :=
  let n := nat_of_ascii c in
  if ((65 <=? n) && (n <=? 90))%nat then ascii_of_nat (n + 32) else c.

Fixpoint toLowerCase (s : string) : string :=
  match s with
  | EmptyString => EmptyString
  | String c s' => String (lowerChar c) (toLowerCase s')
  end.

(** [String(n)] for an integer [n]. *)
Definition showZ (n : Z) : string := NilZero.string_of_int (Z.to_int n).

(** [s.padStart(2, '0')]. *)
Definition padStart2 (s : string) : string :=
  match String.length s with
  | O => "00"
  | S O => "0" +:+ s
  | _ => s
  end.

(** The rational number a finite binary64 value stands for ([None] for the
    infinities and NaN). *)
Definition exactValue (x : number) : option Q :=
  match Prim2SF x with
  | S754_zero _ => Some 0%Q
  | S754_finite s m e => Some (inject_Z (if s then Zneg m else Zpos m) * 2 ^ e)%Q
  | S754_infinity _ | S754_nan => None
  end.

(** [s.includes(needle)]. *)
Fixpoint includes (needle s : string) : bool :=
  String.prefix needle s
  || match s with
     | EmptyString => false
     | String _ s' => includes needle s'
     end.

(** An early [return] inside a block: [Some r] leaves the function with [r],
    [None] falls through to the next statement. *)
Definition orElse {A} (block : option A) (rest : A) : A :=
  match block with
  | Some r => r
  | None => rest
  end.

End Js.

Notation "'block' b ';;;' k" := (Js.orElse b k)
  (at level 10, b at level 99, k at level 200,
   format "'[v' 'block'  b  ';;;' '/' k ']'").

(** ** The policy enforcer *)

Module Policy.
Import Js.

(** [interface PaymentPolicy] of [config.ts]. *)
Record PaymentPolicy := {
  maxPerTransaction : number;
  dailyLimit : number;
  weeklyLimit : option number;
  monthlyLimit : option number;
  maxTransactionsPerHour : option number;
  perRecipientDailyLimit : option number;
  approvedRecipients : option (list string);
  blockedRecipients : option (list string);
  requireDryRun : option bool;
  autoApproveUnder : option number;
  simulateBeforePay : option bool
}.

(** [DEFAULT_POLICY]. *)
Definition DEFAULT_POLICY : PaymentPolicy := {|
  maxPerTransaction := 1%float;
  dailyLimit := 10%float;
  weeklyLimit := None;
  monthlyLimit := None;
  maxTransactionsPerHour := Some 60%float;
  perRecipientDailyLimit := None;
  approvedRecipients := None;
  blockedRecipients := None;
  requireDryRun := Some false;
  autoApproveUnder := Some 0.1%float;
  simulateBeforePay := None
|}.

(** [interface SpendingRecord]; a timestamp is a [Date.now()], an integer
    number of milliseconds. *)
Record SpendingRecord := {
  timestamp : Z;
  amount : number;
  recipient : string
}.

(** [interface SpendingState]: the ledger. *)
Record SpendingState := {
  date : string;
  weekStart : string;
  monthStart : string;
  dailySpent : number;
  weeklySpent : number;
  monthlySpent : number;
  transactions : number;
  recentTransactions : list SpendingRecord;
  perRecipient : gmap string number
}.

(** What the runtime's [Date] answers during one call.  [isoDate k] is
    [d.toISOString().split('T')[0]] for the date [d] obtained from [now] by
    [d.setDate(now.getDate() + k)]; [getDay], [getFullYear] and [getMonth]
    are the local-time getters of [now]; [nowMs] is [Date.now()]. *)
Record Clock := {
  nowMs : Z;
  isoDate : Z -> string;
  getDay : Z;
  getFullYear : Z;
  getMonth : Z
}.

Record DateKeys := {
  key_date : string;
  key_weekStart : string;
  key_monthStart : string
}.

Definition getDateKeys (now : Clock) : DateKeys :=
  let date := isoDate now 0 in
  let dayOfWeek := getDay now in
  let mondayOffset := if dayOfWeek =? 0 then -6 else 1 - dayOfWeek in
  let weekStart := isoDate now mondayOffset in
  let monthStart :=
    showZ (getFullYear now) +:+ "-" +:+ padStart2 (showZ (getMonth now + 1)) +:+ "-01" in
  {| key_date := date; key_weekStart := weekStart; key_monthStart := monthStart |}.

(** The instance: the policy object, the ledger and the file at
    [spendingPath] ([None]: the file is absent or is not valid JSON). *)
Record Enforcer := {
  policy : PaymentPolicy;
  state : SpendingState;
  spendingFile : option SpendingState
}.

(** Methods run against the clock and the instance. *)
Definition M (A : Type) : Type := Clock -> Enforcer -> A * Enforcer.

Definition ret {A} (a : A) : M A := fun _ this => (a, this).
Definition bind {A B} (m : M A) (k : A -> M B) : M B :=
  fun now this => let '(a, this') := m now this in k a now this'.
Definition getClock : M Clock := fun now this => (now, this).
Definition getThis : M Enforcer := fun _ this => (this, this).
Definition setState (s : SpendingState) : M unit :=
  fun _ this =>
    (tt, {| policy := policy this; state := s; spendingFile := spendingFile this |}).
Definition setPolicy (p : PaymentPolicy) : M unit :=
  fun _ this =>
    (tt, {| policy := p; state := state this; spendingFile := spendingFile this |}).

(** [writeFileSync(this.spendingPath, JSON.stringify(this.state))]: the file
    is modelled by the ledger that is written to it. *)
Definition saveState : M unit :=
  fun _ this =>
    (tt, {| policy := policy this; state := state this;
            spendingFile := Some (state this) |}).

#[export] Instance M_ret : MRet M := @ret.
#[export] Instance M_bind : MBind M := fun A B k m => bind m k.

(** The reasons of a denial.  [message] gives the text of each: the template
    literal of the source, with [Fixed2 x] for [x.toFixed(2)], [Num x] for the
    default rendering of a number and [Str s] for an interpolated string. *)
Inductive Reason :=
| ExceedsPerTransaction (amountUsdc maxPerTransaction : number)
| ExceedsDaily (dailySpent dailyLimit : number)
| ExceedsWeekly (weeklySpent weeklyLimit : number)
| ExceedsMonthly (monthlySpent monthlyLimit : number)
| VelocityExceeded (recentCount : nat) (maxTransactionsPerHour : number)
| PerRecipientExceeded (recipient : string) (recipientSpent perRecipientDailyLimit : number)
| RecipientBlocked (recipient : string)
| NotWhitelisted (recipient : string).

Inductive piece :=
| Lit (s : string)
| Fixed2 (x : number)
| Num (x : number)
| Str (s : string).

Definition message (r : Reason) : list piece :=
  match r with
  | ExceedsPerTransaction a m =>
      [Lit "Amount $"; Fixed2 a; Lit " exceeds per-transaction limit of $"; Fixed2 m]
  | ExceedsDaily s l =>
      [Lit "Payment would exceed daily limit. Current: $"; Fixed2 s; Lit ", Limit: $"; Fixed2 l]
  | ExceedsWeekly s l =>
      [Lit "Payment would exceed weekly limit. Current: $"; Fixed2 s; Lit ", Limit: $"; Fixed2 l]
  | ExceedsMonthly s l =>
      [Lit "Payment would exceed monthly limit. Current: $"; Fixed2 s; Lit ", Limit: $"; Fixed2 l]
  | VelocityExceeded n l =>
      [Lit "Velocity limit exceeded. "; Num (numOfNat n);
       Lit " transactions in the last hour (limit: "; Num l; Lit ")"]
  | PerRecipientExceeded r s l =>
      [Lit "Per-recipient limit exceeded for "; Str r; Lit ". Current: $"; Fixed2 s;
       Lit ", Limit: $"; Fixed2 l]
  | RecipientBlocked r => [Lit "Recipient "; Str r; Lit " is blocked"]
  | NotWhitelisted r => [Lit "Recipient "; Str r; Lit " is not in approved whitelist"]
  end.

(** The text of a message contains [needle] in one of its literal parts. *)
Definition mentions (needle : string) (msg : list piece) : bool :=
  existsb (fun p => match p with Lit s => includes needle s | _ => false end) msg.

(** The object [{ allowed, reason? }]. *)
Record CheckResult := {
  allowed : bool;
  reason : option Reason
}.

Definition allow : CheckResult := {| allowed := true; reason := None |}.
Definition deny (r : Reason) : CheckResult := {| allowed := false; reason := Some r |}.

(** [list.some(addr => addr.toLowerCase() === normalizedRecipient)]. *)
Definition someMatches (addrs : list string) (normalizedRecipient : string) : bool :=
  existsb (fun addr => String.eqb (toLowerCase addr) normalizedRecipient) addrs.

(** [list && list.length > 0]. *)
Definition nonEmpty (addrs : option (list string)) : option (list string) :=
  match addrs with
  | Some (a :: l) => Some (a :: l)
  | _ => None
  end.

(** [state.recentTransactions.filter(t => t.timestamp > oneHourAgo)]. *)
Definition withinLastHour (oneHourAgo : Z) (l : list SpendingRecord) : list SpendingRecord :=
  List.filter (fun t => oneHourAgo <? timestamp t) l.

Definition checkPayment (amountUsdc : number) (recipient : string) : M CheckResult :=
  now ← getClock;
  this ← getThis;
  let normalizedRecipient := toLowerCase recipient in
  mret (
    (* Check per-transaction limit *)
    block (if gt amountUsdc (maxPerTransaction (policy this))
           then Some (deny (ExceedsPerTransaction amountUsdc (maxPerTransaction (policy this))))
           else None) ;;;
    (* Check daily limit *)
    let projectedDaily := (dailySpent (state this) + amountUsdc)%float in
    block (if gt projectedDaily (dailyLimit (policy this))
           then Some (deny (ExceedsDaily (dailySpent (state this)) (dailyLimit (policy this))))
           else None) ;;;
    (* Check weekly limit (if configured) *)
    block (match weeklyLimit (policy this) with
           | Some weeklyLimit =>
               let projectedWeekly := (weeklySpent (state this) + amountUsdc)%float in
               if gt projectedWeekly weeklyLimit
               then Some (deny (ExceedsWeekly (weeklySpent (state this)) weeklyLimit))
               else None
           | None => None
           end) ;;;
    (* Check monthly limit (if configured) *)
    block (match monthlyLimit (policy this) with
           | Some monthlyLimit =>
               let projectedMonthly := (monthlySpent (state this) + amountUsdc)%float in
               if gt projectedMonthly monthlyLimit
               then Some (deny (ExceedsMonthly (monthlySpent (state this)) monthlyLimit))
               else None
           | None => None
           end) ;;;
    (* Check velocity limit (max transactions per hour) *)
    block (match maxTransactionsPerHour (policy this) with
           | Some maxTransactionsPerHour =>
               let oneHourAgo := nowMs now - 60 * 60 * 1000 in
               let recentCount :=
                 List.length (withinLastHour oneHourAgo (recentTransactions (state this))) in
               if ge (numOfNat recentCount) maxTransactionsPerHour
               then Some (deny (VelocityExceeded recentCount maxTransactionsPerHour))
               else None
           | None => None
           end) ;;;
    (* Check per-recipient daily limit (if configured) *)
    block (match perRecipientDailyLimit (policy this) with
           | Some perRecipientDailyLimit =>
               let recipientSpent := orZero (perRecipient (state this) !! normalizedRecipient) in
               let projectedRecipient := (recipientSpent + amountUsdc)%float in
               if gt projectedRecipient perRecipientDailyLimit
               then Some (deny (PerRecipientExceeded recipient recipientSpent
                                  perRecipientDailyLimit))
               else None
           | None => None
           end) ;;;
    (* Check recipient blacklist FIRST (takes priority over whitelist) *)
    block (match nonEmpty (blockedRecipients (policy this)) with
           | Some blockedRecipients =>
               let blocked := someMatches blockedRecipients normalizedRecipient in
               if blocked then Some (deny (RecipientBlocked recipient)) else None
           | None => None
           end) ;;;
    (* Check recipient whitelist *)
    block (match nonEmpty (approvedRecipients (policy this)) with
           | Some approvedRecipients =>
               let approved := someMatches approvedRecipients normalizedRecipient in
               if negb approved then Some (deny (NotWhitelisted recipient)) else None
           | None => None
           end) ;;;
    allow).

(** The three resets that [loadState] and [recordPayment] both perform on the
    ledger for the keys of the current day, week and month. *)
Definition resetPeriods (keys : DateKeys) (data : SpendingState) : SpendingState :=
  (* Reset daily if new day *)
  let data :=
    if negb (String.eqb (date data) (key_date keys)) then
      {| date := key_date keys; weekStart := weekStart data; monthStart := monthStart data;
         dailySpent := 0%float; weeklySpent := weeklySpent data;
         monthlySpent := monthlySpent data; transactions := 0%float;
         recentTransactions := recentTransactions data; perRecipient := ∅ |}
    else data in
  (* Reset weekly if new week *)
  let data :=
    if negb (String.eqb (weekStart data) (key_weekStart keys)) then
      {| date := date data; weekStart := key_weekStart keys; monthStart := monthStart data;
         dailySpent := dailySpent data; weeklySpent := 0%float;
         monthlySpent := monthlySpent data; transactions := transactions data;
         recentTransactions := recentTransactions data; perRecipient := perRecipient data |}
    else data in
  (* Reset monthly if new month *)
  let data :=
    if negb (String.eqb (monthStart data) (key_monthStart keys)) then
      {| date := date data; weekStart := weekStart data; monthStart := key_monthStart keys;
         dailySpent := dailySpent data; weeklySpent := weeklySpent data;
         monthlySpent := 0%float; transactions := transactions data;
         recentTransactions := recentTransactions data; perRecipient := perRecipient data |}
    else data in
  data.

Definition defaultState (keys : DateKeys) : SpendingState :=
  {| date := key_date keys; weekStart := key_weekStart keys;
     monthStart := key_monthStart keys;
     dailySpent := 0%float; weeklySpent := 0%float; monthlySpent := 0%float;
     transactions := 0%float; recentTransactions := []; perRecipient := ∅ |}.

(** [loadState]: [file] is the parsed content of [spendingPath], [None] when
    the file does not exist or [JSON.parse] throws. *)
Definition loadState (now : Clock) (file : option SpendingState) : SpendingState :=
  let keys := getDateKeys now in
  match file with
  | Some data =>
      let data := resetPeriods keys data in
      (* Clean old transactions from velocity tracking (keep last hour only) *)
      let oneHourAgo := nowMs now - 60 * 60 * 1000 in
      {| date := date data; weekStart := weekStart data; monthStart := monthStart data;
         dailySpent := dailySpent data; weeklySpent := weeklySpent data;
         monthlySpent := monthlySpent data; transactions := transactions data;
         recentTransactions := withinLastHour oneHourAgo (recentTransactions data);
         perRecipient := perRecipient data |}
  | None => defaultState keys
  end.

(** [new PolicyEnforcer(policy, spendingPath)]. *)
Definition newPolicyEnforcer (policy : PaymentPolicy) (file : option SpendingState)
    (now : Clock) : Enforcer :=
  {| policy := policy; state := loadState now file; spendingFile := file |}.

Definition recordPayment (amountUsdc : number) (recipient : string) : M unit :=
  now ← getClock;
  this ← getThis;
  let normalizedRecipient := toLowerCase recipient in
  let keys := getDateKeys now in
  (* Reset if new period *)
  let st := resetPeriods keys (state this) in
  (* Add to velocity tracking, then clean old velocity records *)
  let pushed :=
    (recentTransactions st ++
       [{| timestamp := nowMs now; amount := amountUsdc;
           recipient := normalizedRecipient |}])%list in
  let oneHourAgo := nowMs now - 60 * 60 * 1000 in
  setState
    {| date := date st; weekStart := weekStart st; monthStart := monthStart st;
       (* Update totals *)
       dailySpent := (dailySpent st + amountUsdc)%float;
       weeklySpent := (weeklySpent st + amountUsdc)%float;
       monthlySpent := (monthlySpent st + amountUsdc)%float;
       transactions := (transactions st + 1)%float;
       recentTransactions := withinLastHour oneHourAgo pushed;
       (* Update per-recipient *)
       perRecipient :=
         <[normalizedRecipient :=
             (orZero (perRecipient st !! normalizedRecipient) + amountUsdc)%float]>
           (perRecipient st) |};;
  saveState.

(** The objects [getStatus] reports. *)
Module Daily.
Record t := { spent : number; limit : number; remaining : number; transactions : number }.
End Daily.

Module Window.
Record t := { spent : number; limit : number; remaining : number }.
End Window.

Module Velocity.
Record t := { count : number; limit : number; remaining : number }.
End Velocity.

Module Status.
Record t := {
  daily : Daily.t;
  weekly : option Window.t;
  monthly : option Window.t;
  velocity : option Velocity.t;
  policy : PaymentPolicy
}.
End Status.

Definition getStatus : M Status.t :=
  now ← getClock;
  this ← getThis;
  mret
    {| Status.daily :=
         {| Daily.spent := dailySpent (state this);
            Daily.limit := dailyLimit (policy this);
            Daily.remaining :=
              mathMax0 (dailyLimit (policy this) - dailySpent (state this))%float;
            Daily.transactions := transactions (state this) |};
       Status.weekly :=
         match weeklyLimit (policy this) with
         | Some weeklyLimit =>
             Some {| Window.spent := weeklySpent (state this);
                     Window.limit := weeklyLimit;
                     Window.remaining :=
                       mathMax0 (weeklyLimit - weeklySpent (state this))%float |}
         | None => None
         end;
       Status.monthly :=
         match monthlyLimit (policy this) with
         | Some monthlyLimit =>
             Some {| Window.spent := monthlySpent (state this);
                     Window.limit := monthlyLimit;
                     Window.remaining :=
                       mathMax0 (monthlyLimit - monthlySpent (state this))%float |}
         | None => None
         end;
       Status.velocity :=
         match maxTransactionsPerHour (policy this) with
         | Some maxTransactionsPerHour =>
             let oneHourAgo := nowMs now - 60 * 60 * 1000 in
             let recentCount :=
               numOfNat
                 (List.length (withinLastHour oneHourAgo (recentTransactions (state this)))) in
             Some {| Velocity.count := recentCount;
                     Velocity.limit := maxTransactionsPerHour;
                     Velocity.remaining :=
                       mathMax0 (maxTransactionsPerHour - recentCount)%float |}
         | None => None
         end;
       Status.policy := policy this |}.

Definition requiresApproval (amountUsdc : number) : M bool :=
  this ← getThis;
  mret (match autoApproveUnder (policy this) with
        | None => true
        | Some autoApproveUnder => ge amountUsdc autoApproveUnder
        end).

(** Emergency freeze - block all payments. *)
Definition freeze : M unit :=
  this ← getThis;
  let p := policy this in
  setPolicy
    {| maxPerTransaction := 0%float; dailyLimit := 0%float;
       weeklyLimit := weeklyLimit p; monthlyLimit := monthlyLimit p;
       maxTransactionsPerHour := maxTransactionsPerHour p;
       perRecipientDailyLimit := perRecipientDailyLimit p;
       approvedRecipients := approvedRecipients p;
       blockedRecipients := blockedRecipients p;
       requireDryRun := requireDryRun p; autoApproveUnder := autoApproveUnder p;
       simulateBeforePay := simulateBeforePay p |};;
  saveState.

Arguments ExceedsPerTransaction (amountUsdc maxPerTransaction)%_float.
Arguments ExceedsDaily (dailySpent dailyLimit)%_float.
Arguments ExceedsWeekly (weeklySpent weeklyLimit)%_float.
Arguments ExceedsMonthly (monthlySpent monthlyLimit)%_float.
Arguments VelocityExceeded recentCount%_nat maxTransactionsPerHour%_float.
Arguments PerRecipientExceeded recipient%_string (recipientSpent perRecipientDailyLimit)%_float.
Arguments checkPayment amountUsdc%_float recipient%_string.
Arguments recordPayment amountUsdc%_float recipient%_string.
Arguments requiresApproval amountUsdc%_float.

End Policy.

(** ** The ledger as JSON *)

Module Json.
Import Js Policy.

(** [JSON.parse(JSON.stringify(x))] for a number [x]: NaN and the infinities
    are written as [null] ([None]), [-0] is written as [0], and every other
    number is written as a decimal that reads back as the same number. *)
Definition roundTrip (x : number) : option number :=
  match Prim2SF x with
  | S754_nan | S754_infinity _ => None
  | S754_zero _ => Some 0%float
  | S754_finite _ _ _ => Some x
  end.

Definition roundTripRecord (t : SpendingRecord) : option SpendingRecord :=
  amount' ← roundTrip (amount t);
  Some {| timestamp := timestamp t; amount := amount'; recipient := recipient t |}.

Fixpoint roundTripRecords (l : list SpendingRecord) : option (list SpendingRecord) :=
  match l with
  | [] => Some []
  | t :: l' =>
      t' ← roundTripRecord t;
      l'' ← roundTripRecords l';
      Some (t' :: l'')
  end.

(** What [JSON.parse] reads back from the text that [saveState] wrote for the
    ledger [st]; [None] when the text holds a [null] in the place of a
    number. *)
Definition readBack (st : SpendingState) : option SpendingState :=
  dailySpent' ← roundTrip (dailySpent st);
  weeklySpent' ← roundTrip (weeklySpent st);
  monthlySpent' ← roundTrip (monthlySpent st);
  transactions' ← roundTrip (transactions st);
  recentTransactions' ← roundTripRecords (recentTransactions st);
  if bool_decide (map_Forall (fun _ v => is_Some (roundTrip v)) (perRecipient st))
  then Some {| date := date st; weekStart := weekStart st; monthStart := monthStart st;
               dailySpent := dailySpent'; weeklySpent := weeklySpent';
               monthlySpent := monthlySpent'; transactions := transactions';
               recentTransactions := recentTransactions';
               perRecipient := (fun v => default 0%float (roundTrip v)) <$> perRecipient st |}
  else None.

(** The number is written and read back as itself: it is finite and not
    [-0]. *)
Definition survives (x : number) : Prop := roundTrip x = Some x.

(** Every number of the ledger is. *)
Definition ledgerSurvives (st : SpendingState) : Prop :=
  survives (dailySpent st) /\ survives (weeklySpent st) /\ survives (monthlySpent st)
  /\ survives (transactions st)
  /\ Forall (fun t => survives (amount t)) (recentTransactions st)
  /\ (forall k v, perRecipient st !! k = Some v -> survives v).

End Json.

(** ** The receipt store *)

Module Receipts.
Import Js.

(** [NetworkName] of [config.ts]. *)
Inductive NetworkName := base | ethereum | arbitrum | optimism | polygon | baseSepolia.

Inductive Status := success | failed | pending | blocked.

Definition Status_eqb (a b : Status) : bool :=
  match a, b with
  | success, success | failed, failed | pending, pending | blocked, blocked => true
  | _, _ => false
  end.

(** [interface PaymentReceipt]; [facilitatorResponse] is an opaque value. *)
Record PaymentReceipt := {
  id : string;
  timestamp : string;
  url : string;
  amount : string;
  amountRaw : string;
  currency : string;
  network : NetworkName;
  recipient : string;
  txHash : option string;
  status : Status;
  blockReason : option string;
  facilitatorResponse : option string
}.

(** [Omit<PaymentReceipt, 'id' | 'timestamp' | 'status'>]. *)
Module Partial.
Record t := {
  url : string;
  amount : string;
  amountRaw : string;
  currency : string;
  network : NetworkName;
  recipient : string;
  txHash : option string;
  blockReason : option string;
  facilitatorResponse : option string
}.
End Partial.

(** [Partial<PaymentReceipt>]: a field is [Some v] when the object has the key. *)
Module Update.
Record t := {
  id : option string;
  timestamp : option string;
  url : option string;
  amount : option string;
  amountRaw : option string;
  currency : option string;
  network : option NetworkName;
  recipient : option string;
  txHash : option string;
  status : option Status;
  blockReason : option string;
  facilitatorResponse : option string
}.
Definition empty : t :=
  {| id := None; timestamp := None; url := None; amount := None; amountRaw := None;
     currency := None; network := None; recipient := None; txHash := None;
     status := None; blockReason := None; facilitatorResponse := None |}.
End Update.

(** The instance: the array [receipts] and the file at [receiptsPath]. *)
Record ReceiptStore := {
  receipts : list PaymentReceipt;
  receiptsFile : option (list PaymentReceipt)
}.

(** What the runtime answers during one call: [randomUUID()] and
    [new Date().toISOString()]. *)
Record Env := {
  randomUUID : string;
  toISOString : string
}.

Definition R (A : Type) : Type := Env -> ReceiptStore -> A * ReceiptStore.

#[export] Instance R_ret : MRet R := fun A a _ this => (a, this).
#[export] Instance R_bind : MBind R :=
  fun A B k m env this => let '(a, this') := m env this in k a env this'.
Definition getEnv : R Env := fun env this => (env, this).
Definition getThis : R ReceiptStore := fun _ this => (this, this).
Definition setReceipts (l : list PaymentReceipt) : R unit :=
  fun _ this => (tt, {| receipts := l; receiptsFile := receiptsFile this |}).

(** [writeFileSync(this.receiptsPath, JSON.stringify(this.receipts))]. *)
Definition saveReceipts : R unit :=
  fun _ this => (tt, {| receipts := receipts this; receiptsFile := Some (receipts this) |}).

Definition loadReceipts (file : option (list PaymentReceipt)) : list PaymentReceipt :=
  match file with
  | Some l => l
  | None => []
  end.

(** [new ReceiptStore(receiptsPath)]. *)
Definition newReceiptStore (file : option (list PaymentReceipt)) : ReceiptStore :=
  {| receipts := loadReceipts file; receiptsFile := file |}.

(** [this.receipts.push(receipt)]. *)
Definition push (receipt : PaymentReceipt) : R unit :=
  this ← getThis;
  setReceipts (receipts this ++ [receipt])%list.

(** Create a new receipt (pending state). *)
Definition createReceipt (partial : Partial.t) : R PaymentReceipt :=
  env ← getEnv;
  let receipt :=
    {| id := randomUUID env;
       timestamp := toISOString env;
       status := pending;
       url := Partial.url partial;
       amount := Partial.amount partial;
       amountRaw := Partial.amountRaw partial;
       currency := Partial.currency partial;
       network := Partial.network partial;
       recipient := Partial.recipient partial;
       txHash := Partial.txHash partial;
       blockReason := Partial.blockReason partial;
       facilitatorResponse := Partial.facilitatorResponse partial |} in
  push receipt;;
  saveReceipts;;
  mret receipt.

(** [{ ...r, ...update }]. *)
Definition spread (r : PaymentReceipt) (update : Update.t) : PaymentReceipt :=
  {| id := default (id r) (Update.id update);
     timestamp := default (timestamp r) (Update.timestamp update);
     url := default (url r) (Update.url update);
     amount := default (amount r) (Update.amount update);
     amountRaw := default (amountRaw r) (Update.amountRaw update);
     currency := default (currency r) (Update.currency update);
     network := default (network r) (Update.network update);
     recipient := default (recipient r) (Update.recipient update);
     txHash := match Update.txHash update with Some h => Some h | None => txHash r end;
     status := default (status r) (Update.status update);
     blockReason :=
       match Update.blockReason update with Some b => Some b | None => blockReason r end;
     facilitatorResponse :=
       match Update.facilitatorResponse update with
       | Some f => Some f
       | None => facilitatorResponse r
       end |}.

(** [array.findIndex(p)]: [None] stands for [-1]. *)
Fixpoint findIndex {A} (p : A -> bool) (l : list A) : option nat :=
  match l with
  | [] => None
  | x :: l' => if p x then Some O else option_map S (findIndex p l')
  end.

(** Update receipt status. *)
Definition updateReceipt (id' : string) (update : Update.t) : R (option PaymentReceipt) :=
  this ← getThis;
  match findIndex (fun r => String.eqb (id r) id') (receipts this) with
  | None => mret None
  | Some idx =>
      match receipts this !! idx with
      | Some old =>
          setReceipts (<[idx := spread old update]> (receipts this));;
          saveReceipts;;
          this' ← getThis;
          mret (receipts this' !! idx)
      | None => mret None
      end
  end.

(** Record a blocked payment. *)
Definition recordBlocked (url' amount' amountRaw' recipient' : string)
    (network' : NetworkName) (reason : string) : R PaymentReceipt :=
  env ← getEnv;
  let receipt :=
    {| id := randomUUID env;
       timestamp := toISOString env;
       url := url';
       amount := amount';
       amountRaw := amountRaw';
       currency := "USDC";
       network := network';
       recipient := recipient';
       status := blocked;
       blockReason := Some reason;
       txHash := None;
       facilitatorResponse := None |} in
  push receipt;;
  saveReceipts;;
  mret receipt.

Definition getAll : R (list PaymentReceipt) :=
  this ← getThis;
  mret (receipts this).

Definition getByStatus (status' : Status) : R (list PaymentReceipt) :=
  this ← getThis;
  mret (List.filter (fun r => Status_eqb (status r) status') (receipts this)).

(** [s.split('T')[0]]: the characters before the first ['T']. *)
Fixpoint beforeT (s : string) : string :=
  match s with
  | EmptyString => EmptyString
  | String c s' => if Ascii.eqb c "T"%char then EmptyString else String c (beforeT s')
  end.

(** Get receipts for today. *)
Definition getToday : R (list PaymentReceipt) :=
  env ← getEnv;
  this ← getThis;
  let today := beforeT (toISOString env) in
  mret (List.filter (fun r => String.prefix today (timestamp r)) (receipts this)).

Section ParseFloat.

(** The runtime's [parseFloat]. *)
Variable parseFloat : string -> number.

(** Get total spent today (successful payments only). *)
Definition getTodayTotal : R number :=
  today ← getToday;
  mret (fold_left (fun sum r => (sum + parseFloat (amount r))%float)
          (List.filter (fun r => Status_eqb (status r) success) today)
          0%float).

End ParseFloat.

(** [array.slice(start)] for an integer [start]. *)
Definition slice {A} (start : Z) (l : list A) : list A :=
  let len := Z.of_nat (List.length l) in
  let k := if start <? 0 then Z.max (len + start) 0 else Z.min start len in
  skipn (Z.to_nat k) l.

(** Get recent receipts; [limit] is an integer, [None] when the argument is
    left out. *)
Definition getRecent (limit : option Z) : R (list PaymentReceipt) :=
  this ← getThis;
  let limit := default 10 limit in
  mret (rev (slice (- limit) (receipts this))).

(** The keys [exportCsv] reads, in the order of its [headers] array. *)
Inductive Key :=
| Kid | Ktimestamp | Kurl | Kamount | Kcurrency | Knetwork | Krecipient | KtxHash
| Kstatus | KblockReason.

Definition keyName (k : Key) : string :=
  match k with
  | Kid => "id" | Ktimestamp => "timestamp" | Kurl => "url" | Kamount => "amount"
  | Kcurrency => "currency" | Knetwork => "network" | Krecipient => "recipient"
  | KtxHash => "txHash" | Kstatus => "status" | KblockReason => "blockReason"
  end.

(** The strings that the values of [NetworkName] and of [status] are. *)
Definition networkName (n : NetworkName) : string :=
  match n with
  | base => "base" | ethereum => "ethereum" | arbitrum => "arbitrum"
  | optimism => "optimism" | polygon => "polygon" | baseSepolia => "baseSepolia"
  end.

Definition statusName (s : Status) : string :=
  match s with
  | success => "success" | failed => "failed" | pending => "pending"
  | blocked => "blocked"
  end.

(** [r[h]]: [None] when the property is undefined. *)
Definition prop (r : PaymentReceipt) (h : Key) : option string :=
  match h with
  | Kid => Some (id r) | Ktimestamp => Some (timestamp r) | Kurl => Some (url r)
  | Kamount => Some (amount r) | Kcurrency => Some (currency r)
  | Knetwork => Some (networkName (network r)) | Krecipient => Some (recipient r)
  | KtxHash => txHash r | Kstatus => Some (statusName (status r))
  | KblockReason => blockReason r
  end.

Definition headers : list Key :=
  [Kid; Ktimestamp; Kurl; Kamount; Kcurrency; Knetwork; Krecipient; KtxHash; Kstatus;
   KblockReason].

(** The double quote and the line feed. *)
Definition quoteChar : ascii := ascii_of_nat 34.
Definition lineFeed : ascii := ascii_of_nat 10.

(** One cell of a row: empty for a missing value, in double quotes when the
    value contains a comma. *)
Definition cell (val : option string) : string :=
  match val with
  | None => ""
  | Some val =>
      if includes "," val
      then String quoteChar EmptyString +:+ val +:+ String quoteChar EmptyString
      else val
  end.

Definition row (r : PaymentReceipt) : string :=
  String.concat "," (map (fun h => cell (prop r h)) headers).

(** Export receipts as CSV. *)
Definition exportCsv : R string :=
  this ← getThis;
  let rows := map row (receipts this) in
  mret (String.concat (String lineFeed EmptyString)
          (String.concat "," (map keyName headers) :: rows)).

End Receipts.

(** ** The notions of the specification *)

Module Spec.
Import Js Policy.

(** The eight checks, in the order of the specification. *)
Inductive Check :=
| PerTransactionCap
| DailyLimit
| WeeklyLimit
| MonthlyLimit
| VelocityLimit
| PerRecipientDailyLimit
| Blacklist
| Whitelist.

Definition evaluationOrder : list Check :=
  [PerTransactionCap; DailyLimit; WeeklyLimit; MonthlyLimit; VelocityLimit;
   PerRecipientDailyLimit; Blacklist; Whitelist].

(** The check a reason belongs to. *)
Definition checkOf (r : Reason) : Check :=
  match r with
  | ExceedsPerTransaction _ _ => PerTransactionCap
  | ExceedsDaily _ _ => DailyLimit
  | ExceedsWeekly _ _ => WeeklyLimit
  | ExceedsMonthly _ _ => MonthlyLimit
  | VelocityExceeded _ _ => VelocityLimit
  | PerRecipientExceeded _ _ _ => PerRecipientDailyLimit
  | RecipientBlocked _ => Blacklist
  | NotWhitelisted _ => Whitelist
  end.

(** The letters, in upper and in lower case. *)
Definition upperLetters : string := "ABCDEFGHIJKLMNOPQRSTUVWXYZ".
Definition lowerLetters : string := "abcdefghijklmnopqrstuvwxyz".

Fixpoint letterPairs (upper lower : string) : list (ascii * ascii) :=
  match upper, lower with
  | String u upper', String l lower' => (u, l) :: letterPairs upper' lower'
  | _, _ => []
  end.

(** Two characters are the same up to case: they are equal, or one is an
    upper-case letter and the other is the lower-case letter at the same place
    of the alphabet. *)
Definition sameLetter (c d : ascii) : bool :=
  Ascii.eqb c d
  || existsb (fun p => (Ascii.eqb c (fst p) && Ascii.eqb d (snd p))
                       || (Ascii.eqb c (snd p) && Ascii.eqb d (fst p)))
       (letterPairs upperLetters lowerLetters).

(** Two addresses are equal case-insensitively: they have the same length and
    the same letters up to case, place by place. *)
Fixpoint equalIgnoringCase (a b : string) : bool :=
  match a, b with
  | EmptyString, EmptyString => true
  | String c a', String d b' => sameLetter c d && equalIgnoringCase a' b'
  | _, _ => false
  end.

(** The 256 characters. *)
Definition allCharacters : list ascii := map ascii_of_nat (seq 0 256).

(** [recipient] is in the list, addresses compared case-insensitively. *)
Definition listed (addrs : option (list string)) (recipient : string) : bool :=
  match addrs with
  | Some l => existsb (fun addr => equalIgnoringCase addr recipient) l
  | None => false
  end.

(** The count of [recentTransactions] within the trailing hour. *)
Definition recentCount (now : Clock) (st : SpendingState) : nat :=
  List.length
    (List.filter (fun t => nowMs now - 3600000 <? timestamp t) (recentTransactions st)).

(** When a check fails, in the words of the specification. *)
Definition fails (now : Clock) (this : Enforcer) (amount : number) (recipient : string)
    (c : Check) : bool :=
  let p := policy this in
  let st := state this in
  match c with
  | PerTransactionCap => gt amount (maxPerTransaction p)
  | DailyLimit => gt (dailySpent st + amount)%float (dailyLimit p)
  | WeeklyLimit =>
      match weeklyLimit p with
      | Some l => gt (weeklySpent st + amount)%float l
      | None => false
      end
  | MonthlyLimit =>
      match monthlyLimit p with
      | Some l => gt (monthlySpent st + amount)%float l
      | None => false
      end
  | VelocityLimit =>
      match maxTransactionsPerHour p with
      | Some l => ge (numOfNat (recentCount now st)) l
      | None => false
      end
  | PerRecipientDailyLimit =>
      match perRecipientDailyLimit p with
      | Some l =>
          gt (orZero (perRecipient st !! toLowerCase recipient) + amount)%float l
      | None => false
      end
  | Blacklist => listed (blockedRecipients p) recipient
  | Whitelist =>
      match approvedRecipients p with
      | Some (a :: l) => negb (listed (Some (a :: l)) recipient)
      | _ => false
      end
  end.

(** The reason reported for a failing check. *)
Definition reasonOf (now : Clock) (this : Enforcer) (amount : number) (recipient : string)
    (c : Check) : Reason :=
  let p := policy this in
  let st := state this in
  match c with
  | PerTransactionCap => ExceedsPerTransaction amount (maxPerTransaction p)
  | DailyLimit => ExceedsDaily (dailySpent st) (dailyLimit p)
  | WeeklyLimit => ExceedsWeekly (weeklySpent st) (default 0%float (weeklyLimit p))
  | MonthlyLimit => ExceedsMonthly (monthlySpent st) (default 0%float (monthlyLimit p))
  | VelocityLimit =>
      VelocityExceeded (recentCount now st) (default 0%float (maxTransactionsPerHour p))
  | PerRecipientDailyLimit =>
      PerRecipientExceeded recipient (orZero (perRecipient st !! toLowerCase recipient))
        (default 0%float (perRecipientDailyLimit p))
  | Blacklist => RecipientBlocked recipient
  | Whitelist => NotWhitelisted recipient
  end.

(** The amount or projected bucket total that a limit check compares, and
    the configured limit it is compared with. *)
Definition compared (this : Enforcer) (amount : number) (recipient : string)
    (c : Check) : option (number * number) :=
  let p := policy this in
  let st := state this in
  match c with
  | PerTransactionCap => Some (amount, maxPerTransaction p)
  | DailyLimit => Some ((dailySpent st + amount)%float, dailyLimit p)
  | WeeklyLimit =>
      option_map (fun l => ((weeklySpent st + amount)%float, l)) (weeklyLimit p)
  | MonthlyLimit =>
      option_map (fun l => ((monthlySpent st + amount)%float, l)) (monthlyLimit p)
  | PerRecipientDailyLimit =>
      option_map
        (fun l => ((orZero (perRecipient st !! toLowerCase recipient) + amount)%float, l))
        (perRecipientDailyLimit p)
  | VelocityLimit | Blacklist | Whitelist => None
  end.

(** The recipient passes the two lists: it is not blacklisted, and either no
    whitelist is set or it is whitelisted. *)
Definition recipientAccepted (p : PaymentPolicy) (recipient : string) : Prop :=
  listed (blockedRecipients p) recipient = false
  /\ (approvedRecipients p = None \/ listed (approvedRecipients p) recipient = true).

(** A fresh ledger: nothing spent, no transaction. *)
Definition freshLedger (st : SpendingState) : Prop :=
  dailySpent st = 0%float /\ weeklySpent st = 0%float /\ monthlySpent st = 0%float
  /\ recentTransactions st = [] /\ perRecipient st = ∅.

(** [after] is exactly [a] larger than [before], as rational numbers. *)
Definition exactlyLarger (before after a : number) : Prop :=
  match exactValue before, exactValue after, exactValue a with
  | Some b, Some c, Some x => (c == b + x)%Q
  | _, _, _ => False
  end.

(** As rational numbers, the sum of [spent] and [amount] is above [limit]. *)
Definition exactSumAbove (spent amount limit : number) : Prop :=
  match exactValue spent, exactValue amount, exactValue limit with
  | Some s, Some x, Some l => (l < s + x)%Q
  | _, _, _ => False
  end.

(** [after] is exactly [a] smaller than [before], clamped at zero. *)
Definition exactlySmallerClamped (before after a : number) : Prop :=
  match exactValue before, exactValue after, exactValue a with
  | Some b, Some c, Some x => if Qle_bool x b then (c == b - x)%Q else (c == 0)%Q
  | _, _, _ => False
  end.

(** The cumulative totals of a ledger are non-negative. *)
Definition nonNegative (st : SpendingState) : Prop :=
  (0 <=? dailySpent st)%float = true
  /\ (0 <=? weeklySpent st)%float = true
  /\ (0 <=? monthlySpent st)%float = true
  /\ (forall k v, perRecipient st !! k = Some v -> (0 <=? v)%float = true).

(** The first failing check, if any. *)
Definition firstFailing (now : Clock) (this : Enforcer) (amount : number)
    (recipient : string) : option Check :=
  List.find (fails now this amount recipient) evaluationOrder.

(** The six limit checks, which come before the two recipient lists. *)
Definition limitChecks : list Check :=
  [PerTransactionCap; DailyLimit; WeeklyLimit; MonthlyLimit; VelocityLimit;
   PerRecipientDailyLimit].

(** [iso] is the ISO rendering [YYYY-MM-DDTHH:mm:ss.sssZ] of an instant of the
    UTC day [day]: the date [day], the letter T, and a time of day. *)
Definition isoOfDay (day iso : string) : Prop :=
  includes "T" day = false /\ exists time, iso = day +:+ String "T" time.

(** A timestamp falls on the day [today] when its first characters are the
    date [today]. *)
Definition onDay (today timestamp : string) : Prop :=
  substring 0 (String.length today) timestamp = today.

(** The receipts that count towards today's total. *)
Definition countsToday (today : string) (r : Receipts.PaymentReceipt) : Prop :=
  onDay today (Receipts.timestamp r) /\ Receipts.status r = Receipts.success.

(** The same, as a test on a receipt. *)
Definition countedToday (today : string) (r : Receipts.PaymentReceipt) : bool :=
  String.prefix today (Receipts.timestamp r)
  && Receipts.Status_eqb (Receipts.status r) Receipts.success.

(** The sum of the parsed amounts of a list of receipts, from zero and in the
    order of the list. *)
Definition sumAmounts (parseFloat : string -> number)
    (l : list Receipts.PaymentReceipt) : number :=
  fold_left (fun sum r => (sum + parseFloat (Receipts.amount r))%float) l 0%float.

End Spec.

(** ** Sequences of method calls on one instance *)

Module Calls.
Import Js Policy.

(** A call of a public method of [PolicyEnforcer]. *)
Inductive Call :=
| CheckPayment (amountUsdc : number) (recipient : string)
| RecordPayment (amountUsdc : number) (recipient : string)
| GetStatus
| RequiresApproval (amountUsdc : number)
| Freeze.

Arguments CheckPayment amountUsdc%_float recipient%_string.
Arguments RecordPayment amountUsdc%_float recipient%_string.
Arguments RequiresApproval amountUsdc%_float.

(** The instance after a call made at clock reading [now]. *)
Definition after (now : Clock) (c : Call) (this : Enforcer) : Enforcer :=
  match c with
  | CheckPayment a r => snd (checkPayment a r now this)
  | RecordPayment a r => snd (recordPayment a r now this)
  | GetStatus => snd (getStatus now this)
  | RequiresApproval a => snd (requiresApproval a now this)
  | Freeze => snd (freeze now this)
  end.

(** The instance after a sequence of calls, each with its clock reading. *)
Definition afterAll (calls : list (Clock * Call)) (this : Enforcer) : Enforcer :=
  fold_left (fun e c => after (fst c) (snd c) e) calls this.

(** The call records no negative amount. *)
Definition recordsNonNegative (c : Call) : Prop :=
  match c with
  | RecordPayment a _ => (0 <=? a)%float = true
  | _ => True
  end.

End Calls.

(** ** The rolling hour of the velocity limit *)

Module RollingHour.
Import Js Policy Calls.

(** The call is a [recordPayment] made at a clock reading within the hour
    before [now]. *)
Definition recordedWithinHour (now : Clock) (c : Clock * Call) : bool :=
  match snd c with
  | RecordPayment _ _ => nowMs now - 3600000 <? nowMs (fst c)
  | _ => false
  end.

End RollingHour.

(** ** Policies with other recipient lists *)

Module Lists.
Import Js Policy.

(** The instance with other recipient lists in its policy. *)
Definition withLists (approved blocked : option (list string)) (this : Enforcer) : Enforcer :=
  let p := policy this in
  {| policy :=
       {| maxPerTransaction := maxPerTransaction p; dailyLimit := dailyLimit p;
          weeklyLimit := weeklyLimit p; monthlyLimit := monthlyLimit p;
          maxTransactionsPerHour := maxTransactionsPerHour p;
          perRecipientDailyLimit := perRecipientDailyLimit p;
          approvedRecipients := approved;
          blockedRecipients := blocked;
          requireDryRun := requireDryRun p; autoApproveUnder := autoApproveUnder p;
          simulateBeforePay := simulateBeforePay p |};
     state := state this;
     spendingFile := spendingFile this |}.

(** A list that is left out or empty. *)
Definition noList (addrs : option (list string)) : Prop :=
  addrs = None \/ addrs = Some [].

End Lists.

(** ** The daily-only policy enforcer

    The earlier variant of the class [PolicyEnforcer]: one total for the day,
    no velocity or per-recipient limit, and [recordPayment(amountUsdc)] without
    a recipient.  It reads the same [PaymentPolicy] objects. *)

Module DailyPolicy.
Import Js.

(** [interface DailySpending]. *)
Record DailySpending := {
  date : string;
  totalUsdc : number;
  transactions : number
}.

(** The instance: the policy, the ledger of the day and the file at
    [spendingPath] ([None]: the file is absent or is not valid JSON). *)
Record Enforcer := {
  policy : Policy.PaymentPolicy;
  spending : DailySpending;
  spendingFile : option DailySpending
}.

Definition M (A : Type) : Type := Policy.Clock -> Enforcer -> A * Enforcer.

#[export] Instance M_ret : MRet M := fun A a _ this => (a, this).
#[export] Instance M_bind : MBind M :=
  fun A B k m now this => let (a, this') := m now this in k a now this'.

Definition getClock : M Policy.Clock := fun now this => (now, this).
Definition getThis : M Enforcer := fun _ this => (this, this).
Definition setSpending (s : DailySpending) : M unit :=
  fun _ this =>
    (tt, {| policy := policy this; spending := s; spendingFile := spendingFile this |}).

(** [writeFileSync(this.spendingPath, JSON.stringify(this.spending, null, 2))]. *)
Definition saveSpending : M unit :=
  fun _ this =>
    (tt, {| policy := policy this; spending := spending this;
            spendingFile := Some (spending this) |}).

(** [loadSpending]: [file] is the parsed content of [spendingPath], [None]
    when the file does not exist or [JSON.parse] throws. *)
Definition loadSpending (now : Policy.Clock) (file : option DailySpending) : DailySpending :=
  let today := Policy.isoDate now 0 in
  block (match file with
         | Some data =>
             (* Reset if it's a new day *)
             if String.eqb (date data) today then Some data else None
         | None => None
         end) ;;;
  {| date := today; totalUsdc := 0%float; transactions := 0%float |}.

(** [new PolicyEnforcer(policy, spendingPath)]. *)
Definition newPolicyEnforcer (policy : Policy.PaymentPolicy) (file : option DailySpending)
    (now : Policy.Clock) : Enforcer :=
  {| policy := policy; spending := loadSpending now file; spendingFile := file |}.

Definition checkPayment (amountUsdc : number) (recipient : string) : M Policy.CheckResult :=
  this ← getThis;
  mret (
    (* Check per-transaction limit *)
    block (if gt amountUsdc (Policy.maxPerTransaction (policy this))
           then Some (Policy.deny
                        (Policy.ExceedsPerTransaction amountUsdc
                           (Policy.maxPerTransaction (policy this))))
           else None) ;;;
    (* Check daily limit *)
    let projectedDaily := (totalUsdc (spending this) + amountUsdc)%float in
    block (if gt projectedDaily (Policy.dailyLimit (policy this))
           then Some (Policy.deny
                        (Policy.ExceedsDaily (totalUsdc (spending this))
                           (Policy.dailyLimit (policy this))))
           else None) ;;;
    (* Check recipient blacklist FIRST (takes priority over whitelist) *)
    block (match Policy.nonEmpty (Policy.blockedRecipients (policy this)) with
           | Some blockedRecipients =>
               let normalized := toLowerCase recipient in
               let blocked := Policy.someMatches blockedRecipients normalized in
               if blocked then Some (Policy.deny (Policy.RecipientBlocked recipient)) else None
           | None => None
           end) ;;;
    (* Check recipient whitelist *)
    block (match Policy.nonEmpty (Policy.approvedRecipients (policy this)) with
           | Some approvedRecipients =>
               let normalized := toLowerCase recipient in
               let approved := Policy.someMatches approvedRecipients normalized in
               if negb approved
               then Some (Policy.deny (Policy.NotWhitelisted recipient))
               else None
           | None => None
           end) ;;;
    Policy.allow).

Definition recordPayment (amountUsdc : number) : M unit :=
  now ← getClock;
  this ← getThis;
  (* Reset if new day *)
  let today := Policy.isoDate now 0 in
  let spending :=
    if negb (String.eqb (date (spending this)) today)
    then {| date := today; totalUsdc := 0%float; transactions := 0%float |}
    else spending this in
  setSpending
    {| date := date spending;
       totalUsdc := (totalUsdc spending + amountUsdc)%float;
       transactions := (transactions spending + 1)%float |};;
  saveSpending.

(** The object [getStatus] reports. *)
Module Status.
Record t := {
  daily : DailySpending;
  policy : Policy.PaymentPolicy;
  remainingDaily : number
}.
End Status.

Definition getStatus : M Status.t :=
  this ← getThis;
  mret {| Status.daily := spending this;
          Status.policy := policy this;
          Status.remainingDaily :=
            mathMax0 (Policy.dailyLimit (policy this) - totalUsdc (spending this))%float |}.

Definition requiresApproval (amountUsdc : number) : M bool :=
  this ← getThis;
  mret (match Policy.autoApproveUnder (policy this) with
        | None => true
        | Some autoApproveUnder => ge amountUsdc autoApproveUnder
        end).

Arguments checkPayment amountUsdc%_float recipient%_string.
Arguments recordPayment amountUsdc%_float.
Arguments requiresApproval amountUsdc%_float.

(** The two enforcers hold the same policy and the same ledger of the day. *)
Definition sameDay (basic : Enforcer) (full : Policy.Enforcer) : Prop :=
  policy basic = Policy.policy full
  /\ date (spending basic) = Policy.date (Policy.state full)
  /\ totalUsdc (spending basic) = Policy.dailySpent (Policy.state full)
  /\ transactions (spending basic) = Policy.transactions (Policy.state full).

(** The policy sets none of the limits that only the full enforcer knows. *)
Definition dailyOnly (p : Policy.PaymentPolicy) : Prop :=
  Policy.weeklyLimit p = None /\ Policy.monthlyLimit p = None
  /\ Policy.maxTransactionsPerHour p = None /\ Policy.perRecipientDailyLimit p = None.

End DailyPolicy.

(** ** Sequences of method calls on one receipt store *)

Module ReceiptCalls.
Import Js Receipts.

(** A call of a public method of [ReceiptStore]. *)
Inductive Call :=
| CreateReceipt (partial : Partial.t)
| UpdateReceipt (id : string) (update : Update.t)
| RecordBlocked (url amount amountRaw recipient : string) (network : NetworkName)
    (reason : string)
| GetAll
| GetByStatus (status : Status)
| GetToday
| GetTodayTotal
| GetRecent (limit : option Z)
| ExportCsv.

Section ParseFloat.

Variable parseFloat : string -> number.

(** The store after a call, given the runtime's answers during it. *)
Definition after (env : Env) (c : Call) (this : ReceiptStore) : ReceiptStore :=
  match c with
  | CreateReceipt partial => snd (createReceipt partial env this)
  | UpdateReceipt id update => snd (updateReceipt id update env this)
  | RecordBlocked url amount amountRaw recipient network reason =>
      snd (recordBlocked url amount amountRaw recipient network reason env this)
  | GetAll => snd (getAll env this)
  | GetByStatus status => snd (getByStatus status env this)
  | GetToday => snd (getToday env this)
  | GetTodayTotal => snd (getTodayTotal parseFloat env this)
  | GetRecent limit => snd (getRecent limit env this)
  | ExportCsv => snd (exportCsv env this)
  end.

(** The store after a sequence of calls. *)
Definition afterAll (calls : list (Env * Call)) (this : ReceiptStore) : ReceiptStore :=
  fold_left (fun s c => after (fst c) (snd c) s) calls this.

End ParseFloat.

(** The calls that add a receipt. *)
Definition adds (c : Env * Call) : bool :=
  match snd c with
  | CreateReceipt _ | RecordBlocked _ _ _ _ _ _ => true
  | _ => false
  end.

End ReceiptCalls.

(** ** Reading a CSV text back *)

Module Csv.
Import Js Receipts.

(** The character [c] occurs in [s]. *)
Fixpoint hasChar (c : ascii) (s : string) : bool :=
  match s with
  | EmptyString => false
  | String c' s' => Ascii.eqb c' c || hasChar c s'
  end.

(** [s.split(sep)] for a separator of one character. *)
Fixpoint splitOn (sep : ascii) (s : string) : list string :=
  match s with
  | EmptyString => [EmptyString]
  | String c s' =>
      if Ascii.eqb c sep then EmptyString :: splitOn sep s'
      else match splitOn sep s' with
           | x :: l => String c x :: l
           | [] => [String c EmptyString]
           end
  end.

(** The cells of one line, as a CSV reader takes them: a comma outside double
    quotes ends a cell, and the double quotes themselves are dropped. *)
Fixpoint readCells (inQuotes : bool) (cur : string) (s : string) : list string :=
  match s with
  | EmptyString => [cur]
  | String c s' =>
      if Ascii.eqb c quoteChar then readCells (negb inQuotes) cur s'
      else if Ascii.eqb c "," && negb inQuotes then cur :: readCells false EmptyString s'
      else readCells inQuotes (cur +:+ String c EmptyString) s'
  end.

Definition cells (line : string) : list string := readCells false EmptyString line.

(** No field of the receipt contains the character [c]. *)
Definition free (c : ascii) (r : PaymentReceipt) : Prop :=
  forall h v, prop r h = Some v -> hasChar c v = false.

End Csv.

(** ** The client

    The method [fetch] of the class [AgentPayClient], as far as it drives the
    policy enforcer and the receipt store.  The two HTTP exchanges and the
    decoding of their headers belong to the runtime and to the payment SDK:
    what they yield is an input of the call, and what [fetch] does to the
    outside is its list of events.  The policy block of [fetch] catches
    whatever is thrown in it, the [PaymentBlockedError] apart, and goes on to
    the paid request: a recipient that is not a string (on which
    [checkPayment] throws), a failing write of [recordBlocked] and a throwing
    [onBlocked] are inputs of the call.  In the bookkeeping after the paid
    request, [onPayment] and the writes of the two files are taken not to
    throw. *)

Module Client.
Import Js.

(** [decoded.payTo || decoded.recipient || 'unknown']: the header is JSON
    that nobody has validated, so the value is a string or some other value,
    on which [recipient.toLowerCase()] throws. *)
Inductive Recipient :=
| Address (recipient : string)
| NotAString.

(** The payment header of the probe response, as far as the three
    assignments of [fetch] get with it: [JSON.parse(atob(header))] throws or
    does not give an object; or [expectedAmountRaw] is assigned and [BigInt]
    throws on it; or all three of [expectedAmountRaw], [expectedAmount] and
    [expectedRecipient] are assigned. *)
Inductive PaymentHeader :=
| NotJson
| BadAmount (expectedAmountRaw : string)
| Details (expectedAmountRaw : string) (expectedAmount : number)
    (expectedRecipient : Recipient).

Arguments Details expectedAmountRaw%_string expectedAmount%_float expectedRecipient.

(** The payment response header of the paid request: absent or empty; or
    [decodePaymentResponseHeader] throws on it; or it decodes to an object
    with the property [transaction]. *)
Inductive PaymentResponse :=
| NoPaymentResponse
| Undecodable
| Settled (transaction : option string) (decoded : string).

(** What goes wrong after a denial, inside the policy block: nothing; or the
    write of [recordBlocked] throws, after the receipt was pushed, and leaves
    the file with the content [fileAfter]; or the callback [onBlocked]
    throws. *)
Inductive BlockFault :=
| NoFault
| WriteFails (fileAfter : option (list Receipts.PaymentReceipt))
| OnBlockedThrows.

(** What a call of [fetch] meets: the probe's payment header ([None] when the
    probe fails, its status is not 402, or it carries no payment header), what
    goes wrong after a denial, the payment response of the paid request, the
    clock readings of [checkPayment] and of [recordPayment], and the runtime's
    answers for the receipt. *)
Record World := {
  probe : option PaymentHeader;
  fault : BlockFault;
  paid : PaymentResponse;
  atCheck : Policy.Clock;
  atRecord : Policy.Clock;
  receiptEnv : Receipts.Env
}.

(** What [fetch] does to the outside, in order: the callbacks of the
    configuration (called when set), the paid request, and the transfer of
    the protocol fee that it starts. *)
Inductive Event :=
| OnBlocked (reason url : string) (amount : number) (recipient : string)
| FetchWithPayment (url : string)
| OnPayment (receipt : Receipts.PaymentReceipt)
| TransferProtocolFee (amountUsdc : number) (network : Receipts.NetworkName).

(** [fetch] returns the response or throws [PaymentBlockedError]. *)
Inductive Outcome :=
| Response
| PaymentBlockedError (reason : string) (receipt : Receipts.PaymentReceipt).

(** The instance: [this.policy], [this.receipts] and [this.config.network]. *)
Record AgentPayClient := {
  policy : Policy.Enforcer;
  receipts : Receipts.ReceiptStore;
  network : option Receipts.NetworkName
}.

Section Runtime.

(** [x.toFixed(digits)] and [String(x)] of the runtime. *)
Variable toFixed : nat -> number -> string.
Variable numberToString : number -> string.

(** The text of a template literal. *)
Definition text (msg : list Policy.piece) : string :=
  String.concat ""
    (map (fun p =>
            match p with
            | Policy.Lit s => s
            | Policy.Fixed2 x => toFixed 2 x
            | Policy.Num x => numberToString x
            | Policy.Str s => s
            end) msg).

(** [policyResult.reason!]; [checkPayment] sets the reason whenever it
    denies. *)
Definition reasonText (result : Policy.CheckResult) : string :=
  match Policy.reason result with
  | Some r => text (Policy.message r)
  | None => "undefined"
  end.

(** The second half of [fetch]: the paid request and its bookkeeping;
    [events] is what the policy block did to the outside. *)
Definition pay (events : list Event) (url : string) (network' : Receipts.NetworkName)
    (expectedAmount : number) (expectedAmountRaw : string) (expectedRecipient : Recipient)
    (w : World) (this : AgentPayClient) : Outcome * list Event * AgentPayClient :=
  (* Make the actual payment-enabled request *)
  let events := (events ++ [FetchWithPayment url])%list in
  (* If payment was made, record receipt *)
  match paid w with
  | Settled txHash decoded =>
      (* Use amount from probe phase *)
      let amountUsdc := expectedAmount in
      let amountRaw := expectedAmountRaw in
      match expectedRecipient with
      | Address expectedRecipient =>
          (* Record successful payment *)
          let policy' :=
            snd (Policy.recordPayment amountUsdc expectedRecipient (atRecord w)
                   (policy this)) in
          let '(receipt, receipts') :=
            Receipts.createReceipt
              {| Receipts.Partial.url := url;
                 Receipts.Partial.amount := toFixed 6 amountUsdc;
                 Receipts.Partial.amountRaw := amountRaw;
                 Receipts.Partial.currency := "USDC";
                 Receipts.Partial.network := network';
                 Receipts.Partial.recipient := expectedRecipient;
                 Receipts.Partial.txHash := txHash;
                 Receipts.Partial.blockReason := None;
                 Receipts.Partial.facilitatorResponse := Some decoded |}
              (receiptEnv w) (receipts this) in
          let '(_, receipts') :=
            Receipts.updateReceipt (Receipts.id receipt)
              {| Receipts.Update.id := None; Receipts.Update.timestamp := None;
                 Receipts.Update.url := None; Receipts.Update.amount := None;
                 Receipts.Update.amountRaw := None; Receipts.Update.currency := None;
                 Receipts.Update.network := None; Receipts.Update.recipient := None;
                 Receipts.Update.txHash := None;
                 Receipts.Update.status := Some Receipts.success;
                 Receipts.Update.blockReason := None;
                 Receipts.Update.facilitatorResponse := None |}
              (receiptEnv w) receipts' in
          let events := (events ++ [OnPayment receipt])%list in
          (* Transfer protocol fee *)
          let events :=
            if gt amountUsdc 0
            then (events ++ [TransferProtocolFee amountUsdc network'])%list
            else events in
          (Response, events,
           {| policy := policy'; receipts := receipts'; network := network this |})
      | NotAString =>
          (* recordPayment throws at recipient.toLowerCase(), before it changes
             anything; the catch of the bookkeeping swallows it *)
          (Response, events, this)
      end
  | NoPaymentResponse | Undecodable => (Response, events, this)
  end.

(** Make a payment-enabled request with policy enforcement. *)
Definition fetch (url : string) (skipPolicyCheck : bool)
    (optionsNetwork : option Receipts.NetworkName)
    (w : World) (this : AgentPayClient) : Outcome * list Event * AgentPayClient :=
  let network' :=
    match optionsNetwork with
    | Some n => n
    | None => default Receipts.base (network this)
    end in
  (* Track payment details from probe for later use *)
  let expectedAmount := 0%float in
  let expectedAmountRaw := "0" in
  let expectedRecipient := Address "unknown" in
  (* If we get a 402, extract payment details for policy check *)
  match probe w with
  | Some paymentHeader =>
      if negb skipPolicyCheck then
        match paymentHeader with
        | Details expectedAmountRaw expectedAmount (Address recipient) =>
            (* Check policy *)
            let policyResult :=
              fst (Policy.checkPayment expectedAmount recipient (atCheck w)
                     (policy this)) in
            if negb (Policy.allowed policyResult) then
              (* Record blocked payment *)
              let '(receipt, receipts') :=
                Receipts.recordBlocked url (toFixed 6 expectedAmount) expectedAmountRaw
                  recipient network' (reasonText policyResult)
                  (receiptEnv w) (receipts this) in
              match fault w with
              | NoFault =>
                  (PaymentBlockedError (reasonText policyResult) receipt,
                   [OnBlocked (reasonText policyResult) url expectedAmount recipient],
                   {| policy := policy this; receipts := receipts';
                      network := network this |})
              | WriteFails fileAfter =>
                  (* the write throws after the push; what is thrown is not a
                     PaymentBlockedError: proceed anyway *)
                  pay [] url network' expectedAmount expectedAmountRaw (Address recipient) w
                    {| policy := policy this;
                       receipts :=
                         {| Receipts.receipts := Receipts.receipts receipts';
                            Receipts.receiptsFile := fileAfter |};
                       network := network this |}
              | OnBlockedThrows =>
                  (* the callback throws before the PaymentBlockedError is
                     thrown: proceed anyway *)
                  pay [OnBlocked (reasonText policyResult) url expectedAmount recipient]
                    url network' expectedAmount expectedAmountRaw (Address recipient) w
                    {| policy := policy this; receipts := receipts';
                       network := network this |}
              end
            else
              pay [] url network' expectedAmount expectedAmountRaw (Address recipient) w this
        | Details expectedAmountRaw expectedAmount NotAString =>
            (* checkPayment throws at recipient.toLowerCase(): proceed anyway *)
            pay [] url network' expectedAmount expectedAmountRaw NotAString w this
        | BadAmount expectedAmountRaw =>
            (* If we can't parse payment details, proceed anyway *)
            pay [] url network' expectedAmount expectedAmountRaw expectedRecipient w this
        | NotJson =>
            pay [] url network' expectedAmount expectedAmountRaw expectedRecipient w this
        end
      else pay [] url network' expectedAmount expectedAmountRaw expectedRecipient w this
  | None => pay [] url network' expectedAmount expectedAmountRaw expectedRecipient w this
  end.

(** Get payment history; [limit] is an integer, [None] when the argument is
    left out. *)
Definition getHistory (limit : option Z) (env : Receipts.Env) (this : AgentPayClient)
    : list Receipts.PaymentReceipt :=
  match limit with
  | Some l =>
      if l =? 0 then fst (Receipts.getAll env (receipts this))
      else fst (Receipts.getRecent (Some l) env (receipts this))
  | None => fst (Receipts.getAll env (receipts this))
  end.

End Runtime.

(** The policy check of [fetch] is attempted, and on what: the probe's header
    decodes and the caller does not skip the check. *)
Definition checked (skipPolicyCheck : bool) (w : World)
    : option (string * number * Recipient) :=
  match probe w with
  | Some (Details raw amount recipient) =>
      if skipPolicyCheck then None else Some (raw, amount, recipient)
  | _ => None
  end.

(** The paid request is among the events. *)
Definition sent (url : string) (events : list Event) : Prop :=
  In (FetchWithPayment url) events.

End Client.

(** ** Sample instances, for the concrete runs below *)

Module Samples.
Import Js Policy.

(** Monday 2 November 2026, 12:00 UTC, in a UTC time zone. *)
Definition monday : Clock :=
  {| nowMs := 1793620800000;
     isoDate := fun k =>
       if k =? 0 then "2026-11-02" else if k =? -1 then "2026-11-01" else "";
     getDay := 1;
     getFullYear := 2026;
     getMonth := 10 |}.

(** The policy of the test suite. *)
Definition testPolicy : PaymentPolicy :=
  {| maxPerTransaction := 1%float;
     dailyLimit := 10%float;
     weeklyLimit := None;
     monthlyLimit := None;
     maxTransactionsPerHour := Some 10%float;
     perRecipientDailyLimit := None;
     approvedRecipients := Some ["0xApproved1"; "0xApproved2"];
     blockedRecipients := Some ["0xBlocked"];
     requireDryRun := None;
     autoApproveUnder := Some 0.1%float;
     simulateBeforePay := None |}.

(** A policy with only the two required limits. *)
Definition limitsOnly (maxPerTransaction dailyLimit : number) : PaymentPolicy :=
  {| maxPerTransaction := maxPerTransaction;
     dailyLimit := dailyLimit;
     weeklyLimit := None;
     monthlyLimit := None;
     maxTransactionsPerHour := None;
     perRecipientDailyLimit := None;
     approvedRecipients := None;
     blockedRecipients := None;
     requireDryRun := None;
     autoApproveUnder := None;
     simulateBeforePay := None |}.

Arguments limitsOnly (maxPerTransaction dailyLimit)%_float.

(** A policy whose two lists both hold the same address. *)
Definition bothLists : PaymentPolicy :=
  {| maxPerTransaction := 1%float;
     dailyLimit := 10%float;
     weeklyLimit := None;
     monthlyLimit := None;
     maxTransactionsPerHour := None;
     perRecipientDailyLimit := None;
     approvedRecipients := Some ["0xBAD"; "0xGood"];
     blockedRecipients := Some ["0xbad"];
     requireDryRun := None;
     autoApproveUnder := None;
     simulateBeforePay := None |}.

(** Sunday 1 November 2026, 12:00 UTC: the day before [monday], in the
    previous week and the same month. *)
Definition sunday : Clock :=
  {| nowMs := 1793534400000;
     isoDate := fun k =>
       if k =? 0 then "2026-11-01" else if k =? -6 then "2026-10-26" else "";
     getDay := 0;
     getFullYear := 2026;
     getMonth := 10 |}.

(** The runtime's answers for two receipts made on 2 November 2026. *)
Definition firstReceipt : Receipts.Env :=
  {| Receipts.randomUUID := "6f1c";
     Receipts.toISOString := "2026-11-02T12:00:00.000Z" |}.

Definition secondReceipt : Receipts.Env :=
  {| Receipts.randomUUID := "a2e7";
     Receipts.toISOString := "2026-11-02T12:00:01.000Z" |}.

(** The fields of a payment of 0.50 USDC. *)
Definition halfDollar : Receipts.Partial.t :=
  {| Receipts.Partial.url := "https://api.example.com/data";
     Receipts.Partial.amount := "0.50";
     Receipts.Partial.amountRaw := "500000";
     Receipts.Partial.currency := "USDC";
     Receipts.Partial.network := Receipts.base;
     Receipts.Partial.recipient := "0x1234";
     Receipts.Partial.txHash := None;
     Receipts.Partial.blockReason := None;
     Receipts.Partial.facilitatorResponse := None |}.

(** Three receipts: paid today, pending today, paid the day before. *)
Definition paidToday : Receipts.PaymentReceipt :=
  {| Receipts.id := "6f1c"; Receipts.timestamp := "2026-11-02T09:30:00.000Z";
     Receipts.url := "https://api.example.com/data"; Receipts.amount := "0.50";
     Receipts.amountRaw := "500000"; Receipts.currency := "USDC";
     Receipts.network := Receipts.base; Receipts.recipient := "0x1234";
     Receipts.txHash := Some "0x9f3e"; Receipts.status := Receipts.success;
     Receipts.blockReason := None; Receipts.facilitatorResponse := None |}.

Definition pendingToday : Receipts.PaymentReceipt :=
  {| Receipts.id := "a2e7"; Receipts.timestamp := "2026-11-02T11:00:00.000Z";
     Receipts.url := "https://api.example.com/data"; Receipts.amount := "0.25";
     Receipts.amountRaw := "250000"; Receipts.currency := "USDC";
     Receipts.network := Receipts.base; Receipts.recipient := "0x1234";
     Receipts.txHash := None; Receipts.status := Receipts.pending;
     Receipts.blockReason := None; Receipts.facilitatorResponse := None |}.

Definition paidYesterday : Receipts.PaymentReceipt :=
  {| Receipts.id := "c3d9"; Receipts.timestamp := "2026-11-01T23:59:59.000Z";
     Receipts.url := "https://api.example.com/data"; Receipts.amount := "4.00";
     Receipts.amountRaw := "4000000"; Receipts.currency := "USDC";
     Receipts.network := Receipts.base; Receipts.recipient := "0x1234";
     Receipts.txHash := Some "0x77aa"; Receipts.status := Receipts.success;
     Receipts.blockReason := None; Receipts.facilitatorResponse := None |}.

Definition threeReceipts : Receipts.ReceiptStore :=
  Receipts.newReceiptStore (Some [paidYesterday; paidToday; pendingToday]).

(** [parseFloat] on the amounts of these receipts. *)
Definition parseAmount (s : string) : number :=
  if String.eqb s "0.50" then 0.5%float
  else if String.eqb s "0.25" then 0.25%float
  else if String.eqb s "4.00" then 4%float
  else nan.

(** The update [{ status }]. *)
Definition setStatus (s : Receipts.Status) : Receipts.Update.t :=
  {| Receipts.Update.id := None; Receipts.Update.timestamp := None;
     Receipts.Update.url := None; Receipts.Update.amount := None;
     Receipts.Update.amountRaw := None; Receipts.Update.currency := None;
     Receipts.Update.network := None; Receipts.Update.recipient := None;
     Receipts.Update.txHash := None; Receipts.Update.status := Some s;
     Receipts.Update.blockReason := None; Receipts.Update.facilitatorResponse := None |}.

(** The policies of the extended test suite. *)
Definition weeklyOnly (maxPerTransaction dailyLimit weeklyLimit : number) : PaymentPolicy :=
  {| maxPerTransaction := maxPerTransaction;
     dailyLimit := dailyLimit;
     weeklyLimit := Some weeklyLimit;
     monthlyLimit := None;
     maxTransactionsPerHour := None;
     perRecipientDailyLimit := None;
     approvedRecipients := None;
     blockedRecipients := None;
     requireDryRun := None;
     autoApproveUnder := None;
     simulateBeforePay := None |}.

Definition perRecipientOnly (maxPerTransaction dailyLimit perRecipientDailyLimit : number)
    : PaymentPolicy :=
  {| maxPerTransaction := maxPerTransaction;
     dailyLimit := dailyLimit;
     weeklyLimit := None;
     monthlyLimit := None;
     maxTransactionsPerHour := None;
     perRecipientDailyLimit := Some perRecipientDailyLimit;
     approvedRecipients := None;
     blockedRecipients := None;
     requireDryRun := None;
     autoApproveUnder := None;
     simulateBeforePay := None |}.

Arguments weeklyOnly (maxPerTransaction dailyLimit weeklyLimit)%_float.
Arguments perRecipientOnly (maxPerTransaction dailyLimit perRecipientDailyLimit)%_float.

(** A fresh enforcer: no spending file yet. *)
Definition fresh (p : PaymentPolicy) : Enforcer := newPolicyEnforcer p None monday.

End Samples.

(** ** Further scenarios *)

Module Scenarios.
Import Js Policy.

(** The receipt of a payment blocked for the daily limit: its reason holds a
    comma. *)
Definition blockedReceipt : Receipts.PaymentReceipt :=
  fst (Receipts.recordBlocked "https://api.example.com/data" "5.000000" "5000000" "0x1234"
         Receipts.base "Payment would exceed daily limit. Current: $9.50, Limit: $10.00"
         Samples.firstReceipt (Receipts.newReceiptStore None)).

(** The runtime's renderings of the numbers of these scenarios. *)
Definition toFixed (digits : nat) (x : number) : string :=
  if (x =? 5)%float then (if Nat.eqb digits 6 then "5.000000" else "5.00")
  else if (x =? 0.5)%float then (if Nat.eqb digits 6 then "0.500000" else "0.50")
  else if (x =? 1)%float then (if Nat.eqb digits 6 then "1.000000" else "1.00")
  else if Nat.eqb digits 6 then "0.000000" else "0.00".

Definition numberToString (x : number) : string :=
  if (x =? 10)%float then "10" else "0".

(** A client with the policy of the test suite, no spending file and no
    receipts file. *)
Definition client : Client.AgentPayClient :=
  {| Client.policy := Samples.fresh Samples.testPolicy;
     Client.receipts := Receipts.newReceiptStore None;
     Client.network := None |}.

(** The server asks for 5 USDC, above the cap of 1 USDC for one payment. *)
Definition tooExpensive : Client.World :=
  {| Client.probe := Some (Client.Details "5000000" 5 (Client.Address "0xApproved1"));
     Client.fault := Client.NoFault;
     Client.paid := Client.NoPaymentResponse;
     Client.atCheck := Samples.monday;
     Client.atRecord := Samples.monday;
     Client.receiptEnv := Samples.firstReceipt |}.

(** The server asks for 0.50 USDC and the payment is settled. *)
Definition settled : Client.World :=
  {| Client.probe := Some (Client.Details "500000" 0.5 (Client.Address "0xApproved1"));
     Client.fault := Client.NoFault;
     Client.paid := Client.Settled (Some "0x9f3e") "settled";
     Client.atCheck := Samples.monday;
     Client.atRecord := Samples.monday;
     Client.receiptEnv := Samples.firstReceipt |}.

(** The probe shows no payment header, and the paid request pays all the
    same. *)
Definition unannounced : Client.World :=
  {| Client.probe := None;
     Client.fault := Client.NoFault;
     Client.paid := Client.Settled (Some "0x9f3e") "settled";
     Client.atCheck := Samples.monday;
     Client.atRecord := Samples.monday;
     Client.receiptEnv := Samples.firstReceipt |}.

(** The server asks for 5 USDC, and the callback [onBlocked] throws. *)
Definition tooExpensiveAndCallbackThrows : Client.World :=
  {| Client.probe := Some (Client.Details "5000000" 5 (Client.Address "0xApproved1"));
     Client.fault := Client.OnBlockedThrows;
     Client.paid := Client.Settled (Some "0x9f3e") "settled";
     Client.atCheck := Samples.monday;
     Client.atRecord := Samples.monday;
     Client.receiptEnv := Samples.firstReceipt |}.

End Scenarios.

(** ** Properties *)

Import Js Policy Calls.

(** *** The scenarios of the test suite *)

Example allows_payment_within_limits_to_approved_recipient :
  fst (checkPayment 0.5 "0xApproved1" Samples.monday (Samples.fresh Samples.testPolicy))
    = allow.
Proof. reflexivity. Qed.

Example blocks_payment_exceeding_daily_limit :
  fst (checkPayment 1 "0xApproved1" Samples.monday
         (after Samples.monday (RecordPayment 9.5 "0xApproved1")
            (Samples.fresh Samples.testPolicy)))
    = deny (ExceedsDaily 9.5 10).
Proof. reflexivity. Qed.

Example blocks_payment_to_non_whitelisted_recipient :
  fst (checkPayment 0.5 "0xUnknown" Samples.monday (Samples.fresh Samples.testPolicy))
    = deny (NotWhitelisted "0xUnknown").
Proof. reflexivity. Qed.

Example handles_case_insensitive_address_matching :
  fst (checkPayment 0.5 "0xAPPROVED1" Samples.monday (Samples.fresh Samples.testPolicy))
    = allow.
Proof. reflexivity. Qed.

Example blocks_when_velocity_limit_exceeded :
  fst (checkPayment 0.01 "0xApproved1" Samples.monday
         (afterAll
            (repeat (Samples.monday, RecordPayment 0.01 "0xApproved1") 10)
            (Samples.fresh Samples.testPolicy)))
    = deny (VelocityExceeded 10 10).
Proof. vm_compute. reflexivity. Qed.

Example respects_weekly_spending_limit :
  fst (checkPayment 10 "0xRecipient" Samples.monday
         (after Samples.monday (RecordPayment 45 "0xRecipient")
            (Samples.fresh (Samples.weeklyOnly 100 1000 50))))
    = deny (ExceedsWeekly 45 50).
Proof. reflexivity. Qed.

Example allows_different_recipients_up_to_limit :
  fst (checkPayment 45 "0xRecipient2" Samples.monday
         (after Samples.monday (RecordPayment 45 "0xRecipient1")
            (Samples.fresh (Samples.perRecipientOnly 100 1000 50))))
    = allow
  /\ fst (checkPayment 10 "0xRECIPIENT1" Samples.monday
            (after Samples.monday (RecordPayment 45 "0xRecipient1")
               (Samples.fresh (Samples.perRecipientOnly 100 1000 50))))
      = deny (PerRecipientExceeded "0xRECIPIENT1" 45 50).
Proof. split; vm_compute; reflexivity. Qed.

Example calculates_remaining_daily_allowance :
  Status.daily
    (fst (getStatus Samples.monday
            (after Samples.monday (RecordPayment 3 "0xApproved1")
               (Samples.fresh Samples.testPolicy))))
    = {| Daily.spent := 3; Daily.limit := 10; Daily.remaining := 7;
         Daily.transactions := 1 |}.
Proof. reflexivity. Qed.

Example ledger_of_yesterday_loaded_today :
  let yesterday :=
    state (after Samples.sunday (RecordPayment 4 "0xabc")
             (newPolicyEnforcer (Samples.limitsOnly 10 10) None Samples.sunday)) in
  let today := loadState Samples.monday (Some yesterday) in
  dailySpent today = 0%float /\ weeklySpent today = 0%float
  /\ monthlySpent today = 4%float /\ perRecipient today = ∅.
Proof. repeat split. Qed.

(** *** Comparisons of binary64 numbers *)

Section FloatOrder.
Local Open Scope float_scope.

Lemma SFcompare_antisym (x y : spec_float) :
  SFcompare y x = option_map CompOpp (SFcompare x y).
Proof.
  destruct x as [sx|sx| |sx mx ex], y as [sy|sy| |sy my ey]; cbn;
    try reflexivity;
    try (destruct sx; reflexivity); try (destruct sy; reflexivity);
    try (destruct sx, sy; reflexivity).
  destruct sx, sy; cbn; try reflexivity.
  - rewrite (Z.compare_antisym ex ey). destruct (ex ?= ey)%Z; cbn; try reflexivity.
    rewrite CompOpp_involutive. f_equal. exact (Pos.compare_cont_antisym my mx Eq).
  - rewrite (Z.compare_antisym ex ey). destruct (ex ?= ey)%Z; cbn; try reflexivity.
    f_equal. symmetry. exact (Pos.compare_cont_antisym mx my Eq).
Qed.

Lemma ltb_asym (a b : float) : (a <? b) = true -> (b <? a) = false.
Proof.
  rewrite !ltb_spec. unfold SFltb. rewrite (SFcompare_antisym (Prim2SF a) (Prim2SF b)).
  destruct (SFcompare (Prim2SF a) (Prim2SF b)) as [[]|]; cbn; congruence.
Qed.

Lemma leb_not_gt (a b : float) : (a <=? b) = true -> (b <? a) = false.
Proof.
  rewrite ltb_spec, leb_spec. unfold SFltb, SFleb.
  rewrite (SFcompare_antisym (Prim2SF a) (Prim2SF b)).
  destruct (SFcompare (Prim2SF a) (Prim2SF b)) as [[]|]; cbn; congruence.
Qed.

Lemma ltb_zero_add (l a : float) : (l <? 0 + a) = (l <? a).
Proof.
  rewrite !ltb_spec, add_spec.
  change (Prim2SF 0) with (S754_zero false).
  destruct (Prim2SF a) as [s|s| |s m e]; try reflexivity.
  destruct s; cbn; destruct (Prim2SF l) as [sl|sl| |sl ml el]; reflexivity.
Qed.

Lemma ltb_neg_nonneg (a m : float) :
  (a <? 0) = true -> (0 <=? m) = true -> (m <? a) = false.
Proof.
  rewrite !ltb_spec, leb_spec. change (Prim2SF 0) with (S754_zero false).
  unfold SFltb, SFleb.
  destruct (Prim2SF a) as [s|s| |s ma ea], (Prim2SF m) as [sm|sm| |sm mm em]; cbn;
    try discriminate; try reflexivity;
    try (destruct s; discriminate || reflexivity);
    try (destruct sm; discriminate || reflexivity);
    try (destruct s, sm; discriminate || reflexivity).
Qed.

Lemma gt_irrefl (a : float) : gt a a = false.
Proof.
  unfold gt. destruct (a <? a) eqn:E; [|reflexivity].
  pose proof (ltb_asym a a E). congruence.
Qed.

Lemma mathMax0_not_negative (x : float) : (mathMax0 x <? 0) = false.
Proof.
  unfold mathMax0. destruct (is_nan x); [reflexivity|].
  destruct (0 <? x) eqn:E; [apply ltb_asym, E | reflexivity].
Qed.

Lemma leb_zero_add (a l : float) : (a <=? l) = true -> (0 + a <=? l) = true.
Proof.
  rewrite !leb_spec, add_spec. change (Prim2SF 0) with (S754_zero false).
  destruct (Prim2SF a) as [s|s| |s m e]; try (intros H; exact H).
  destruct s; cbn; destruct (Prim2SF l) as [sl|sl| |sl ml el]; intros H; exact H.
Qed.

End FloatOrder.

(** *** Rounding of binary64 sums

    [SFadd] rounds the exact sum of two finite numbers to nearest.  The lemmas
    below follow the rounding of [SpecFloat] far enough to show that the
    rounded sum of two non-negative numbers is not below either of them. *)

Section Rounding.
Local Open Scope Z_scope.

Lemma fexp64 (e : Z) : fexp prec emax e = Z.max (e - 53) (-1074).
Proof. reflexivity. Qed.

Lemma digits2_pos_bounds (p : positive) :
  2 ^ (Zpos (digits2_pos p) - 1) <= Zpos p < 2 ^ Zpos (digits2_pos p).
Proof.
  induction p as [p IH|p IH|]; cbn [digits2_pos]; [| |cbn; lia];
    rewrite Pos2Z.inj_succ;
    replace (Z.succ (Zpos (digits2_pos p)) - 1) with (Z.succ (Zpos (digits2_pos p) - 1)) by lia;
    rewrite !Z.pow_succ_r by lia; lia.
Qed.

Lemma digits2_pos_unique (p : positive) (d : Z) :
  2 ^ (d - 1) <= Zpos p < 2 ^ d -> Zpos (digits2_pos p) = d.
Proof.
  intros [Hl Hu]. pose proof (digits2_pos_bounds p) as [Hl' Hu'].
  assert (0 < d).
  { destruct (Z.ltb_spec 0 d) as [|Hd]; [assumption|].
    assert (2 ^ d <= 2 ^ 0) by (apply Z.pow_le_mono_r; lia). cbn in *. lia. }
  assert (d - 1 < Zpos (digits2_pos p)).
  { apply (Z.pow_lt_mono_r_iff 2); lia. }
  assert (Zpos (digits2_pos p) - 1 < d).
  { apply (Z.pow_lt_mono_r_iff 2); lia. }
  lia.
Qed.

Lemma digits2_pos_le (p q : positive) :
  Zpos p <= Zpos q -> Zpos (digits2_pos p) <= Zpos (digits2_pos q).
Proof.
  intros H. pose proof (digits2_pos_bounds p) as [Hl _].
  pose proof (digits2_pos_bounds q) as [_ Hu].
  assert (Zpos (digits2_pos p) - 1 < Zpos (digits2_pos q)).
  { apply (Z.pow_lt_mono_r_iff 2); lia. }
  lia.
Qed.

Lemma digits2_pos_shift (p q : positive) (k : Z) :
  0 <= k -> Zpos q = Zpos p * 2 ^ k ->
  Zpos (digits2_pos q) = Zpos (digits2_pos p) + k.
Proof.
  intros Hk Hq. apply digits2_pos_unique. rewrite Hq.
  pose proof (digits2_pos_bounds p) as [Hl Hu].
  replace (Zpos (digits2_pos p) + k - 1) with ((Zpos (digits2_pos p) - 1) + k) by lia.
  rewrite !Z.pow_add_r by lia.
  assert (0 < 2 ^ k) by (apply Z.pow_pos_nonneg; lia).
  split; [apply Z.mul_le_mono_nonneg_r; lia | apply Z.mul_lt_mono_pos_r; lia].
Qed.

Lemma shl_align_spec (mx : positive) (ex e' : Z) :
  Zpos (fst (shl_align mx ex e')) = Zpos mx * 2 ^ Z.max 0 (ex - e')
  /\ snd (shl_align mx ex e') = Z.min ex e'.
Proof.
  unfold shl_align. destruct (e' - ex) as [|d|d] eqn:E; cbn [fst snd].
  - replace (Z.max 0 (ex - e')) with 0 by lia. rewrite Z.pow_0_r. lia.
  - replace (Z.max 0 (ex - e')) with 0 by lia. rewrite Z.pow_0_r. lia.
  - replace (Z.max 0 (ex - e')) with (Zpos d) by lia.
    change (Pos.iter xO mx d) with (shift_pos d mx).
    rewrite shift_pos_correct, Zpower_pos_nat, Zpower_nat_Z, positive_nat_Z. lia.
Qed.

Lemma shr_1_m (mrs : shr_record) :
  0 <= shr_m mrs -> shr_m (shr_1 mrs) = shr_m mrs / 2.
Proof.
  destruct mrs as [m r s]. cbn [shr_m]. intros Hm.
  destruct m as [|[p|p|]|p]; try lia; cbn [shr_1 shr_m];
    rewrite <- Z.div2_div; reflexivity.
Qed.

Lemma div_pow2_twice (a x y : Z) :
  0 <= x -> 0 <= y -> a / 2 ^ x / 2 ^ y = a / 2 ^ (x + y).
Proof.
  intros Hx Hy. rewrite Zdiv.Zdiv_Zdiv by (apply Z.pow_nonneg; lia).
  rewrite Z.pow_add_r by lia. reflexivity.
Qed.

Lemma iter_pos_shr_m (p : positive) (mrs : shr_record) :
  0 <= shr_m mrs -> shr_m (SpecFloat.iter_pos shr_1 p mrs) = shr_m mrs / 2 ^ Zpos p.
Proof.
  revert mrs. induction p as [p IH|p IH|]; intros mrs Hm; cbn [SpecFloat.iter_pos].
  - assert (H1 : 0 <= shr_m (shr_1 mrs)) by (rewrite shr_1_m by lia; apply Z.div_pos; lia).
    assert (H2 : 0 <= shr_m (SpecFloat.iter_pos shr_1 p (shr_1 mrs)))
      by (rewrite IH by lia; apply Z.div_pos; [lia | apply Z.pow_pos_nonneg; lia]).
    rewrite IH, IH, shr_1_m by lia.
    change 2 with (2 ^ 1) at 1. rewrite !div_pow2_twice by lia.
    f_equal. f_equal. lia.
  - assert (H2 : 0 <= shr_m (SpecFloat.iter_pos shr_1 p mrs))
      by (rewrite IH by lia; apply Z.div_pos; [lia | apply Z.pow_pos_nonneg; lia]).
    rewrite IH, IH by lia. rewrite div_pow2_twice by lia.
    f_equal. f_equal. lia.
  - rewrite shr_1_m by lia. reflexivity.
Qed.

Lemma shr_spec (mrs : shr_record) (e n : Z) :
  0 <= shr_m mrs ->
  shr_m (fst (shr mrs e n)) = shr_m mrs / 2 ^ Z.max 0 n
  /\ snd (shr mrs e n) = e + Z.max 0 n.
Proof.
  intros Hm. unfold shr. destruct n as [|p|p]; cbn [fst snd].
  - cbn. rewrite Z.div_1_r. lia.
  - rewrite iter_pos_shr_m by lia. replace (Z.max 0 (Zpos p)) with (Zpos p) by lia. lia.
  - replace (Z.max 0 (Zneg p)) with 0 by lia. rewrite Z.pow_0_r, Z.div_1_r. lia.
Qed.

Lemma shr_m_of_loc (m : Z) (l : location) : shr_m (shr_record_of_loc m l) = m.
Proof. destruct l as [|[]]; reflexivity. Qed.

Lemma shr_fexp_spec (m e : Z) (l : location) :
  0 <= m ->
  let n := Z.max 0 (fexp prec emax (Zdigits2 m + e) - e) in
  shr_m (fst (shr_fexp prec emax m e l)) = m / 2 ^ n
  /\ snd (shr_fexp prec emax m e l) = e + n.
Proof.
  intros Hm n. unfold shr_fexp.
  pose proof (shr_spec (shr_record_of_loc m l) e (fexp prec emax (Zdigits2 m + e) - e)) as H.
  rewrite shr_m_of_loc in H. apply H, Hm.
Qed.

Lemma round_nearest_even_ge (m : Z) (l : location) : m <= round_nearest_even m l.
Proof. destruct l as [|[]]; cbn; try lia. destruct (Z.even m); lia. Qed.

Lemma bounded_canonical (mx : positive) (ex : Z) :
  bounded prec emax mx ex = true ->
  ex = Z.max (Zpos (digits2_pos mx) + ex - 53) (-1074) /\ ex <= 971.
Proof.
  unfold bounded, canonical_mantissa. rewrite fexp64.
  intros H. apply andb_prop in H as [H1 H2].
  apply Z.eqb_eq in H1. apply Z.leb_le in H2. change (emax - prec) with 971 in H2. lia.
Qed.

Lemma binary_round_aux_result (mz : positive) (ez f : Z) :
  fexp prec emax (Zpos (digits2_pos mz) + ez) = f ->
  ez <= f ->
  exists m2 : Z,
    Zpos mz / 2 ^ (f - ez) <= m2
    /\ binary_round_aux prec emax false (Zpos mz) ez loc_Exact
       = match m2 / 2 ^ Z.max 0 (fexp prec emax (Zdigits2 m2 + f) - f) with
         | Z0 => S754_zero false
         | Zpos m =>
             if f + Z.max 0 (fexp prec emax (Zdigits2 m2 + f) - f) <=? emax - prec
             then S754_finite false m (f + Z.max 0 (fexp prec emax (Zdigits2 m2 + f) - f))
             else S754_infinity false
         | Zneg _ => S754_nan
         end.
Proof.
  intros Ef Hf. unfold binary_round_aux.
  pose proof (shr_fexp_spec (Zpos mz) ez loc_Exact ltac:(lia)) as [Hm1 He1].
  cbv zeta in Hm1, He1. cbn [Zdigits2] in Hm1, He1. rewrite Ef in Hm1, He1.
  replace (Z.max 0 (f - ez)) with (f - ez) in Hm1, He1 by lia.
  replace (ez + (f - ez)) with f in He1 by lia.
  destruct (shr_fexp prec emax (Zpos mz) ez loc_Exact) as [mrs1 e1].
  cbn [fst snd] in Hm1, He1. subst e1.
  set (m2 := round_nearest_even (shr_m mrs1) (loc_of_shr_record mrs1)).
  assert (Hm2 : Zpos mz / 2 ^ (f - ez) <= m2).
  { rewrite <- Hm1. apply round_nearest_even_ge. }
  assert (H0 : 0 <= m2).
  { etransitivity; [|exact Hm2]. apply Z.div_pos; [lia|apply Z.pow_pos_nonneg; lia]. }
  exists m2. split; [exact Hm2|].
  pose proof (shr_fexp_spec m2 f loc_Exact H0) as [Hm3 He3]. cbv zeta in Hm3, He3.
  destruct (shr_fexp prec emax m2 f loc_Exact) as [mrs3 e3].
  cbn [fst snd] in Hm3, He3. rewrite Hm3, He3. reflexivity.
Qed.

Lemma pow2_le_of_digits (p : positive) (k : Z) :
  k < Zpos (digits2_pos p) -> 2 ^ k <= Zpos p.
Proof.
  intros Hk. pose proof (digits2_pos_bounds p) as [Hl _].
  destruct (Z.ltb_spec k 0) as [Hneg|Hpos].
  - rewrite Z.pow_neg_r by lia. lia.
  - etransitivity; [|exact Hl]. apply Z.pow_le_mono_r; lia.
Qed.

(** A number at least [mx * 2 ^ (ex - e)] has at least as many digits. *)
Lemma digits_of_larger (mx M : positive) (ex e : Z) :
  e <= ex -> Zpos mx * 2 ^ (ex - e) <= Zpos M ->
  Zpos (digits2_pos mx) + ex <= Zpos (digits2_pos M) + e.
Proof.
  intros He HM.
  pose proof (digits2_pos_bounds mx) as [Hlx _].
  pose proof (digits2_pos_bounds M) as [_ HuM].
  assert (Hpos : 0 < 2 ^ (ex - e)) by (apply Z.pow_pos_nonneg; lia).
  assert (H : 2 ^ (Zpos (digits2_pos mx) - 1 + (ex - e)) < 2 ^ Zpos (digits2_pos M)).
  { rewrite Z.pow_add_r by lia.
    apply Z.le_lt_trans with (Zpos mx * 2 ^ (ex - e)); [|lia].
    apply Z.mul_le_mono_nonneg_r; lia. }
  apply (Z.pow_lt_mono_r_iff 2) in H; lia.
Qed.

(** Dropping the low bits of a positive number down to 53 digits, or none,
    leaves a positive number. *)
Lemma drop_to_precision (p : positive) (n : Z) :
  n = Z.max 0 (Zpos (digits2_pos p) - 53) -> 1 <= Zpos p / 2 ^ n.
Proof.
  intros Hn. assert (0 < Zpos p / 2 ^ n); [|lia].
  apply Z.div_str_pos. split; [apply Z.pow_pos_nonneg; lia|].
  apply pow2_le_of_digits. lia.
Qed.

Lemma binary_round_ge (mx : positive) (ex : Z) (M : positive) (e : Z) :
  bounded prec emax mx ex = true ->
  e <= ex ->
  Zpos mx * 2 ^ (ex - e) <= Zpos M ->
  SFleb (S754_finite false mx ex) (binary_round prec emax false M e) = true.
Proof.
  intros Hb He HM. destruct (bounded_canonical mx ex Hb) as [Hcan Hmax].
  pose proof (digits_of_larger mx M ex e He HM) as HD.
  assert (Hpos : 0 < 2 ^ (ex - e)) by (apply Z.pow_pos_nonneg; lia).
  unfold binary_round. rewrite fexp64.
  remember (Z.max (Zpos (digits2_pos M) + e - 53) (-1074)) as f eqn:Ef.
  assert (Hexf : ex <= f) by lia.
  assert (Hfmin : -1074 <= f) by lia.
  assert (Hf53 : f <> ex -> f - e = Zpos (digits2_pos M) - 53) by lia.
  pose proof (shl_align_spec M e f) as [Hmz Hez].
  destruct (shl_align M e f) as [mz ez]. cbn [fst snd] in Hmz, Hez.
  assert (Hdz : Zpos (digits2_pos mz) + ez = Zpos (digits2_pos M) + e).
  { rewrite (digits2_pos_shift M mz (Z.max 0 (e - f))) by lia. lia. }
  assert (Hfz : fexp prec emax (Zpos (digits2_pos mz) + ez) = f)
    by (rewrite Hdz, fexp64; symmetry; exact Ef).
  clear Hcan Hb Ef HD.
  (* the first shift keeps at least the mantissa of x, and at least one *)
  assert (Hm1x : f = ex -> Zpos mx <= Zpos mz / 2 ^ (f - ez)).
  { intros Hfe. replace ez with e by lia.
    replace (Z.max 0 (e - f)) with 0 in Hmz by lia.
    rewrite Z.pow_0_r, Z.mul_1_r in Hmz. rewrite Hmz, Hfe.
    apply Z.div_le_lower_bound; lia. }
  assert (Hm1 : 1 <= Zpos mz / 2 ^ (f - ez)).
  { destruct (Z.eq_dec f ex) as [Hfe|Hfe]; [specialize (Hm1x Hfe); lia|].
    apply drop_to_precision. specialize (Hf53 Hfe). lia. }
  destruct (binary_round_aux_result mz ez f Hfz ltac:(lia)) as (m2 & Hm2 & ->).
  assert (H2 : 1 <= m2) by lia.
  assert (H2x : f = ex -> Zpos mx <= m2) by (intros Hfe; specialize (Hm1x Hfe); lia).
  clear Hm1 Hm1x Hm2 Hmz Hez Hdz Hfz Hf53 HM He Hpos.
  destruct m2 as [|p2|p2]; try lia.
  cbn [Zdigits2]. rewrite fexp64.
  remember (Z.max 0 (Z.max (Zpos (digits2_pos p2) + f - 53) (-1074) - f)) as n2 eqn:En2.
  assert (Hn2 : n2 = Z.max 0 (Zpos (digits2_pos p2) - 53)) by lia.
  pose proof (drop_to_precision p2 n2 Hn2) as Hm3.
  assert (Hm3x : n2 = 0 -> Zpos p2 / 2 ^ n2 = Zpos p2).
  { intros ->. rewrite Z.pow_0_r, Z.div_1_r. reflexivity. }
  assert (Hn0 : 0 <= n2) by lia. clear En2 Hn2.
  destruct (Zpos p2 / 2 ^ n2) as [|m3|m3] eqn:E3; [lia| |lia].
  destruct (f + n2 <=? emax - prec); [|reflexivity].
  unfold SFleb, SFcompare.
  destruct (Z.compare_spec ex (f + n2)) as [Heq|Hlt|Hgt]; [|reflexivity|lia].
  assert (Hn : n2 = 0) by lia. assert (Hfe : f = ex) by lia.
  specialize (Hm3x Hn). specialize (H2x Hfe).
  assert (Hle : (mx <= m3)%positive) by lia.
  change (Pos.compare_cont Eq mx m3) with (Pos.compare mx m3).
  destruct (Pos.compare_spec mx m3); [reflexivity|reflexivity|lia].
Qed.

Lemma SFadd_finite_ge (mx : positive) (ex : Z) (my : positive) (ey : Z) :
  bounded prec emax mx ex = true ->
  SFleb (S754_finite false mx ex)
    (SF64add (S754_finite false mx ex) (S754_finite false my ey)) = true.
Proof.
  intros Hb. unfold SF64add, SFadd. cbn [cond_Zopp].
  pose proof (shl_align_spec mx ex (Z.min ex ey)) as [Hx _].
  pose proof (shl_align_spec my ey (Z.min ex ey)) as [Hy _].
  destruct (shl_align mx ex (Z.min ex ey)) as [mx' ex'].
  destruct (shl_align my ey (Z.min ex ey)) as [my' ey'].
  cbn [fst] in *. cbn [Z.add binary_normalize].
  apply binary_round_ge; [exact Hb|lia|].
  rewrite Pos2Z.inj_add. replace (Z.max 0 (ex - Z.min ex ey)) with (ex - Z.min ex ey) in Hx by lia.
  lia.
Qed.

End Rounding.

Section FloatSums.
Local Open Scope float_scope.

Lemma add_mono (s a : float) :
  (0 <=? s) = true -> (0 <=? a) = true -> (s <=? s + a) = true.
Proof.
  rewrite !leb_spec, add_spec. change (Prim2SF 0) with (S754_zero false).
  pose proof (Prim2SF_valid s) as Hv. intros Hs Ha.
  destruct (Prim2SF s) as [ss|ss| |ss ms es], (Prim2SF a) as [sa|sa| |sa ma ea];
    cbn in Hs, Ha; try discriminate;
    repeat match goal with
           | b : bool |- _ => destruct b; cbn in Hs, Ha; try discriminate
           end;
    first
      [ reflexivity
      | apply SFadd_finite_ge; exact Hv
      | cbn; rewrite Z.compare_refl;
        change (Pos.compare_cont Eq ms ms) with (Pos.compare ms ms);
        rewrite Pos.compare_refl; reflexivity ].
Qed.

Lemma leb_nonneg_trans (s t : float) :
  (0 <=? s) = true -> (s <=? t) = true -> (0 <=? t) = true.
Proof.
  rewrite !leb_spec. change (Prim2SF 0) with (S754_zero false).
  destruct (Prim2SF s) as [ss|ss| |ss ms es], (Prim2SF t) as [st|st| |st mt et];
    cbn; try discriminate; try reflexivity;
    try (destruct ss; discriminate || reflexivity);
    try (destruct st; discriminate || reflexivity);
    try (destruct ss, st; discriminate || reflexivity).
Qed.

Lemma add_nonneg (s a : float) :
  (0 <=? s) = true -> (0 <=? a) = true -> (0 <=? s + a) = true.
Proof.
  intros Hs Ha. apply (leb_nonneg_trans s); [exact Hs | apply add_mono; assumption].
Qed.

Lemma leb_zero_of_eqb (v t : float) :
  (v =? 0) = true -> (0 <=? t) = true -> (v <=? t) = true.
Proof.
  rewrite !leb_spec, FloatAxioms.eqb_spec. change (Prim2SF 0) with (S754_zero false).
  destruct (Prim2SF v) as [sv|sv| |sv mv ev], (Prim2SF t) as [st|st| |st mt et];
    cbn; try discriminate; try reflexivity;
    try (destruct sv; discriminate || reflexivity);
    try (destruct st; discriminate || reflexivity);
    try (destruct sv, st; discriminate || reflexivity).
Qed.

Lemma leb_refl_nonneg (v : float) : (0 <=? v) = true -> (v <=? v) = true.
Proof.
  rewrite !leb_spec. change (Prim2SF 0) with (S754_zero false).
  destruct (Prim2SF v) as [sv|sv| |sv mv ev]; cbn; try discriminate; try reflexivity.
  - destruct sv; reflexivity.
  - destruct sv; [discriminate|]. intros _. rewrite Z.compare_refl.
    change (Pos.compare_cont Eq mv mv) with (Pos.compare mv mv).
    rewrite Pos.compare_refl. reflexivity.
Qed.

Lemma nonneg_not_nan (v : float) : (0 <=? v) = true -> is_nan v = false.
Proof.
  unfold is_nan. rewrite leb_spec, FloatAxioms.eqb_spec.
  change (Prim2SF 0) with (S754_zero false).
  destruct (Prim2SF v) as [sv|sv| |sv mv ev]; cbn; try discriminate; try reflexivity.
  - destruct sv; reflexivity.
  - destruct sv; [discriminate|]. intros _. unfold SFeqb. cbn. rewrite Z.compare_refl.
    change (Pos.compare_cont Eq mv mv) with (Pos.compare mv mv).
    rewrite Pos.compare_refl. reflexivity.
Qed.

Lemma orZero_nonneg (v : option float) :
  (forall x, v = Some x -> (0 <=? x) = true) -> (0 <=? orZero v) = true.
Proof.
  intros H. destruct v as [x|]; cbn; [|reflexivity].
  destruct (falsy x); [reflexivity | apply H; reflexivity].
Qed.

Lemma orZero_add_ge (v a : float) :
  (0 <=? v) = true -> (0 <=? a) = true -> (v <=? orZero (Some v) + a) = true.
Proof.
  intros Hv Ha. cbn [orZero]. unfold falsy.
  rewrite (nonneg_not_nan v Hv), orb_false_r.
  destruct (v =? 0) eqn:E.
  - apply leb_zero_of_eqb; [exact E | apply add_nonneg; [reflexivity | exact Ha]].
  - apply add_mono; assumption.
Qed.

End FloatSums.

(** *** The order of the checks *)

(** Running a method: unfold the monad. *)
Ltac run :=
  unfold checkPayment, recordPayment, getStatus, requiresApproval, freeze,
    saveState, setState, setPolicy, getClock, getThis,
    mbind, mret, M_bind, M_ret, bind, ret;
  cbn beta iota zeta.

(** Comparing the lower-case forms, as the code does, is comparing
    case-insensitively. *)
Lemma allCharacters_complete (c : ascii) : In c Spec.allCharacters.
Proof.
  assert (existsb (Ascii.eqb c) Spec.allCharacters = true) as H
    by (destruct c as [[] [] [] [] [] [] [] []]; vm_compute; reflexivity).
  apply existsb_exists in H as (d & Hd & E). apply Ascii.eqb_eq in E. subst d. exact Hd.
Qed.

Lemma lowerChar_sameLetter (c d : ascii) :
  Ascii.eqb (lowerChar c) (lowerChar d) = Spec.sameLetter c d.
Proof.
  assert (forallb
            (fun c => forallb
               (fun d => Bool.eqb (Ascii.eqb (lowerChar c) (lowerChar d))
                           (Spec.sameLetter c d))
               Spec.allCharacters)
            Spec.allCharacters = true) as H by (vm_compute; reflexivity).
  rewrite forallb_forall in H. specialize (H c (allCharacters_complete c)).
  rewrite forallb_forall in H. specialize (H d (allCharacters_complete d)).
  apply Bool.eqb_prop, H.
Qed.

Lemma toLowerCase_equalIgnoringCase (a b : string) :
  String.eqb (toLowerCase a) (toLowerCase b) = Spec.equalIgnoringCase a b.
Proof.
  revert b. induction a as [|c a IH]; intros [|d b];
    cbn [toLowerCase Spec.equalIgnoringCase String.eqb]; try reflexivity.
  rewrite lowerChar_sameLetter, IH.
  destruct (Spec.sameLetter c d); reflexivity.
Qed.

Lemma listed_toLowerCase (addrs : option (list string)) (r : string) :
  Spec.listed addrs r
  = match addrs with
    | Some l => existsb (fun addr => String.eqb (toLowerCase addr) (toLowerCase r)) l
    | None => false
    end.
Proof.
  destruct addrs as [l|]; [|reflexivity]. cbn [Spec.listed].
  induction l as [|x l IH]; [reflexivity|]. cbn [existsb].
  rewrite IH, toLowerCase_equalIgnoringCase. reflexivity.
Qed.

(** The decision of [checkPayment] is the first failing check of the
    specification's list, reported with that check's reason. *)
Lemma checkPayment_firstFailing (now : Clock) (this : Enforcer) (a : number) (r : string) :
  fst (checkPayment a r now this)
    = match Spec.firstFailing now this a r with
      | Some c => deny (Spec.reasonOf now this a r c)
      | None => allow
      end.
Proof.
  run. unfold Spec.firstFailing, Spec.evaluationOrder, Spec.fails, Spec.reasonOf,
    Spec.recentCount, withinLastHour, someMatches.
  change (60 * 60 * 1000) with 3600000.
  destruct (blockedRecipients (policy this)) as [[|b bl]|];
    destruct (approvedRecipients (policy this)) as [[|w wl]|];
    rewrite ?listed_toLowerCase;
    cbn [List.find fst nonEmpty];
    repeat first
      [ reflexivity
      | match goal with
        | |- context [orElse (if ?c then _ else _) _] =>
            destruct c; cbn [orElse negb default]
        | |- context [orElse (match ?o with Some _ => _ | None => _ end) _] =>
            destruct o; cbn [orElse default]
        end ].
Qed.

Lemma checkPayment_pure (a : number) (r : string) (now : Clock) (this : Enforcer) :
  snd (checkPayment a r now this) = this.
Proof. reflexivity. Qed.

(** With the recipient on the blacklist, the first failing check is never the
    whitelist, and it is the blacklist when the six limit checks pass. *)
Lemma firstFailing_blacklisted (now : Clock) (this : Enforcer) (a : number) (r : string) :
  Spec.fails now this a r Spec.Blacklist = true ->
  (exists c, Spec.firstFailing now this a r = Some c /\ c <> Spec.Whitelist)
  /\ (forallb (fun c => negb (Spec.fails now this a r c)) Spec.limitChecks = true ->
      Spec.firstFailing now this a r = Some Spec.Blacklist).
Proof.
  intros Hb. unfold Spec.firstFailing, Spec.evaluationOrder, Spec.limitChecks.
  cbn [List.find forallb]. rewrite Hb.
  repeat match goal with
         | |- context [if Spec.fails now this a r ?c then _ else _] =>
             destruct (Spec.fails now this a r c)
         end;
    cbn [negb andb]; (split; [eexists; split; [reflexivity|discriminate] | ]);
    first [reflexivity | discriminate].
Qed.

(** C1, as the code has it: [checkPayment] evaluates its checks in the fixed
    order per-transaction cap, daily, weekly, monthly, velocity, per-recipient
    daily, blacklist, whitelist (addresses compared case-insensitively) and
    returns the reason of the first failing check, and allows the payment when
    none fails.  A recipient that is (case-insensitively) in both
    [blockedRecipients] and [approvedRecipients] is always denied, never with
    the whitelist reason; it is denied with the blocked-recipient reason
    whenever the six limit checks pass, and with the reason of the first
    failing limit check otherwise. *)
Theorem C1_checkPayment_first_failing_check
    (now : Clock) (this : Enforcer) (a : number) (r : string) :
  let res := fst (checkPayment a r now this) in
  res = match Spec.firstFailing now this a r with
        | Some c => deny (Spec.reasonOf now this a r c)
        | None => allow
        end
  /\ (Spec.listed (blockedRecipients (policy this)) r = true ->
      Spec.listed (approvedRecipients (policy this)) r = true ->
      allowed res = false
      /\ (forall r', reason res <> Some (NotWhitelisted r'))
      /\ (forallb (fun c => negb (Spec.fails now this a r c)) Spec.limitChecks = true ->
          reason res = Some (RecipientBlocked r))).
Proof.
  cbv zeta. split; [apply checkPayment_firstFailing|].
  intros Hb _. rewrite checkPayment_firstFailing.
  destruct (firstFailing_blacklisted now this a r Hb) as [(c & Hc & Hne) Hlim].
  rewrite Hc. cbn [allowed reason deny]. split; [reflexivity|]. split.
  - intros r' E. destruct c; try discriminate. contradiction.
  - intros Hl. specialize (Hlim Hl). rewrite Hlim in Hc. injection Hc as <-. reflexivity.
Qed.

(** The address "0xBad" is in both lists of [Samples.bothLists], under other
    spellings: a payment within the limits is denied as blocked. *)
Lemma C1_checkPayment_first_failing_check_witness :
  Spec.listed (blockedRecipients Samples.bothLists) "0xBad" = true
  /\ Spec.listed (approvedRecipients Samples.bothLists) "0xBad" = true
  /\ fst (checkPayment 0.5 "0xBad" Samples.monday (Samples.fresh Samples.bothLists))
      = deny (RecipientBlocked "0xBad").
Proof.
  assert (Hb : Spec.listed (blockedRecipients Samples.bothLists) "0xBad" = true)
    by reflexivity.
  assert (Ha : Spec.listed (approvedRecipients Samples.bothLists) "0xBad" = true)
    by reflexivity.
  split; [exact Hb|]. split; [exact Ha|].
  destruct (C1_checkPayment_first_failing_check Samples.monday
              (Samples.fresh Samples.bothLists) 0.5%float "0xBad") as [_ H].
  destruct (H Hb Ha) as (Hden & _ & Hr).
  specialize (Hr ltac:(vm_compute; reflexivity)).
  destruct (fst (checkPayment 0.5 "0xBad" Samples.monday (Samples.fresh Samples.bothLists)))
    as [al re].
  cbn in Hden, Hr |- *. rewrite Hden, Hr. reflexivity.
Defined.

(** C1 as stated fails when a limit check fails first: the address "0xBad" is
    in both lists, and a payment of 5 to it, above the cap of 1 for one
    payment, is denied with the per-transaction reason, not with the
    blocked-recipient reason.  An address in neither list is denied with the
    whitelist reason. *)
Lemma C1_counterexample_limit_reason_before_blocked_reason :
  Spec.listed (blockedRecipients Samples.bothLists) "0xBad" = true
  /\ Spec.listed (approvedRecipients Samples.bothLists) "0xBad" = true
  /\ fst (checkPayment 5 "0xBad" Samples.monday (Samples.fresh Samples.bothLists))
      = deny (ExceedsPerTransaction 5 1)
  /\ Spec.listed (blockedRecipients Samples.bothLists) "0xBa" = false
  /\ fst (checkPayment 0.5 "0xBa" Samples.monday (Samples.fresh Samples.bothLists))
      = deny (NotWhitelisted "0xBa").
Proof. repeat split. Qed.

(** *** Rollover *)

Lemma recordPayment_state (a : number) (r : string) (now : Clock) (this : Enforcer) :
  let st := resetPeriods (getDateKeys now) (state this) in
  let st' := state (snd (recordPayment a r now this)) in
  date st' = date st /\ weekStart st' = weekStart st /\ monthStart st' = monthStart st
  /\ dailySpent st' = (dailySpent st + a)%float
  /\ weeklySpent st' = (weeklySpent st + a)%float
  /\ monthlySpent st' = (monthlySpent st + a)%float
  /\ transactions st' = (transactions st + 1)%float
  /\ perRecipient st'
      = <[toLowerCase r := (orZero (perRecipient st !! toLowerCase r) + a)%float]>
          (perRecipient st)
  /\ spendingFile (snd (recordPayment a r now this)) = Some st'
  /\ policy (snd (recordPayment a r now this)) = policy this.
Proof. cbv zeta. repeat split. Qed.

Lemma resetPeriods_keys (keys : DateKeys) (st : SpendingState) :
  date (resetPeriods keys st) = key_date keys
  /\ weekStart (resetPeriods keys st) = key_weekStart keys
  /\ monthStart (resetPeriods keys st) = key_monthStart keys.
Proof.
  unfold resetPeriods.
  destruct (String.eqb (date st) (key_date keys)) eqn:Ed;
    destruct (String.eqb (weekStart st) (key_weekStart keys)) eqn:Ew;
    destruct (String.eqb (monthStart st) (key_monthStart keys)) eqn:Em;
    cbn [negb date weekStart monthStart]; rewrite ?Ew, ?Em; cbn [negb date weekStart monthStart];
    rewrite ?Em; cbn [negb date weekStart monthStart];
    repeat split;
    first [ reflexivity
          | apply String.eqb_eq; assumption ].
Qed.

Lemma resetPeriods_daily (keys : DateKeys) (st : SpendingState) :
  dailySpent (resetPeriods keys st)
    = (if String.eqb (date st) (key_date keys) then dailySpent st else 0%float)
  /\ transactions (resetPeriods keys st)
    = (if String.eqb (date st) (key_date keys) then transactions st else 0%float)
  /\ perRecipient (resetPeriods keys st)
    = (if String.eqb (date st) (key_date keys) then perRecipient st else ∅).
Proof.
  unfold resetPeriods.
  destruct (String.eqb (date st) (key_date keys));
    cbn [negb date weekStart monthStart];
    destruct (String.eqb (weekStart st) (key_weekStart keys));
    cbn [negb date weekStart monthStart];
    destruct (String.eqb (monthStart st) (key_monthStart keys));
    repeat split.
Qed.

Lemma resetPeriods_weekly (keys : DateKeys) (st : SpendingState) :
  weeklySpent (resetPeriods keys st)
    = if String.eqb (weekStart st) (key_weekStart keys) then weeklySpent st else 0%float.
Proof.
  unfold resetPeriods.
  destruct (String.eqb (date st) (key_date keys));
    cbn [negb date weekStart monthStart];
    destruct (String.eqb (weekStart st) (key_weekStart keys));
    cbn [negb date weekStart monthStart];
    destruct (String.eqb (monthStart st) (key_monthStart keys));
    reflexivity.
Qed.

Lemma resetPeriods_monthly (keys : DateKeys) (st : SpendingState) :
  monthlySpent (resetPeriods keys st)
    = if String.eqb (monthStart st) (key_monthStart keys) then monthlySpent st else 0%float.
Proof.
  unfold resetPeriods.
  destruct (String.eqb (date st) (key_date keys));
    cbn [negb date weekStart monthStart];
    destruct (String.eqb (weekStart st) (key_weekStart keys));
    cbn [negb date weekStart monthStart];
    destruct (String.eqb (monthStart st) (key_monthStart keys));
    reflexivity.
Qed.

(** C2, on the failing input: a ledger holding 10 spent on Sunday under a
    daily limit of 10.  On Monday its stored day key differs from the current
    one, yet [checkPayment] evaluates the daily limit against Sunday's total
    and denies, and leaves the stale bucket in place; [recordPayment], called
    at the same moment, resets the bucket first, and on the reset ledger the
    same check allows the payment. *)
Theorem C2_checkPayment_keeps_stale_bucket :
  let this :=
    snd (recordPayment 10 "0xabc" Samples.sunday
           (Samples.fresh (Samples.limitsOnly 10 10))) in
  date (state this) <> key_date (getDateKeys Samples.monday)
  /\ fst (checkPayment 1 "0xabc" Samples.monday this) = deny (ExceedsDaily 10 10)
  /\ state (snd (checkPayment 1 "0xabc" Samples.monday this)) = state this
  /\ dailySpent (state (snd (recordPayment 1 "0xabc" Samples.monday this))) = 1%float
  /\ fst (checkPayment 1 "0xabc" Samples.monday
            {| policy := policy this;
               state := resetPeriods (getDateKeys Samples.monday) (state this);
               spendingFile := spendingFile this |}) = allow.
Proof.
  cbv zeta. split; [|split; [|split; [|split]]].
  - vm_compute. discriminate.
  - vm_compute. reflexivity.
  - reflexivity.
  - vm_compute. reflexivity.
  - vm_compute. reflexivity.
Qed.

(** *** Freeze *)

Lemma after_keeps_frozen (now : Clock) (c : Call) (this : Enforcer) :
  maxPerTransaction (policy this) = 0%float ->
  maxPerTransaction (policy (after now c this)) = 0%float.
Proof. intros H. destruct c; cbn; first [exact H | reflexivity]. Qed.

Lemma afterAll_keeps_frozen (calls : list (Clock * Call)) (this : Enforcer) :
  maxPerTransaction (policy this) = 0%float ->
  maxPerTransaction (policy (afterAll calls this)) = 0%float.
Proof.
  revert this. induction calls as [|[now c] calls IH]; intros this H; cbn.
  - exact H.
  - apply IH, after_keeps_frozen, H.
Qed.

Lemma checkPayment_over_cap (a : number) (r : string) (now : Clock) (this : Enforcer) :
  gt a (maxPerTransaction (policy this)) = true ->
  fst (checkPayment a r now this)
    = deny (ExceedsPerTransaction a (maxPerTransaction (policy this))).
Proof. intros H. run. cbn [fst]. rewrite H. reflexivity. Qed.

(** What [freeze()] achieves: it sets [maxPerTransaction] and [dailyLimit] of
    the instance's policy to zero, leaves the ledger as it is and saves it;
    after it, whatever calls follow on that instance, [checkPayment] denies
    every amount greater than zero, for every recipient, with the
    per-transaction reason. *)
Lemma freeze_denies_amounts_above_zero
    (now : Clock) (this : Enforcer) (calls : list (Clock * Call))
    (now' : Clock) (a : number) (r : string) :
  (0 <? a)%float = true ->
  let frozen := snd (freeze now this) in
  maxPerTransaction (policy frozen) = 0%float
  /\ dailyLimit (policy frozen) = 0%float
  /\ state frozen = state this
  /\ spendingFile frozen = Some (state this)
  /\ fst (checkPayment a r now' (afterAll calls frozen))
      = deny (ExceedsPerTransaction a 0).
Proof.
  intros Ha frozen. repeat (split; [reflexivity|]).
  assert (Hz : maxPerTransaction (policy (afterAll calls frozen)) = 0%float)
    by (apply afterAll_keeps_frozen; reflexivity).
  rewrite checkPayment_over_cap; rewrite Hz; [reflexivity | exact Ha].
Qed.

(** After [freeze()], a recorded payment and a status report, 0.01 is denied. *)
Example freeze_denies_one_cent :
  fst (checkPayment 0.01 "0xApproved1" Samples.monday
         (afterAll [(Samples.monday, RecordPayment 0.5 "0xApproved1");
                    (Samples.monday, GetStatus)]
            (snd (freeze Samples.monday (Samples.fresh Samples.testPolicy)))))
    = deny (ExceedsPerTransaction 0.01 0).
Proof.
  apply (freeze_denies_amounts_above_zero Samples.monday
           (Samples.fresh Samples.testPolicy)
           [(Samples.monday, RecordPayment 0.5 "0xApproved1");
            (Samples.monday, GetStatus)]
           Samples.monday 0.01%float "0xApproved1").
  reflexivity.
Qed.

(** C3 fails in the code: [freeze()], the emergency freeze that is to block
    all payments, does not block all of them and is not saved.  After
    [freeze()] both limits are zero, and since every limit is compared with a
    strict [>], [checkPayment] still allows the amount 0, a negative amount
    and an amount that is NaN.  What [freeze()] writes to the spending file is
    the ledger, in which the policy is not contained: an enforcer built
    afterwards on that file, with the policy as first supplied, allows 0.01
    again. *)
Theorem C3_freeze_does_not_block_all_payments :
  let frozen := snd (freeze Samples.monday (Samples.fresh (Samples.limitsOnly 1 10))) in
  maxPerTransaction (policy frozen) = 0%float
  /\ dailyLimit (policy frozen) = 0%float
  /\ fst (checkPayment 0 "0xabc" Samples.monday frozen) = allow
  /\ fst (checkPayment (-1) "0xabc" Samples.monday frozen) = allow
  /\ fst (checkPayment nan "0xabc" Samples.monday frozen) = allow
  /\ spendingFile frozen = Some (state (Samples.fresh (Samples.limitsOnly 1 10)))
  /\ policy (newPolicyEnforcer (Samples.limitsOnly 1 10) (spendingFile frozen)
               Samples.monday) = Samples.limitsOnly 1 10
  /\ fst (checkPayment 0.01 "0xabc" Samples.monday
            (newPolicyEnforcer (Samples.limitsOnly 1 10) (spendingFile frozen)
               Samples.monday)) = allow.
Proof. cbv zeta. repeat split. Qed.

(** *** Strict limits *)

Lemma checkPayment_allowed_iff (now : Clock) (this : Enforcer) (a : number) (r : string) :
  allowed (fst (checkPayment a r now this)) = true
  <-> forall c, In c Spec.evaluationOrder -> Spec.fails now this a r c = false.
Proof.
  rewrite checkPayment_firstFailing. unfold Spec.firstFailing.
  destruct (List.find _ _) as [c|] eqn:E; cbn [allowed deny allow].
  - split; [discriminate|]. intros H. apply List.find_some in E as [Hin Hf].
    rewrite (H c Hin) in Hf. discriminate.
  - split; [|reflexivity]. intros _ c Hin.
    pose proof (List.find_none _ _ E c Hin) as Hn. exact Hn.
Qed.

Lemma fails_compared (now : Clock) (this : Enforcer) (a : number) (r : string)
    (c : Spec.Check) (x l : number) :
  Spec.compared this a r c = Some (x, l) -> Spec.fails now this a r c = gt x l.
Proof.
  destruct c; cbn; try discriminate.
  - intros [= <- <-]. reflexivity.
  - intros [= <- <-]. reflexivity.
  - destruct (weeklyLimit (policy this)); cbn; [intros [= <- <-]; reflexivity|discriminate].
  - destruct (monthlyLimit (policy this)); cbn; [intros [= <- <-]; reflexivity|discriminate].
  - destruct (perRecipientDailyLimit (policy this)); cbn;
      [intros [= <- <-]; reflexivity|discriminate].
Qed.

Lemma fails_not_compared (now : Clock) (this : Enforcer) (a : number) (r : string)
    (c : Spec.Check) :
  Spec.compared this a r c = None ->
  Spec.fails now this a r c = false
  \/ c = Spec.VelocityLimit \/ c = Spec.Blacklist \/ c = Spec.Whitelist.
Proof.
  destruct c; cbn; try discriminate; auto.
  - destruct (weeklyLimit (policy this)); cbn; [discriminate|auto].
  - destruct (monthlyLimit (policy this)); cbn; [discriminate|auto].
  - destruct (perRecipientDailyLimit (policy this)); cbn; [discriminate|auto].
Qed.

Lemma recipientAccepted_passes (now : Clock) (this : Enforcer) (a : number) (r : string) :
  Spec.recipientAccepted (policy this) r ->
  Spec.fails now this a r Spec.Blacklist = false
  /\ Spec.fails now this a r Spec.Whitelist = false.
Proof.
  intros [Hb Hw]. split; [exact Hb|]. unfold Spec.fails.
  destruct Hw as [-> | Hw]; [reflexivity|].
  destruct (approvedRecipients (policy this)) as [[|w wl]|]; try reflexivity.
  rewrite Hw. reflexivity.
Qed.

(** The payment is allowed as soon as no compared amount or total is above
    its limit, the velocity check passes and the recipient is accepted. *)
Lemma checkPayment_within_limits (now : Clock) (this : Enforcer) (a : number) (r : string) :
  (forall c x l, Spec.compared this a r c = Some (x, l) -> (x <=? l)%float = true) ->
  Spec.fails now this a r Spec.VelocityLimit = false ->
  Spec.recipientAccepted (policy this) r ->
  fst (checkPayment a r now this) = allow.
Proof.
  intros Hle Hv Hr.
  assert (Hall : forall c, In c Spec.evaluationOrder -> Spec.fails now this a r c = false).
  { intros c _. destruct (recipientAccepted_passes now this a r Hr) as [Hb Hw].
    destruct (Spec.compared this a r c) as [[x l]|] eqn:E.
    - rewrite (fails_compared now this a r c x l E). apply leb_not_gt, (Hle c x l E).
    - destruct (fails_not_compared now this a r c E) as [H|[->|[->| ->]]]; assumption. }
  rewrite checkPayment_firstFailing. unfold Spec.firstFailing.
  destruct (List.find _ _) as [c|] eqn:E; [|reflexivity].
  apply List.find_some in E as [Hin Hf]. rewrite (Hall c Hin) in Hf. discriminate.
Qed.

(** On a fresh ledger every projected total is the amount itself. *)
Lemma compared_fresh (this : Enforcer) (a : number) (r : string) (c : Spec.Check)
    (x l : number) :
  Spec.freshLedger (state this) ->
  Spec.compared this a r c = Some (x, l) ->
  x = a \/ x = (0 + a)%float.
Proof.
  intros (Hd & Hw & Hm & _ & Hp) E.
  destruct c; cbn in E; try discriminate.
  - injection E as <- _. now left.
  - injection E as <- _. rewrite Hd. now right.
  - destruct (weeklyLimit (policy this)); cbn in E; [|discriminate].
    injection E as <- _. rewrite Hw. now right.
  - destruct (monthlyLimit (policy this)); cbn in E; [|discriminate].
    injection E as <- _. rewrite Hm. now right.
  - destruct (perRecipientDailyLimit (policy this)); cbn in E; [|discriminate].
    injection E as <- _. rewrite Hp. now right.
Qed.

Lemma fresh_is_freshLedger (p : PaymentPolicy) : Spec.freshLedger (state (Samples.fresh p)).
Proof. repeat split. Qed.

(** C4, as the code has it.  Every limit comparison is strict and is made on
    binary64 numbers: what is compared with a limit is the amount, or the
    projected total that the code computes, the binary64 sum (rounded to the
    nearest number) of the stored total and the amount.  A compared amount or
    projected total above its limit denies the payment, one equal to its limit
    does not fail that check, and the payment is allowed when none is above
    its limit, the velocity check passes and the recipient is accepted.  On a
    fresh ledger, with an accepted recipient, [checkPayment(a, r)]
    is allowed for every [a] that is at most [maxPerTransaction], at most
    [dailyLimit] and at most each configured weekly, monthly and per-recipient
    limit, provided a configured [maxTransactionsPerHour] is above zero.  For
    every [a > maxPerTransaction] it denies with the reason that mentions the
    per-transaction limit. *)
Theorem C4_limit_comparisons_strict
    (now : Clock) (this : Enforcer) (a : number) (r : string) :
  let res := fst (checkPayment a r now this) in
  (forall c x l, Spec.compared this a r c = Some (x, l) ->
     gt x l = true -> allowed res = false)
  /\ (forall c x l, Spec.compared this a r c = Some (x, l) ->
        x = l -> Spec.fails now this a r c = false)
  /\ ((forall c x l, Spec.compared this a r c = Some (x, l) -> (x <=? l)%float = true) ->
      Spec.fails now this a r Spec.VelocityLimit = false ->
      Spec.recipientAccepted (policy this) r ->
      res = allow)
  /\ (Spec.freshLedger (state this) ->
      Spec.recipientAccepted (policy this) r ->
      (forall c x l, Spec.compared this a r c = Some (x, l) -> (a <=? l)%float = true) ->
      (forall l, maxTransactionsPerHour (policy this) = Some l -> (l <=? 0)%float = false) ->
      res = allow)
  /\ (gt a (maxPerTransaction (policy this)) = true ->
      res = deny (ExceedsPerTransaction a (maxPerTransaction (policy this)))
      /\ mentions "per-transaction limit"
           (message (ExceedsPerTransaction a (maxPerTransaction (policy this)))) = true).
Proof.
  cbv zeta. split; [|split; [|split; [|split]]].
  - intros c x l E Hgt.
    destruct (allowed (fst (checkPayment a r now this))) eqn:Ea; [|reflexivity].
    apply checkPayment_allowed_iff with (c := c) in Ea.
    + rewrite (fails_compared now this a r c x l E) in Ea. congruence.
    + destruct c; cbn; tauto.
  - intros c x l E ->. rewrite (fails_compared now this a r c l l E). apply gt_irrefl.
  - apply checkPayment_within_limits.
  - intros Hf Hr Hle Hv. apply checkPayment_within_limits; [| |exact Hr].
    + intros c x l E. destruct (compared_fresh this a r c x l Hf E) as [-> | ->].
      * apply (Hle c a l E).
      * apply leb_zero_add, (Hle c _ l E).
    + destruct Hf as (_ & _ & _ & Ht & _). unfold Spec.fails, Spec.recentCount.
      rewrite Ht. cbn [List.filter List.length].
      destruct (maxTransactionsPerHour (policy this)) as [l|] eqn:El; [|reflexivity].
      apply (Hv l eq_refl).
  - intros Hgt. split; [apply checkPayment_over_cap, Hgt | reflexivity].
Qed.

(** With both limits at 100 a first payment of exactly 100 is allowed, and
    one of 100.01 is denied. *)
Lemma C4_limit_comparisons_strict_witness :
  fst (checkPayment 100 "0xR" Samples.monday (Samples.fresh (Samples.limitsOnly 100 100)))
    = allow
  /\ fst (checkPayment 100.01 "0xR" Samples.monday
            (Samples.fresh (Samples.limitsOnly 100 100)))
      = deny (ExceedsPerTransaction 100.01 100).
Proof.
  destruct (C4_limit_comparisons_strict Samples.monday
              (Samples.fresh (Samples.limitsOnly 100 100)) 100%float "0xR")
    as (_ & _ & _ & Hfresh & _).
  destruct (C4_limit_comparisons_strict Samples.monday
              (Samples.fresh (Samples.limitsOnly 100 100)) 100.01%float "0xR")
    as (_ & _ & _ & _ & Hover).
  split.
  - apply Hfresh.
    + apply fresh_is_freshLedger.
    + split; [reflexivity | left; reflexivity].
    + intros c x l E. destruct c; cbn in E; try discriminate;
        injection E as _ <-; reflexivity.
    + intros l E. discriminate.
  - apply Hover. reflexivity.
Defined.

(** C4 as stated fails in two ways.  With [dailyLimit] below
    [maxPerTransaction]: on a fresh ledger, with no list configured, the amount
    50 is at most the per-transaction limit 100 and is denied for the daily
    limit 10.  And the projected totals are rounded sums.  A total above the
    limit is not always denied: with 10 spent and a daily limit of 10, the
    amount 1e-17 makes the total, as a rational number, larger than the limit,
    but the binary64 sum of 10 and 1e-17 is 10, and the payment is allowed.
    And a total that lands on the limit in decimal notation is not always
    allowed: with 0.1 spent and a daily limit of 0.3, the amount 0.2 is denied,
    the binary64 sum of 0.1 and 0.2 being above the binary64 number 0.3. *)
Lemma C4_counterexample_other_limit_and_rounded_total :
  let this := Samples.fresh (Samples.limitsOnly 100 10) in
  let spent :=
    after Samples.monday (RecordPayment 10 "0xR") (Samples.fresh (Samples.limitsOnly 10 10)) in
  let dimes :=
    after Samples.monday (RecordPayment 0.1 "0xR")
      (Samples.fresh (Samples.limitsOnly 1 0.3)) in
  (Spec.freshLedger (state this)
   /\ Spec.recipientAccepted (policy this) "0xR"
   /\ (50 <=? maxPerTransaction (policy this))%float = true
   /\ fst (checkPayment 50 "0xR" Samples.monday this) = deny (ExceedsDaily 0 10))
  /\ (dailySpent (state spent) = 10%float
      /\ dailyLimit (policy spent) = 10%float
      /\ Spec.exactSumAbove (dailySpent (state spent)) 1e-17 (dailyLimit (policy spent))
      /\ fst (checkPayment 1e-17 "0xR" Samples.monday spent) = allow)
  /\ (dailySpent (state dimes) = 0.1%float
      /\ dailyLimit (policy dimes) = 0.3%float
      /\ fst (checkPayment 0.2 "0xR" Samples.monday dimes) = deny (ExceedsDaily 0.1 0.3)).
Proof.
  cbv zeta. split; [|split].
  - split; [apply fresh_is_freshLedger|].
    split; [split; [reflexivity | left; reflexivity]|].
    split; reflexivity.
  - split; [reflexivity|]. split; [reflexivity|]. split; [|reflexivity].
    vm_compute. reflexivity.
  - repeat split.
Qed.

(** *** Read-only calls *)

(** C5: [checkPayment] and [getStatus] leave the instance as it was (the
    policy, the ledger and the spending file), for every ledger state, amount
    and recipient; hence two consecutive [getStatus()] calls at the same clock
    reading return the same report, also with a [checkPayment] in between. *)
Theorem C5_checkPayment_getStatus_read_only
    (now : Clock) (this : Enforcer) (a : number) (r : string) :
  snd (checkPayment a r now this) = this
  /\ snd (getStatus now this) = this
  /\ fst (getStatus now (snd (getStatus now this))) = fst (getStatus now this)
  /\ fst (getStatus now (snd (checkPayment a r now (snd (getStatus now this)))))
      = fst (getStatus now this).
Proof. repeat split. Qed.

(** *** Recording a payment *)

(** C6, as the code has it: with no rollover of the daily bucket between the
    calls, [recordPayment(a, r)] makes [getStatus().daily.spent] the binary64
    sum of its value before the call and [a], which for a non-negative [a] and
    a non-negative value before is not smaller than before, and
    [daily.remaining] the maximum of zero and [dailyLimit] minus that sum; in
    every report of [getStatus()], [remaining] is not negative in any
    window. *)
Theorem C6_recordPayment_adds_to_daily_spent
    (now : Clock) (this : Enforcer) (a : number) (r : string)
    (now' : Clock) (that : Enforcer) :
  date (state this) = key_date (getDateKeys now) ->
  let before := Status.daily (fst (getStatus now this)) in
  let after := Status.daily (fst (getStatus now (snd (recordPayment a r now this)))) in
  let report := fst (getStatus now' that) in
  Daily.spent after = (Daily.spent before + a)%float
  /\ ((0 <=? a)%float = true -> (0 <=? Daily.spent before)%float = true ->
      (Daily.spent before <=? Daily.spent after)%float = true)
  /\ Daily.remaining after
      = mathMax0 (dailyLimit (policy this) - (Daily.spent before + a))%float
  /\ (Daily.remaining (Status.daily report) <? 0)%float = false
  /\ (forall w, Status.weekly report = Some w -> (Window.remaining w <? 0)%float = false)
  /\ (forall w, Status.monthly report = Some w -> (Window.remaining w <? 0)%float = false)
  /\ (forall v, Status.velocity report = Some v -> (Velocity.remaining v <? 0)%float = false).
Proof.
  intros Hd. cbv zeta.
  destruct (recordPayment_state a r now this) as (_ & _ & _ & Hs & _ & _ & _ & _ & _ & Hp).
  destruct (resetPeriods_daily (getDateKeys now) (state this)) as (Hr & _ & _).
  rewrite Hd, String.eqb_refl in Hr.
  assert (Hsum : Daily.spent
                   (Status.daily (fst (getStatus now (snd (recordPayment a r now this)))))
                 = (Daily.spent (Status.daily (fst (getStatus now this))) + a)%float).
  { run. cbn [fst snd Status.daily Daily.spent state] in *. rewrite <- Hr. exact Hs. }
  split; [exact Hsum|]. split; [intros Ha H0; rewrite Hsum; apply add_mono; assumption|].
  clear Hsum.
  split; [|split; [|split; [|split]]].
  - run. cbn [fst snd Status.daily Daily.remaining Daily.spent state policy] in *.
    rewrite <- Hr. reflexivity.
  - apply mathMax0_not_negative.
  - run. cbn [fst Status.weekly]. intros w.
    destruct (weeklyLimit (policy that)); [|discriminate].
    intros [= <-]. apply mathMax0_not_negative.
  - run. cbn [fst Status.monthly]. intros w.
    destruct (monthlyLimit (policy that)); [|discriminate].
    intros [= <-]. apply mathMax0_not_negative.
  - run. cbn [fst Status.velocity]. intros v.
    destruct (maxTransactionsPerHour (policy that)); [|discriminate].
    intros [= <-]. apply mathMax0_not_negative.
Qed.

(** Recording 3 on a fresh ledger, within the same day. *)
Lemma C6_recordPayment_adds_to_daily_spent_witness :
  Daily.spent
    (Status.daily
       (fst (getStatus Samples.monday
               (snd (recordPayment 3 "0xApproved1" Samples.monday
                       (Samples.fresh Samples.testPolicy))))))
    = (0 + 3)%float.
Proof.
  apply (C6_recordPayment_adds_to_daily_spent Samples.monday
           (Samples.fresh Samples.testPolicy) 3%float "0xApproved1"
           Samples.monday (Samples.fresh Samples.testPolicy)).
  reflexivity.
Defined.

(** C6 as stated fails in binary64 arithmetic: after [recordPayment(0.1, r)],
    [recordPayment(0.2, r)] (a non-negative amount, no rollover in between)
    moves [daily.spent] from 0.1 to 0.30000000000000004 and [daily.remaining]
    from 9.9 to 9.7, neither by exactly 0.2; nor is the new [remaining] the
    binary64 difference of the old one and 0.2, which is 9.700000000000001. *)
Lemma C6_counterexample_rounded_sum :
  let this :=
    snd (recordPayment 0.1 "0xabc" Samples.monday (Samples.fresh (Samples.limitsOnly 1 10))) in
  let before := Status.daily (fst (getStatus Samples.monday this)) in
  let after :=
    Status.daily
      (fst (getStatus Samples.monday (snd (recordPayment 0.2 "0xabc" Samples.monday this)))) in
  (0 <=? 0.2)%float = true
  /\ date (state this) = key_date (getDateKeys Samples.monday)
  /\ Daily.spent before = 0.1%float
  /\ Daily.spent after = 0.30000000000000004%float
  /\ Daily.remaining before = 9.9%float
  /\ Daily.remaining after = 9.7%float
  /\ ~ Spec.exactlyLarger (Daily.spent before) (Daily.spent after) 0.2%float
  /\ ~ Spec.exactlySmallerClamped (Daily.remaining before) (Daily.remaining after) 0.2%float
  /\ mathMax0 (Daily.remaining before - 0.2) = 9.700000000000001%float
  /\ (Daily.remaining after =? mathMax0 (Daily.remaining before - 0.2))%float = false.
Proof.
  cbv zeta. repeat (split; [vm_compute; reflexivity|]).
  split; [vm_compute; discriminate|]. split; [vm_compute; discriminate|].
  split; vm_compute; reflexivity.
Qed.

(** *** Totals *)

Lemma nonNegative_defaultState (keys : DateKeys) : Spec.nonNegative (defaultState keys).
Proof.
  unfold Spec.nonNegative, defaultState.
  cbn [dailySpent weeklySpent monthlySpent perRecipient].
  repeat split. intros k v H. rewrite lookup_empty in H. discriminate.
Qed.

Lemma nonNegative_resetPeriods (keys : DateKeys) (st : SpendingState) :
  Spec.nonNegative st -> Spec.nonNegative (resetPeriods keys st).
Proof.
  intros (Hd & Hw & Hm & Hp). unfold Spec.nonNegative.
  destruct (resetPeriods_daily keys st) as (-> & _ & ->).
  rewrite resetPeriods_weekly, resetPeriods_monthly.
  destruct (String.eqb (date st) (key_date keys));
    destruct (String.eqb (weekStart st) (key_weekStart keys));
    destruct (String.eqb (monthStart st) (key_monthStart keys));
    repeat split; try assumption;
    intros k v H; rewrite lookup_empty in H; discriminate.
Qed.

Lemma nonNegative_loadState (now : Clock) (file : option SpendingState) :
  match file with Some data => Spec.nonNegative data | None => True end ->
  Spec.nonNegative (loadState now file).
Proof.
  destruct file as [data|]; cbn [loadState]; [|intros _; apply nonNegative_defaultState].
  intros H. apply (nonNegative_resetPeriods (getDateKeys now)) in H.
  exact H.
Qed.

Lemma nonNegative_recordPayment (a : number) (r : string) (now : Clock) (this : Enforcer) :
  (0 <=? a)%float = true ->
  Spec.nonNegative (state this) ->
  Spec.nonNegative (state (snd (recordPayment a r now this))).
Proof.
  intros Ha H. apply (nonNegative_resetPeriods (getDateKeys now)) in H.
  destruct H as (Hd & Hw & Hm & Hp).
  destruct (recordPayment_state a r now this)
    as (_ & _ & _ & Ed & Ew & Em & _ & Ep & _).
  unfold Spec.nonNegative. rewrite Ed, Ew, Em, Ep.
  repeat split; try (apply add_nonneg; assumption).
  intros k v. destruct (decide (toLowerCase r = k)) as [<-|Hne].
  - rewrite lookup_insert_eq. intros [= <-].
    apply add_nonneg; [|exact Ha]. apply orZero_nonneg. intros x Hx. apply (Hp _ _ Hx).
  - rewrite lookup_insert_ne by exact Hne. apply Hp.
Qed.

Lemma after_state (now : Clock) (c : Call) (this : Enforcer) :
  state (after now c this)
    = match c with
      | RecordPayment a r => state (snd (recordPayment a r now this))
      | _ => state this
      end.
Proof. destruct c; reflexivity. Qed.

Lemma nonNegative_after (now : Clock) (c : Call) (this : Enforcer) :
  recordsNonNegative c ->
  Spec.nonNegative (state this) ->
  Spec.nonNegative (state (after now c this)).
Proof.
  intros Hc H. rewrite after_state. destruct c; try exact H.
  apply nonNegative_recordPayment; assumption.
Qed.

Lemma nonNegative_afterAll (calls : list (Clock * Call)) (this : Enforcer) :
  Forall (fun nc => recordsNonNegative (snd nc)) calls ->
  Spec.nonNegative (state this) ->
  Spec.nonNegative (state (afterAll calls this)).
Proof.
  intros Hcalls. revert this.
  induction Hcalls as [|[now c] calls Hc _ IH]; intros this H; cbn.
  - exact H.
  - apply IH, nonNegative_after; assumption.
Qed.

(** One [recordPayment] with a non-negative amount: each total either keeps
    its bucket and does not decrease, or restarts from zero in a new bucket. *)
Lemma recordPayment_totals (a : number) (r : string) (now : Clock) (this : Enforcer) :
  (0 <=? a)%float = true ->
  Spec.nonNegative (state this) ->
  let st := state this in
  let st' := state (snd (recordPayment a r now this)) in
  (date st' = date st ->
     (dailySpent st <=? dailySpent st')%float = true
     /\ forall k v, perRecipient st !! k = Some v ->
          exists v', perRecipient st' !! k = Some v' /\ (v <=? v')%float = true)
  /\ (date st' <> date st ->
      dailySpent st' = (0 + a)%float
      /\ perRecipient st' = <[toLowerCase r := (0 + a)%float]> ∅)
  /\ (weekStart st' = weekStart st -> (weeklySpent st <=? weeklySpent st')%float = true)
  /\ (weekStart st' <> weekStart st -> weeklySpent st' = (0 + a)%float)
  /\ (monthStart st' = monthStart st -> (monthlySpent st <=? monthlySpent st')%float = true)
  /\ (monthStart st' <> monthStart st -> monthlySpent st' = (0 + a)%float).
Proof.
  intros Ha (Hd & Hw & Hm & Hp). cbv zeta.
  destruct (recordPayment_state a r now this)
    as (Kd & Kw & Km & Ed & Ew & Em & _ & Ep & _).
  destruct (resetPeriods_keys (getDateKeys now) (state this)) as (Rd & Rw & Rm).
  destruct (resetPeriods_daily (getDateKeys now) (state this)) as (Sd & _ & Sp).
  pose proof (resetPeriods_weekly (getDateKeys now) (state this)) as Sw.
  pose proof (resetPeriods_monthly (getDateKeys now) (state this)) as Sm.
  rewrite Kd, Kw, Km, Rd, Rw, Rm, Ed, Ew, Em, Ep, Sd, Sw, Sm, Sp.
  clear Kd Kw Km Rd Rw Rm Ed Ew Em Ep Sd Sw Sm Sp.
  refine (conj _ (conj _ (conj _ (conj _ (conj _ _))))).
  - intros <-. rewrite String.eqb_refl. cbv iota. split; [apply add_mono; assumption|].
    intros k v Hk. destruct (decide (toLowerCase r = k)) as [<-|Hne].
    + rewrite lookup_insert_eq. eexists. split; [reflexivity|]. rewrite Hk.
      apply orZero_add_ge; [apply (Hp _ _ Hk) | exact Ha].
    + rewrite lookup_insert_ne by exact Hne. exists v. split; [exact Hk|].
      apply leb_refl_nonneg, (Hp _ _ Hk).
  - intros Hne.
    destruct (String.eqb_spec (date (state this)) (key_date (getDateKeys now)));
      [congruence|]. cbv iota. rewrite lookup_empty. split; reflexivity.
  - intros <-. rewrite String.eqb_refl. apply add_mono; assumption.
  - intros Hne.
    destruct (String.eqb_spec (weekStart (state this)) (key_weekStart (getDateKeys now)));
      [congruence | reflexivity].
  - intros <-. rewrite String.eqb_refl. apply add_mono; assumption.
  - intros Hne.
    destruct (String.eqb_spec (monthStart (state this)) (key_monthStart (getDateKeys now)));
      [congruence | reflexivity].
Qed.

(** C7, as the code has it.  Take an enforcer built from no spending file, or
    from one whose totals are non-negative, and let every [recordPayment] on
    it record a non-negative amount.  Then in every state it reaches, the
    totals [dailySpent], [weeklySpent], [monthlySpent] and every per-recipient
    daily total are non-negative; and across one more call of [checkPayment],
    [recordPayment], [getStatus], [requiresApproval] or [freeze], each total
    whose bucket key is unchanged does not decrease, while a total whose bucket
    key changed restarts from zero: it is the amount recorded by that call. *)
Theorem C7_totals_non_negative_and_non_decreasing
    (p : PaymentPolicy) (file : option SpendingState) (start : Clock)
    (calls : list (Clock * Call)) (now : Clock) (c : Call) :
  match file with Some data => Spec.nonNegative data | None => True end ->
  Forall (fun nc => recordsNonNegative (snd nc)) calls ->
  recordsNonNegative c ->
  let this := afterAll calls (newPolicyEnforcer p file start) in
  let st := state this in
  let st' := state (after now c this) in
  Spec.nonNegative st
  /\ Spec.nonNegative st'
  /\ (date st' = date st ->
      (dailySpent st <=? dailySpent st')%float = true
      /\ forall k v, perRecipient st !! k = Some v ->
           exists v', perRecipient st' !! k = Some v' /\ (v <=? v')%float = true)
  /\ (date st' <> date st ->
      exists a r, c = RecordPayment a r
        /\ dailySpent st' = (0 + a)%float
        /\ perRecipient st' = <[toLowerCase r := (0 + a)%float]> ∅)
  /\ (weekStart st' = weekStart st -> (weeklySpent st <=? weeklySpent st')%float = true)
  /\ (weekStart st' <> weekStart st ->
      exists a r, c = RecordPayment a r /\ weeklySpent st' = (0 + a)%float)
  /\ (monthStart st' = monthStart st ->
      (monthlySpent st <=? monthlySpent st')%float = true)
  /\ (monthStart st' <> monthStart st ->
      exists a r, c = RecordPayment a r /\ monthlySpent st' = (0 + a)%float).
Proof.
  intros Hfile Hcalls Hc this st st'.
  assert (Hst : Spec.nonNegative st).
  { apply nonNegative_afterAll; [exact Hcalls|]. apply nonNegative_loadState, Hfile. }
  assert (Hst' : Spec.nonNegative st') by (apply nonNegative_after; assumption).
  split; [exact Hst|]. split; [exact Hst'|].
  assert (Hsame : st' = st ->
            ((dailySpent st <=? dailySpent st')%float = true
             /\ forall k v, perRecipient st !! k = Some v ->
                  exists v', perRecipient st' !! k = Some v' /\ (v <=? v')%float = true)
            /\ (weeklySpent st <=? weeklySpent st')%float = true
            /\ (monthlySpent st <=? monthlySpent st')%float = true).
  { intros ->. destruct Hst as (Hd & Hw & Hm & Hp).
    repeat split; try (apply leb_refl_nonneg; assumption).
    intros k v Hk. exists v. split; [exact Hk|]. apply leb_refl_nonneg, (Hp _ _ Hk). }
  unfold st' in *. rewrite after_state in *.
  destruct c as [a r|a r| |a|];
    try (destruct (Hsame eq_refl) as (H1 & H2 & H3);
         refine (conj _ (conj _ (conj _ (conj _ (conj _ _)))));
         [ intros _; exact H1 | intros H; contradiction | intros _; exact H2
         | intros H; contradiction | intros _; exact H3 | intros H; contradiction ]).
  destruct (recordPayment_totals a r now this Hc Hst) as (M1 & M2 & M3 & M4 & M5 & M6).
  refine (conj M1 (conj _ (conj M3 (conj _ (conj M5 _))))).
  - intros H. exists a, r. split; [reflexivity | apply (M2 H)].
  - intros H. exists a, r. split; [reflexivity | apply (M4 H)].
  - intros H. exists a, r. split; [reflexivity | apply (M6 H)].
Qed.

(** A payment on Sunday and one on Monday of the next week, in the same
    month: the weekly bucket rolls over, the monthly total does not decrease. *)
Lemma C7_totals_non_negative_and_non_decreasing_witness :
  let this :=
    afterAll [(Samples.sunday, RecordPayment 0.1 "0xabc"); (Samples.sunday, GetStatus)]
      (newPolicyEnforcer (Samples.limitsOnly 1 10) None Samples.sunday) in
  Spec.nonNegative (state (after Samples.monday (RecordPayment 0.2 "0xABC") this))
  /\ weekStart (state (after Samples.monday (RecordPayment 0.2 "0xABC") this))
       <> weekStart (state this)
  /\ (monthlySpent (state this)
        <=? monthlySpent (state (after Samples.monday (RecordPayment 0.2 "0xABC") this)))%float
      = true.
Proof.
  cbv zeta.
  destruct (C7_totals_non_negative_and_non_decreasing (Samples.limitsOnly 1 10) None
              Samples.sunday
              [(Samples.sunday, RecordPayment 0.1 "0xabc"); (Samples.sunday, GetStatus)]
              Samples.monday (RecordPayment 0.2 "0xABC"))
    as (_ & H & _ & _ & _ & _ & Hm & _).
  - exact I.
  - repeat constructor.
  - reflexivity.
  - split; [exact H|]. split; [vm_compute; discriminate|]. apply Hm. reflexivity.
Defined.

(** C7 as stated fails: [recordPayment] accepts a negative amount, and on a
    fresh ledger [recordPayment(-5, r)] leaves every total at -5, within the
    same day, week and month. *)
Lemma C7_counterexample_negative_amount_lowers_totals :
  let this := Samples.fresh (Samples.limitsOnly 1 10) in
  let st' := state (after Samples.monday (RecordPayment (-5) "0xabc") this) in
  date st' = date (state this)
  /\ weekStart st' = weekStart (state this)
  /\ monthStart st' = monthStart (state this)
  /\ dailySpent (state this) = 0%float
  /\ dailySpent st' = (-5)%float
  /\ (dailySpent st' <? 0)%float = true
  /\ weeklySpent st' = (-5)%float
  /\ monthlySpent st' = (-5)%float
  /\ perRecipient st' !! "0xabc" = Some (-5)%float.
Proof. cbv zeta. repeat split. Qed.

(** *** Negative amounts *)

(** C8, as the code has it: neither method inspects the sign of the amount.
    For a negative amount [checkPayment] returns the decision of the same
    checks as for any amount (and the per-transaction check passes whenever
    [maxPerTransaction] is not negative), and [recordPayment] adds the
    negative amount to the daily, weekly, monthly and per-recipient totals and
    saves the ledger; no error is signalled. *)
Theorem C8_negative_amount_is_checked_and_recorded
    (now : Clock) (this : Enforcer) (a : number) (r : string) :
  (a <? 0)%float = true ->
  let st := resetPeriods (getDateKeys now) (state this) in
  let this' := snd (recordPayment a r now this) in
  fst (checkPayment a r now this)
    = match Spec.firstFailing now this a r with
      | Some c => deny (Spec.reasonOf now this a r c)
      | None => allow
      end
  /\ ((0 <=? maxPerTransaction (policy this))%float = true ->
      Spec.fails now this a r Spec.PerTransactionCap = false)
  /\ dailySpent (state this') = (dailySpent st + a)%float
  /\ weeklySpent (state this') = (weeklySpent st + a)%float
  /\ monthlySpent (state this') = (monthlySpent st + a)%float
  /\ perRecipient (state this') !! toLowerCase r
      = Some (orZero (perRecipient st !! toLowerCase r) + a)%float
  /\ spendingFile this' = Some (state this').
Proof.
  intros Ha. cbv zeta.
  destruct (recordPayment_state a r now this)
    as (_ & _ & _ & Hd & Hw & Hm & _ & Hp & Hf & _).
  split; [apply checkPayment_firstFailing|].
  split; [intros Hm0; apply (ltb_neg_nonneg a _ Ha Hm0)|].
  repeat (split; [assumption|]).
  split; [|assumption].
  rewrite Hp. apply lookup_insert_eq.
Qed.

(** The amount -5 against a per-transaction limit of 1. *)
Lemma C8_negative_amount_is_checked_and_recorded_witness :
  fst (checkPayment (-5) "0xabc" Samples.monday (Samples.fresh (Samples.limitsOnly 1 10)))
    = allow.
Proof.
  destruct (C8_negative_amount_is_checked_and_recorded Samples.monday
              (Samples.fresh (Samples.limitsOnly 1 10)) (-5)%float "0xabc" eq_refl)
    as (H & _).
  rewrite H. reflexivity.
Defined.

(** C8 as stated fails: with the amount -5, [checkPayment] evaluates the
    checks and allows the payment, and [recordPayment] returns normally with
    -5 recorded as today's total in the ledger and in the spending file. *)
Lemma C8_counterexample_negative_amount_recorded :
  let this := Samples.fresh (Samples.limitsOnly 1 10) in
  let this' := snd (recordPayment (-5) "0xabc" Samples.monday this) in
  (-5 <? 0)%float = true
  /\ fst (checkPayment (-5) "0xabc" Samples.monday this) = allow
  /\ fst (recordPayment (-5) "0xabc" Samples.monday this) = tt
  /\ dailySpent (state this') = (-5)%float
  /\ option_map dailySpent (spendingFile this') = Some (-5)%float.
Proof. cbv zeta. repeat split. Qed.

(** *** Receipts *)

Section ReceiptProperties.
Import Receipts.

Ltac runR :=
  unfold getTodayTotal, createReceipt, recordBlocked, updateReceipt, getToday, getAll,
    getByStatus, push, saveReceipts, setReceipts, getEnv, Receipts.getThis,
    mbind, mret, R_bind, R_ret;
  cbn beta iota zeta.

Lemma findIndex_Some {A} (p : A -> bool) (l : list A) (idx : nat) :
  findIndex p l = Some idx ->
  exists x, l !! idx = Some x /\ p x = true
    /\ forall j y, (j < idx)%nat -> l !! j = Some y -> p y = false.
Proof.
  revert idx. induction l as [|x l IH]; intros idx; cbn [findIndex]; [discriminate|].
  destruct (p x) eqn:Hp.
  - intros [= <-]. exists x. repeat split; [exact Hp|]. intros j y Hj. lia.
  - destruct (findIndex p l) as [i|]; cbn; [|discriminate].
    intros [= <-]. destruct (IH i eq_refl) as (x' & Hx & Hpx & Hlt).
    exists x'. repeat split; [exact Hx | exact Hpx |].
    intros [|j] y Hj; cbn.
    + intros [= <-]. exact Hp.
    + apply Hlt. lia.
Qed.

Lemma findIndex_None {A} (p : A -> bool) (l : list A) :
  findIndex p l = None -> forall x, In x l -> p x = false.
Proof.
  induction l as [|x l IH]; cbn [findIndex]; [intros _ y []|].
  destruct (p x) eqn:Hp; [discriminate|].
  destruct (findIndex p l); cbn; [discriminate|].
  intros _ y [<- | Hy]; [exact Hp | apply IH; [reflexivity | exact Hy]].
Qed.

(** C9, as the code has it: [createReceipt] always produces a receipt with
    status [pending] and [recordBlocked] one with status [blocked], each
    appended to the store.  [updateReceipt(id, update)] returns null and
    changes nothing when no receipt has that id; otherwise it replaces the
    first receipt with that id by its merge with [update], whatever its
    current status: the status afterwards is the one [update] carries, and the
    previous one when [update] carries none. *)
Theorem C9_receipt_status_after_calls
    (env : Env) (this : ReceiptStore) (partial : Partial.t)
    (url' amount' amountRaw' recipient' reason : string) (network' : NetworkName)
    (id' : string) (update : Update.t) :
  (status (fst (createReceipt partial env this)) = pending
   /\ receipts (snd (createReceipt partial env this))
       = (receipts this ++ [fst (createReceipt partial env this)])%list)
  /\ (let res := recordBlocked url' amount' amountRaw' recipient' network' reason env this in
      status (fst res) = blocked
      /\ blockReason (fst res) = Some reason
      /\ receipts (snd res) = (receipts this ++ [fst res])%list)
  /\ match findIndex (fun r => String.eqb (id r) id') (receipts this) with
     | None =>
         (forall r, In r (receipts this) -> id r <> id')
         /\ updateReceipt id' update env this = (None, this)
     | Some idx =>
         exists old,
           receipts this !! idx = Some old
           /\ id old = id'
           /\ (forall j r, (j < idx)%nat -> receipts this !! j = Some r -> id r <> id')
           /\ fst (updateReceipt id' update env this) = Some (spread old update)
           /\ receipts (snd (updateReceipt id' update env this))
               = <[idx := spread old update]> (receipts this)
           /\ status (spread old update) = default (status old) (Update.status update)
     end.
Proof.
  split; [split; reflexivity|]. split; [repeat split|].
  destruct (findIndex _ (receipts this)) as [idx|] eqn:E.
  - destruct (findIndex_Some _ _ _ E) as (old & Hold & Hid & Hlt).
    exists old. split; [exact Hold|]. split; [apply String.eqb_eq, Hid|].
    split; [intros j r Hj Hr; apply String.eqb_neq, (Hlt j r Hj Hr)|].
    runR. rewrite E, Hold. cbn [fst snd receipts].
    split; [|split; reflexivity].
    apply list_lookup_insert_eq. apply lookup_lt_Some in Hold. exact Hold.
  - split.
    + intros r Hr. apply String.eqb_neq, (findIndex_None _ _ E r Hr).
    + runR. rewrite E. reflexivity.
Qed.

(** C9 as stated fails: a receipt recorded as [blocked] takes the status
    [success] when [updateReceipt] is called with its id, and a [pending]
    receipt updated to [success] can be updated again to [failed]. *)
Lemma C9_counterexample_terminal_status_changes :
  let blockedStore :=
    snd (recordBlocked "https://api.example.com/data" "5.00" "5000000" "0x1234" base
           "Exceeds daily limit" Samples.firstReceipt (newReceiptStore None)) in
  let pendingStore :=
    snd (createReceipt Samples.halfDollar Samples.secondReceipt blockedStore) in
  let succeeded :=
    snd (updateReceipt "a2e7" (Samples.setStatus success) Samples.secondReceipt pendingStore) in
  option_map status (receipts blockedStore !! 0%nat) = Some blocked
  /\ option_map status
       (fst (updateReceipt "6f1c" (Samples.setStatus success) Samples.secondReceipt
               blockedStore)) = Some success
  /\ option_map status (receipts succeeded !! 1%nat) = Some success
  /\ option_map status
       (fst (updateReceipt "a2e7" (Samples.setStatus failed) Samples.secondReceipt
               succeeded)) = Some failed.
Proof. cbv zeta. repeat split. Qed.

Section TodayTotal.

Variable parseFloat : string -> number.

Lemma filter_filter {A} (p q : A -> bool) (l : list A) :
  List.filter q (List.filter p l) = List.filter (fun x => p x && q x) l.
Proof.
  induction l as [|x l IH]; [reflexivity|]. cbn.
  destruct (p x); cbn; [destruct (q x)|]; rewrite IH; reflexivity.
Qed.

Lemma filter_drop {A} (p : A -> bool) (l1 l2 : list A) (x : A) :
  p x = false -> List.filter p (l1 ++ x :: l2) = List.filter p (l1 ++ l2).
Proof.
  intros Hx. rewrite !List.filter_app. cbn. rewrite Hx. reflexivity.
Qed.

Lemma countedToday_countsToday (today : string) (r : PaymentReceipt) :
  Spec.countedToday today r = true <-> Spec.countsToday today r.
Proof.
  unfold Spec.countedToday, Spec.countsToday, Spec.onDay.
  rewrite andb_true_iff, prefix_correct.
  split; intros [H1 H2]; (split; [exact H1|]).
  - destruct (status r); cbn in H2; congruence.
  - rewrite H2. reflexivity.
Qed.

Lemma beforeT_isoOfDay (day iso : string) : Spec.isoOfDay day iso -> beforeT iso = day.
Proof.
  intros [Hday [time ->]]. induction day as [|c day IH].
  - cbn. reflexivity.
  - cbn [includes String.prefix] in Hday. apply orb_false_elim in Hday as [Hc Hday].
    change (String c day +:+ String "T" time) with (String c (day +:+ String "T" time)).
    cbn [beforeT]. destruct (Ascii.eqb_spec c "T") as [->|_].
    + destruct (ascii_dec "T" "T") as [_|Hne]; [|contradiction].
      destruct day; discriminate Hc.
    + rewrite (IH Hday). reflexivity.
Qed.

(** C10: when the runtime's clock reads an instant of the UTC day [day],
    [getTodayTotal()] returns the sum, from zero and in the order of the
    store, of the parsed [amount] fields of exactly those stored receipts whose
    timestamp falls on the day [day] and whose status is [success]; a receipt
    of another day or with status [pending], [blocked] or [failed] contributes
    nothing to the total; the store is not changed. *)
Theorem C10_getTodayTotal_sums_successful_receipts_of_today
    (env : Env) (this : ReceiptStore) (day : string) :
  Spec.isoOfDay day (toISOString env) ->
  fst (getTodayTotal parseFloat env this)
    = Spec.sumAmounts parseFloat (List.filter (Spec.countedToday day) (receipts this))
  /\ (forall r, Spec.countedToday day r = true <-> Spec.countsToday day r)
  /\ (forall l1 r l2,
        receipts this = (l1 ++ r :: l2)%list ->
        ~ Spec.countsToday day r ->
        fst (getTodayTotal parseFloat env this)
          = fst (getTodayTotal parseFloat env
                   {| receipts := (l1 ++ l2)%list; receiptsFile := receiptsFile this |}))
  /\ snd (getTodayTotal parseFloat env this) = this.
Proof.
  intros Hday.
  assert (Hrun : forall st,
            fst (getTodayTotal parseFloat env st)
              = Spec.sumAmounts parseFloat
                  (List.filter (Spec.countedToday day) (receipts st))).
  { intros st. runR. cbn [fst]. rewrite filter_filter, (beforeT_isoOfDay day _ Hday).
    reflexivity. }
  split; [apply Hrun|]. split; [intros r; apply countedToday_countsToday|].
  split; [|reflexivity].
  intros l1 r l2 Hl Hr. rewrite !Hrun. cbn [receipts]. rewrite Hl.
  rewrite filter_drop; [reflexivity|].
  destruct (Spec.countedToday day r) eqn:E; [|reflexivity].
  apply countedToday_countsToday in E. contradiction.
Qed.

End TodayTotal.

(** On 2 November 2026 the store of [Samples.threeReceipts] holds a successful
    receipt of today over 0.50, a pending receipt of today over 0.25 and a
    successful receipt of the day before over 4.00: the total of today is
    0.5. *)
Lemma C10_getTodayTotal_sums_successful_receipts_of_today_witness :
  Spec.isoOfDay "2026-11-02" (toISOString Samples.secondReceipt)
  /\ fst (getTodayTotal Samples.parseAmount Samples.secondReceipt Samples.threeReceipts)
     = 0.5%float
  /\ List.filter (Spec.countedToday "2026-11-02") (receipts Samples.threeReceipts)
     = [Samples.paidToday].
Proof.
  assert (Spec.isoOfDay "2026-11-02" (toISOString Samples.secondReceipt)) as Hday
    by (split; [reflexivity | exists "12:00:01.000Z"; reflexivity]).
  split; [exact Hday|].
  rewrite (proj1 (C10_getTodayTotal_sums_successful_receipts_of_today Samples.parseAmount
                    Samples.secondReceipt Samples.threeReceipts "2026-11-02" Hday)).
  split; reflexivity.
Defined.

End ReceiptProperties.

(** ** Further properties of the policy enforcer *)

Section LedgerProperties.

Lemma resetPeriods_current (keys : DateKeys) (st : SpendingState) :
  date st = key_date keys -> weekStart st = key_weekStart keys ->
  monthStart st = key_monthStart keys -> resetPeriods keys st = st.
Proof.
  intros Hd Hw Hm. unfold resetPeriods.
  rewrite Hd, String.eqb_refl. cbn [negb]. rewrite Hw, String.eqb_refl. cbn [negb].
  rewrite Hm, String.eqb_refl. reflexivity.
Qed.

Lemma resetPeriods_recent (keys : DateKeys) (st : SpendingState) :
  recentTransactions (resetPeriods keys st) = recentTransactions st.
Proof.
  unfold resetPeriods.
  destruct (String.eqb (date st) (key_date keys));
    cbn [negb date weekStart monthStart];
    destruct (String.eqb (weekStart st) (key_weekStart keys));
    cbn [negb date weekStart monthStart];
    destruct (String.eqb (monthStart st) (key_monthStart keys));
    reflexivity.
Qed.

(** X1.  The ledger that [loadState] gives always carries the keys of the
    current day, week and month.  With no readable spending file it is the
    zero ledger.  With one, each bucket is judged on its own key: the daily
    total, the transaction counter and the per-recipient totals are kept when
    the file's date is today's and cleared otherwise; the weekly total is kept
    when the file's week start is this week's and zero otherwise; the same for
    the month; and of the velocity entries those of the last hour are kept. *)
Theorem X1_loadState_rolls_over_each_bucket (now : Clock) (file : option SpendingState) :
  let keys := getDateKeys now in
  let st := loadState now file in
  date st = key_date keys /\ weekStart st = key_weekStart keys
  /\ monthStart st = key_monthStart keys
  /\ match file with
     | None =>
         dailySpent st = 0%float /\ weeklySpent st = 0%float /\ monthlySpent st = 0%float
         /\ transactions st = 0%float /\ recentTransactions st = []
         /\ perRecipient st = ∅
     | Some data =>
         (date data = key_date keys ->
            dailySpent st = dailySpent data /\ transactions st = transactions data
            /\ perRecipient st = perRecipient data)
         /\ (date data <> key_date keys ->
            dailySpent st = 0%float /\ transactions st = 0%float /\ perRecipient st = ∅)
         /\ (weekStart data = key_weekStart keys -> weeklySpent st = weeklySpent data)
         /\ (weekStart data <> key_weekStart keys -> weeklySpent st = 0%float)
         /\ (monthStart data = key_monthStart keys -> monthlySpent st = monthlySpent data)
         /\ (monthStart data <> key_monthStart keys -> monthlySpent st = 0%float)
         /\ recentTransactions st
            = List.filter (fun t => nowMs now - 3600000 <? timestamp t)
                (recentTransactions data)
     end.
Proof.
  cbv zeta. destruct file as [data|]; cbn [loadState].
  - destruct (resetPeriods_keys (getDateKeys now) data) as (Kd & Kw & Km).
    destruct (resetPeriods_daily (getDateKeys now) data) as (Sd & St & Sp).
    pose proof (resetPeriods_weekly (getDateKeys now) data) as Sw.
    pose proof (resetPeriods_monthly (getDateKeys now) data) as Sm.
    cbn [date weekStart monthStart dailySpent weeklySpent monthlySpent transactions
         recentTransactions perRecipient].
    rewrite Sd, St, Sp, Sw, Sm, resetPeriods_recent.
    refine (conj Kd (conj Kw (conj Km (conj _ (conj _ (conj _ (conj _ (conj _ (conj _ _))))))))).
    + intros ->. rewrite String.eqb_refl. repeat split.
    + intros H. apply String.eqb_neq in H. rewrite H. repeat split.
    + intros ->. rewrite String.eqb_refl. reflexivity.
    + intros H. apply String.eqb_neq in H. rewrite H. reflexivity.
    + intros ->. rewrite String.eqb_refl. reflexivity.
    + intros H. apply String.eqb_neq in H. rewrite H. reflexivity.
    + reflexivity.
  - repeat split.
Qed.

(** X2.  For a clock whose weekday is 0 (Sunday) to 6 and whose month is 0 to
    11, [getDateKeys] gives as day key the ISO date of now; as week key the
    ISO date of the instant 0 to 6 days before now, as many days as make the
    weekday a Monday; and as month key the year, a month of two characters and
    the day 01. *)
Theorem X2_getDateKeys_week_starts_on_monday (now : Clock) :
  0 <= getDay now <= 6 -> 0 <= getMonth now <= 11 ->
  key_date (getDateKeys now) = isoDate now 0
  /\ (exists back, 0 <= back <= 6 /\ (getDay now - back) mod 7 = 1
        /\ key_weekStart (getDateKeys now) = isoDate now (- back))
  /\ (exists mm, String.length mm = 2%nat
        /\ key_monthStart (getDateKeys now)
           = showZ (getFullYear now) +:+ "-" +:+ mm +:+ "-01").
Proof.
  intros Hd Hm. unfold getDateKeys. cbn [key_date key_weekStart key_monthStart].
  refine (conj eq_refl (conj _ _)).
  - destruct (Z.eqb_spec (getDay now) 0) as [E|E].
    + exists 6. rewrite E. repeat split; lia.
    + exists (getDay now - 1). split; [lia|]. split.
      * replace (getDay now - (getDay now - 1)) with 1 by lia. reflexivity.
      * f_equal. lia.
  - eexists. split; [|reflexivity].
    assert (getMonth now = 0 \/ getMonth now = 1 \/ getMonth now = 2 \/ getMonth now = 3
            \/ getMonth now = 4 \/ getMonth now = 5 \/ getMonth now = 6 \/ getMonth now = 7
            \/ getMonth now = 8 \/ getMonth now = 9 \/ getMonth now = 10
            \/ getMonth now = 11) as H by lia.
    repeat (destruct H as [->|H]; [reflexivity|]). rewrite H. reflexivity.
Qed.

Lemma X2_getDateKeys_week_starts_on_monday_witness :
  key_weekStart (getDateKeys Samples.sunday) = isoDate Samples.sunday (-6)
  /\ key_monthStart (getDateKeys Samples.sunday) = "2026-11-01".
Proof.
  destruct (X2_getDateKeys_week_starts_on_monday Samples.sunday) as (_ & _ & _);
    [cbn; lia | cbn; lia | split; reflexivity].
Defined.

Lemma recordPayment_recent (a : number) (r : string) (now : Clock) (this : Enforcer) :
  recentTransactions (state (snd (recordPayment a r now this)))
  = (List.filter (fun t => nowMs now - 3600000 <? timestamp t)
       (recentTransactions (state this))
     ++ [{| timestamp := nowMs now; amount := a; recipient := toLowerCase r |}])%list.
Proof.
  run. cbn [snd state recentTransactions]. rewrite resetPeriods_recent.
  unfold withinLastHour. change (60 * 60 * 1000) with 3600000.
  rewrite List.filter_app. cbn [List.filter timestamp].
  replace (nowMs now - 3600000 <? nowMs now) with true by (symmetry; apply Z.ltb_lt; lia).
  reflexivity.
Qed.

(** X3.  The velocity list holds entries of the last hour only: every entry
    of [recentTransactions] is newer than one hour before the clock reading,
    both in the ledger of a new enforcer, whatever the spending file held, and
    in the ledger after a [recordPayment]; and the last entry then is the
    payment just recorded, with the lower-cased recipient. *)
Theorem X3_velocity_list_holds_last_hour_only
    (p : PaymentPolicy) (file : option SpendingState) (a : number) (r : string)
    (now : Clock) (this : Enforcer) :
  let recent (st : SpendingState) :=
    Forall (fun t => nowMs now - 3600000 < timestamp t) (recentTransactions st) in
  recent (state (newPolicyEnforcer p file now))
  /\ recent (state (snd (recordPayment a r now this)))
  /\ last (recentTransactions (state (snd (recordPayment a r now this))))
     = Some {| timestamp := nowMs now; amount := a; recipient := toLowerCase r |}.
Proof.
  cbv zeta. refine (conj _ (conj _ _)).
  - destruct file as [data|];
      cbn [newPolicyEnforcer state loadState recentTransactions defaultState].
    + unfold withinLastHour. change (60 * 60 * 1000) with 3600000.
      apply List.Forall_forall. intros t Ht. apply List.filter_In in Ht as [_ Ht].
      apply Z.ltb_lt, Ht.
    + constructor.
  - rewrite recordPayment_recent. apply Forall_app. split.
    + apply List.Forall_forall. intros t Ht. apply List.filter_In in Ht as [_ Ht].
      apply Z.ltb_lt, Ht.
    + constructor; [cbn; lia | constructor].
  - rewrite recordPayment_recent. apply last_snoc.
Qed.

Lemma filter_weaken {A} (p q : A -> bool) (l : list A) :
  (forall x, q x = true -> p x = true) ->
  List.filter q (List.filter p l) = List.filter q l.
Proof.
  intros H. induction l as [|x l IH]; [reflexivity|]. cbn.
  destruct (p x) eqn:Ep; cbn.
  - rewrite IH. reflexivity.
  - destruct (q x) eqn:Eq; [rewrite (H x Eq) in Ep; discriminate | exact IH].
Qed.

Lemma recentCount_after (now' now : Clock) (c : Call) (this : Enforcer) :
  nowMs now <= nowMs now' ->
  Spec.recentCount now' (state (after now c this))
  = (Spec.recentCount now' (state this)
     + (if RollingHour.recordedWithinHour now' (now, c) then 1 else 0))%nat.
Proof.
  intros Hle. rewrite after_state. unfold RollingHour.recordedWithinHour. cbn [fst snd].
  destruct c; try (rewrite Nat.add_0_r; reflexivity).
  unfold Spec.recentCount. rewrite recordPayment_recent, List.filter_app.
  rewrite filter_weaken.
  2:{ intros t Ht. apply Z.ltb_lt in Ht. apply Z.ltb_lt. lia. }
  rewrite List.length_app. cbn [List.filter timestamp].
  destruct (nowMs now' - 3600000 <? nowMs now); reflexivity.
Qed.

(** X4.  After any calls on an enforcer, none made later than [now], the
    number of transactions that [checkPayment] counts at [now] for the
    velocity limit is the number it counted before, plus the number of
    [recordPayment] calls made within the hour before [now]: every payment
    recorded in the last hour is counted, whatever its amount and recipient,
    and no other call adds one.  When that number has reached a configured
    [maxTransactionsPerHour], [checkPayment] at [now] denies every payment. *)
Theorem X4_velocity_count_is_recordings_of_last_hour
    (now : Clock) (calls : list (Clock * Call)) (this : Enforcer) :
  Forall (fun c => nowMs (fst c) <= nowMs now) calls ->
  let this' := afterAll calls this in
  let n := (Spec.recentCount now (state this)
            + List.length (List.filter (RollingHour.recordedWithinHour now) calls))%nat in
  Spec.recentCount now (state this') = n
  /\ forall l a r,
       maxTransactionsPerHour (policy this') = Some l ->
       ge (numOfNat n) l = true ->
       allowed (fst (checkPayment a r now this')) = false.
Proof.
  intros H. cbv zeta.
  assert (Spec.recentCount now (state (afterAll calls this))
          = (Spec.recentCount now (state this)
             + List.length (List.filter (RollingHour.recordedWithinHour now) calls))%nat)
    as Hn.
  { revert this. induction H as [|[t c] calls Ht _ IH]; intros this.
    - cbn. rewrite Nat.add_0_r. reflexivity.
    - cbn [afterAll fold_left fst snd] in *. unfold afterAll in IH. rewrite IH.
      rewrite (recentCount_after now t c this Ht). cbn [List.filter].
      destruct (RollingHour.recordedWithinHour now (t, c)); cbn [List.length]; lia. }
  split; [exact Hn|]. intros l a r El Hge. rewrite <- Hn in Hge.
  destruct (allowed (fst (checkPayment a r now (afterAll calls this)))) eqn:E;
    [|reflexivity].
  pose proof (proj1 (checkPayment_allowed_iff now _ a r) E Spec.VelocityLimit) as Hv.
  cbn [Spec.fails] in Hv. rewrite El, Hge in Hv.
  assert (true = false) as Habs by (apply Hv; cbn; tauto). discriminate Habs.
Qed.

Lemma X4_velocity_count_is_recordings_of_last_hour_witness :
  Spec.recentCount Samples.monday
    (state (afterAll (repeat (Samples.monday, RecordPayment 0.01 "0xApproved1") 10)
              (Samples.fresh Samples.testPolicy))) = 10%nat
  /\ allowed
       (fst (checkPayment 0.01 "0xApproved2" Samples.monday
               (afterAll (repeat (Samples.monday, RecordPayment 0.01 "0xApproved1") 10)
                  (Samples.fresh Samples.testPolicy)))) = false.
Proof.
  destruct (X4_velocity_count_is_recordings_of_last_hour Samples.monday
              (repeat (Samples.monday, RecordPayment 0.01 "0xApproved1") 10)
              (Samples.fresh Samples.testPolicy)) as [Hn Hd].
  - apply List.Forall_forall. intros c Hc. apply List.repeat_spec in Hc. subst c.
    cbn. lia.
  - split; [exact Hn|]. apply (Hd 10%float); reflexivity.
Defined.

(** X5.  A payment that [checkPayment] allows and [recordPayment] then
    records, with no rollover in between (the ledger carries the keys of the
    clock reading of the recording), leaves every total within its limit: the
    new daily total is not above [dailyLimit], the new weekly and monthly
    totals are not above their configured limits, and the recipient's new
    daily total is not above a configured per-recipient limit. *)
Theorem X5_allowed_payment_recorded_stays_within_limits
    (a : number) (r : string) (now now' : Clock) (this : Enforcer) :
  allowed (fst (checkPayment a r now this)) = true ->
  date (state this) = key_date (getDateKeys now') ->
  weekStart (state this) = key_weekStart (getDateKeys now') ->
  monthStart (state this) = key_monthStart (getDateKeys now') ->
  let p := policy this in
  let st' := state (snd (recordPayment a r now' this)) in
  gt (dailySpent st') (dailyLimit p) = false
  /\ (forall l, weeklyLimit p = Some l -> gt (weeklySpent st') l = false)
  /\ (forall l, monthlyLimit p = Some l -> gt (monthlySpent st') l = false)
  /\ (forall l, perRecipientDailyLimit p = Some l ->
        exists v, perRecipient st' !! toLowerCase r = Some v /\ gt v l = false).
Proof.
  intros Hall Hd Hw Hm. cbv zeta.
  pose proof (proj1 (checkPayment_allowed_iff now this a r) Hall) as Hc.
  destruct (recordPayment_state a r now' this) as (_ & _ & _ & Ed & Ew & Em & _ & Ep & _).
  rewrite (resetPeriods_current _ _ Hd Hw Hm) in Ed, Ew, Em, Ep.
  rewrite Ed, Ew, Em, Ep. clear Ed Ew Em Ep.
  refine (conj _ (conj _ (conj _ _))).
  - apply (Hc Spec.DailyLimit). cbn; tauto.
  - intros l El. assert (H := Hc Spec.WeeklyLimit). cbn [Spec.fails] in H.
    rewrite El in H. apply H. cbn; tauto.
  - intros l El. assert (H := Hc Spec.MonthlyLimit). cbn [Spec.fails] in H.
    rewrite El in H. apply H. cbn; tauto.
  - intros l El. assert (H := Hc Spec.PerRecipientDailyLimit). cbn [Spec.fails] in H.
    rewrite El in H. rewrite lookup_insert_eq. eexists. split; [reflexivity|].
    apply H. cbn; tauto.
Qed.

Lemma X5_allowed_payment_recorded_stays_within_limits_witness :
  let this := Samples.fresh Samples.testPolicy in
  gt (dailySpent (state (snd (recordPayment 0.5 "0xApproved1" Samples.monday this)))) 10
  = false.
Proof.
  cbv zeta.
  refine (proj1 (X5_allowed_payment_recorded_stays_within_limits 0.5 "0xApproved1"
            Samples.monday Samples.monday (Samples.fresh Samples.testPolicy) _ _ _ _));
    reflexivity.
Defined.

Lemma fails_lowercase (now : Clock) (this : Enforcer) (a : number) (r r' : string)
    (c : Spec.Check) :
  toLowerCase r = toLowerCase r' ->
  Spec.fails now this a r c = Spec.fails now this a r' c.
Proof.
  intros H. destruct c; cbn [Spec.fails];
    try destruct (approvedRecipients (policy this)) as [[|w wl]|];
    rewrite ?listed_toLowerCase, ?H; reflexivity.
Qed.

(** X6.  The enforcer looks at a recipient only through its lower-case form:
    for two recipients that differ in the case of their letters only,
    [checkPayment] gives the same decision for the same check (the reason
    quotes the recipient as it was passed), and [recordPayment] leaves the
    same instance. *)
Theorem X6_recipient_case_is_ignored
    (a : number) (r r' : string) (now : Clock) (this : Enforcer) :
  toLowerCase r = toLowerCase r' ->
  allowed (fst (checkPayment a r now this)) = allowed (fst (checkPayment a r' now this))
  /\ option_map Spec.checkOf (reason (fst (checkPayment a r now this)))
     = option_map Spec.checkOf (reason (fst (checkPayment a r' now this)))
  /\ recordPayment a r now this = recordPayment a r' now this.
Proof.
  intros H. rewrite !checkPayment_firstFailing.
  assert (Spec.firstFailing now this a r = Spec.firstFailing now this a r') as ->.
  { unfold Spec.firstFailing, Spec.evaluationOrder. cbn [List.find].
    rewrite !(fun c => fails_lowercase now this a r r' c H). reflexivity. }
  refine (conj _ (conj _ _)).
  - destruct (Spec.firstFailing now this a r'); reflexivity.
  - destruct (Spec.firstFailing now this a r') as [[]|]; reflexivity.
  - run. rewrite H. reflexivity.
Qed.

Lemma X6_recipient_case_is_ignored_witness :
  recordPayment 1 "0xABCdef" Samples.monday (Samples.fresh Samples.testPolicy)
  = recordPayment 1 "0xabcDEF" Samples.monday (Samples.fresh Samples.testPolicy).
Proof.
  refine (proj2 (proj2 (X6_recipient_case_is_ignored 1 "0xABCdef" "0xabcDEF" Samples.monday
            (Samples.fresh Samples.testPolicy) _))). reflexivity.
Defined.

Lemma is_nan_spec (a : float) : is_nan a = true -> Prim2SF a = S754_nan.
Proof.
  unfold is_nan. rewrite FloatAxioms.eqb_spec. unfold SFeqb, SFcompare.
  destruct (Prim2SF a) as [s|s| |s m e]; try reflexivity.
  all: destruct s; cbn; try discriminate.
  all: rewrite Z.compare_refl, Pos.compare_refl; cbn; discriminate.
Qed.

Lemma gt_nan_left (x l : float) : Prim2SF x = S754_nan -> gt x l = false.
Proof.
  intros H. unfold gt. rewrite ltb_spec, H. unfold SFltb.
  destruct (Prim2SF l) as [s|s| |s m e]; reflexivity.
Qed.

Lemma add_nan_right (s a : float) : Prim2SF a = S754_nan -> Prim2SF (s + a) = S754_nan.
Proof.
  intros H. rewrite add_spec, H. destruct (Prim2SF s) as [?|?| |? ? ?]; reflexivity.
Qed.

Lemma add_nan_left (s a : float) : Prim2SF s = S754_nan -> Prim2SF (s + a) = S754_nan.
Proof. intros H. rewrite add_spec, H. reflexivity. Qed.

Lemma nan_ledger_after (keys : DateKeys) (now : Clock) (c : Call) (this : Enforcer) :
  getDateKeys now = keys ->
  (date (state this) = key_date keys /\ weekStart (state this) = key_weekStart keys
   /\ monthStart (state this) = key_monthStart keys
   /\ Prim2SF (dailySpent (state this)) = S754_nan
   /\ Prim2SF (weeklySpent (state this)) = S754_nan
   /\ Prim2SF (monthlySpent (state this)) = S754_nan) ->
  let this' := after now c this in
  date (state this') = key_date keys /\ weekStart (state this') = key_weekStart keys
  /\ monthStart (state this') = key_monthStart keys
  /\ Prim2SF (dailySpent (state this')) = S754_nan
  /\ Prim2SF (weeklySpent (state this')) = S754_nan
  /\ Prim2SF (monthlySpent (state this')) = S754_nan.
Proof.
  intros <- (Kd & Kw & Km & Nd & Nw & Nm). cbv zeta. rewrite after_state.
  destruct c as [a r|a r| |a|]; try (repeat split; assumption).
  destruct (recordPayment_state a r now this) as (Ed & Ew & Em & Sd & Sw & Sm & _).
  rewrite (resetPeriods_current _ _ Kd Kw Km) in Ed, Ew, Em, Sd, Sw, Sm.
  rewrite Ed, Ew, Em, Sd, Sw, Sm.
  repeat split; try assumption; apply add_nan_left; assumption.
Qed.

(** X7.  An amount that is NaN passes every comparison with a limit: in
    [checkPayment] the per-transaction, daily, weekly, monthly and
    per-recipient checks do not fail for it.  Once such an amount is recorded,
    the daily, weekly and monthly totals are NaN and stay so under every call
    made on the instance within the same day, week and month: after any such
    calls these three checks fail for no amount and no recipient. *)
Theorem X7_nan_amount_passes_and_disables_spending_limits
    (a : number) (r : string) (now : Clock) (this : Enforcer) :
  is_nan a = true ->
  (forall c, In c [Spec.PerTransactionCap; Spec.DailyLimit; Spec.WeeklyLimit;
                   Spec.MonthlyLimit; Spec.PerRecipientDailyLimit] ->
     Spec.fails now this a r c = false)
  /\ (forall calls,
        Forall (fun c => getDateKeys (fst c) = getDateKeys now) calls ->
        forall now' a' r' c,
          In c [Spec.DailyLimit; Spec.WeeklyLimit; Spec.MonthlyLimit] ->
          Spec.fails now' (afterAll calls (snd (recordPayment a r now this))) a' r' c
          = false).
Proof.
  intros Ha. apply is_nan_spec in Ha. split.
  - intros c Hc. cbn [In] in Hc.
    destruct Hc as [<-|[<-|[<-|[<-|[<-|[]]]]]]; cbn [Spec.fails].
    + apply gt_nan_left, Ha.
    + apply gt_nan_left, add_nan_right, Ha.
    + destruct (weeklyLimit (policy this)); [|reflexivity].
      apply gt_nan_left, add_nan_right, Ha.
    + destruct (monthlyLimit (policy this)); [|reflexivity].
      apply gt_nan_left, add_nan_right, Ha.
    + destruct (perRecipientDailyLimit (policy this)); [|reflexivity].
      apply gt_nan_left, add_nan_right, Ha.
  - intros calls Hcalls now' a' r' c Hc.
    assert (forall e,
      (date (state e) = key_date (getDateKeys now)
       /\ weekStart (state e) = key_weekStart (getDateKeys now)
       /\ monthStart (state e) = key_monthStart (getDateKeys now)
       /\ Prim2SF (dailySpent (state e)) = S754_nan
       /\ Prim2SF (weeklySpent (state e)) = S754_nan
       /\ Prim2SF (monthlySpent (state e)) = S754_nan) ->
      Prim2SF (dailySpent (state (afterAll calls e))) = S754_nan
      /\ Prim2SF (weeklySpent (state (afterAll calls e))) = S754_nan
      /\ Prim2SF (monthlySpent (state (afterAll calls e))) = S754_nan) as Hinv.
    { induction Hcalls as [|[t call] calls Ht _ IH]; intros e He.
      - cbn. tauto.
      - cbn [afterAll fold_left fst snd] in *. apply IH.
        apply (nan_ledger_after (getDateKeys now) t call e Ht He). }
    destruct (Hinv (snd (recordPayment a r now this))) as (Nd & Nw & Nm).
    { destruct (recordPayment_state a r now this) as (Ed & Ew & Em & Sd & Sw & Sm & _).
      destruct (resetPeriods_keys (getDateKeys now) (state this)) as (Rd & Rw & Rm).
      rewrite Ed, Ew, Em, Sd, Sw, Sm, Rd, Rw, Rm.
      repeat split; apply add_nan_right, Ha. }
    cbn [In] in Hc. destruct Hc as [<-|[<-|[<-|[]]]]; cbn [Spec.fails].
    + apply gt_nan_left, add_nan_left, Nd.
    + destruct (weeklyLimit _); [|reflexivity]. apply gt_nan_left, add_nan_left, Nw.
    + destruct (monthlyLimit _); [|reflexivity]. apply gt_nan_left, add_nan_left, Nm.
Qed.

Lemma X7_nan_amount_passes_and_disables_spending_limits_witness :
  allowed (fst (checkPayment nan "0xabc" Samples.monday
                  (Samples.fresh (Samples.limitsOnly 1 10)))) = true
  /\ Spec.fails Samples.monday
       (afterAll [(Samples.monday, RecordPayment 5 "0xabc"); (Samples.monday, GetStatus)]
          (snd (recordPayment nan "0xabc" Samples.monday
                  (Samples.fresh (Samples.limitsOnly 1 10)))))
       100 "0xabc" Spec.DailyLimit = false.
Proof.
  split; [reflexivity|].
  refine (proj2 (X7_nan_amount_passes_and_disables_spending_limits nan "0xabc"
                   Samples.monday (Samples.fresh (Samples.limitsOnly 1 10)) _)
            [(Samples.monday, RecordPayment 5 "0xabc"); (Samples.monday, GetStatus)]
            _ _ _ _ _ _);
    [reflexivity | repeat constructor | cbn; tauto].
Defined.

(** X8.  [requiresApproval] changes nothing.  Without [autoApproveUnder] in
    the policy every amount requires approval; with it, an amount below the
    threshold does not, an amount at or above the threshold does, and an
    amount that is NaN does not. *)
Theorem X8_requiresApproval_threshold (a : number) (now : Clock) (this : Enforcer) :
  snd (requiresApproval a now this) = this
  /\ (autoApproveUnder (policy this) = None -> fst (requiresApproval a now this) = true)
  /\ (forall u, autoApproveUnder (policy this) = Some u ->
        ((a <? u)%float = true -> fst (requiresApproval a now this) = false)
        /\ ((u <=? a)%float = true -> fst (requiresApproval a now this) = true)
        /\ (is_nan a = true -> fst (requiresApproval a now this) = false)).
Proof.
  run. cbn [fst snd]. refine (conj eq_refl (conj _ _)).
  - intros ->. reflexivity.
  - intros u ->. unfold ge. refine (conj _ (conj _ _)).
    + intros H. destruct (u <=? a)%float eqn:E; [|reflexivity].
      rewrite (leb_not_gt u a E) in H. discriminate.
    + tauto.
    + intros H. apply is_nan_spec in H. rewrite leb_spec, H. unfold SFleb.
      destruct (Prim2SF u) as [?|?| |? ? ?]; reflexivity.
Qed.

Lemma readBack_survives (st : SpendingState) :
  Json.ledgerSurvives st -> Json.readBack st = Some st.
Proof.
  intros (Hd & Hw & Hm & Ht & Hr & Hp). unfold Json.readBack, Json.survives in *.
  rewrite Hd, Hw, Hm, Ht. cbn [mbind option_bind].
  assert (Json.roundTripRecords (recentTransactions st) = Some (recentTransactions st))
    as ->.
  { induction Hr as [|t l Ht' _ IH]; [reflexivity|].
    cbn [Json.roundTripRecords]. unfold Json.roundTripRecord. rewrite Ht'.
    cbn [mbind option_bind]. rewrite IH. cbn. destruct t; reflexivity. }
  cbn [mbind option_bind]. rewrite bool_decide_eq_true_2.
  2:{ intros k v Hk. rewrite (Hp k v Hk). eexists; reflexivity. }
  f_equal. destruct st as [d w m ds ws ms tr rt pr]. cbn in *. f_equal.
  apply map_eq. intros k. rewrite lookup_fmap.
  destruct (pr !! k) as [v|] eqn:E; [|reflexivity]. cbn. rewrite (Hp k v E). reflexivity.
Qed.

Lemma filter_all {A} (p : A -> bool) (l : list A) :
  Forall (fun x => p x = true) l -> List.filter p l = l.
Proof.
  intros H. induction H as [|x l Hx _ IH]; [reflexivity|].
  cbn. rewrite Hx, IH. reflexivity.
Qed.

(** X9.  The ledger survives a restart.  Let the ledger that [recordPayment]
    saved hold only numbers that JSON writes and reads back as themselves
    (finite and not -0).  Then an enforcer built, for any policy, from what is
    read back from the spending file, at a clock reading of the same day, week
    and month, has the totals, the transaction counter, the per-recipient
    totals and the keys of the ledger that was saved, and of its velocity
    entries those of the last hour; at the same clock reading it has exactly
    the ledger that was saved. *)
Theorem X9_ledger_survives_restart_in_same_periods
    (a : number) (r : string) (now now' : Clock) (this : Enforcer) (p : PaymentPolicy) :
  getDateKeys now' = getDateKeys now ->
  let saved := snd (recordPayment a r now this) in
  Json.ledgerSurvives (state saved) ->
  let restarted :=
    state (newPolicyEnforcer p (spendingFile saved ≫= Json.readBack) now') in
  restarted
  = {| date := date (state saved); weekStart := weekStart (state saved);
       monthStart := monthStart (state saved);
       dailySpent := dailySpent (state saved); weeklySpent := weeklySpent (state saved);
       monthlySpent := monthlySpent (state saved);
       transactions := transactions (state saved);
       recentTransactions :=
         List.filter (fun t => nowMs now' - 3600000 <? timestamp t)
           (recentTransactions (state saved));
       perRecipient := perRecipient (state saved) |}
  /\ (nowMs now' = nowMs now -> restarted = state saved).
Proof.
  intros Hk saved Hs. cbv zeta.
  assert (spendingFile saved ≫= Json.readBack = Some (state saved)) as ->.
  { unfold saved.
    destruct (recordPayment_state a r now this) as (_ & _ & _ & _ & _ & _ & _ & _ & Ef & _).
    rewrite Ef. cbn [mbind option_bind]. apply readBack_survives, Hs. }
  destruct (recordPayment_state a r now this) as (Kd & Kw & Km & _).
  destruct (resetPeriods_keys (getDateKeys now) (state this)) as (Rd & Rw & Rm).
  cbn [newPolicyEnforcer state loadState].
  rewrite resetPeriods_current by (unfold saved; rewrite Hk; congruence).
  split; [reflexivity|]. intros Hn.
  unfold withinLastHour. change (60 * 60 * 1000) with 3600000. rewrite Hn.
  rewrite filter_all.
  - destruct (state saved); reflexivity.
  - unfold saved. rewrite recordPayment_recent. apply Forall_app. split.
    + apply List.Forall_forall. intros t Ht. apply List.filter_In in Ht as [_ Ht]. exact Ht.
    + constructor; [|constructor]. cbn. apply Z.ltb_lt. lia.
Qed.

Lemma X9_ledger_survives_restart_in_same_periods_witness :
  let saved :=
    snd (recordPayment 0.5 "0xabc" Samples.monday (Samples.fresh Samples.testPolicy)) in
  state (newPolicyEnforcer Samples.testPolicy (spendingFile saved ≫= Json.readBack)
           Samples.monday)
  = state saved.
Proof.
  cbv zeta.
  refine (proj2 (X9_ledger_survives_restart_in_same_periods 0.5 "0xabc" Samples.monday
                   Samples.monday (Samples.fresh Samples.testPolicy) Samples.testPolicy
                   eq_refl _) eq_refl).
  refine (conj eq_refl (conj eq_refl (conj eq_refl (conj eq_refl (conj _ _))))).
  - repeat constructor.
  - intros k v Hk.
    change (<["0xabc" := (0 + 0.5)%float]> (∅ : gmap string float) !! k = Some v) in Hk.
    apply lookup_insert_Some in Hk as [[_ <-]|[_ Hk]]; [reflexivity|].
    rewrite lookup_empty in Hk. discriminate Hk.
Defined.

(** X10.  The daily-only enforcer and the full enforcer agree.  When the two
    hold the same policy and the same date, total and transaction counter of
    the day, then for a policy with no weekly, monthly, velocity or
    per-recipient limit [checkPayment] returns the same result in both, with
    the same reason; [recordPayment] at the same clock reading keeps the two
    ledgers of the day the same; and [requiresApproval] and the remaining
    daily allowance of [getStatus] are the same. *)
Theorem X10_daily_only_enforcer_agrees_with_full_enforcer
    (basic : DailyPolicy.Enforcer) (full : Enforcer) (a : number) (r : string)
    (now : Clock) :
  DailyPolicy.sameDay basic full ->
  (DailyPolicy.dailyOnly (policy full) ->
     fst (DailyPolicy.checkPayment a r now basic) = fst (checkPayment a r now full))
  /\ DailyPolicy.sameDay (snd (DailyPolicy.recordPayment a now basic))
       (snd (recordPayment a r now full))
  /\ fst (DailyPolicy.requiresApproval a now basic) = fst (requiresApproval a now full)
  /\ DailyPolicy.Status.remainingDaily (fst (DailyPolicy.getStatus now basic))
     = Daily.remaining (Status.daily (fst (getStatus now full))).
Proof.
  intros (Hp & Hd & Ht & Hn). refine (conj _ (conj _ (conj _ _))).
  - intros (Hw & Hm & Hv & Hr). run.
    unfold DailyPolicy.checkPayment, DailyPolicy.getThis, mbind, mret,
      DailyPolicy.M_bind, DailyPolicy.M_ret.
    cbn [fst]. rewrite Hp, Ht, Hw, Hm, Hv, Hr. cbn [orElse]. reflexivity.
  - destruct (recordPayment_state a r now full)
      as (Kd & _ & _ & Ed & _ & _ & En & _ & _ & Ep).
    destruct (resetPeriods_keys (getDateKeys now) (state full)) as (Rd & _ & _).
    destruct (resetPeriods_daily (getDateKeys now) (state full)) as (Sd & Sn & _).
    unfold DailyPolicy.sameDay. rewrite Ep, Kd, Rd, Ed, En, Sd, Sn.
    unfold DailyPolicy.recordPayment, DailyPolicy.getThis, DailyPolicy.getClock,
      DailyPolicy.setSpending, DailyPolicy.saveSpending, mbind, mret,
      DailyPolicy.M_bind, DailyPolicy.M_ret.
    cbn [snd DailyPolicy.policy DailyPolicy.spending DailyPolicy.date
         DailyPolicy.totalUsdc DailyPolicy.transactions].
    rewrite Hd. change (key_date (getDateKeys now)) with (isoDate now 0).
    destruct (String.eqb (date (state full)) (isoDate now 0)) eqn:E; cbn [negb];
      cbn [DailyPolicy.date DailyPolicy.totalUsdc DailyPolicy.transactions].
    + apply String.eqb_eq in E. rewrite Ht, Hn. repeat split; congruence.
    + repeat split; congruence.
  - run. unfold DailyPolicy.requiresApproval, DailyPolicy.getThis, mbind, mret,
      DailyPolicy.M_bind, DailyPolicy.M_ret. cbn [fst]. rewrite Hp. reflexivity.
  - run. unfold DailyPolicy.getStatus, DailyPolicy.getThis, mbind, mret,
      DailyPolicy.M_bind, DailyPolicy.M_ret.
    cbn [fst DailyPolicy.Status.remainingDaily Status.daily Daily.remaining].
    rewrite Hp, Ht. reflexivity.
Qed.

Lemma X10_daily_only_enforcer_agrees_with_full_enforcer_witness :
  fst (DailyPolicy.checkPayment 0.5 "0xabc" Samples.monday
         (DailyPolicy.newPolicyEnforcer (Samples.limitsOnly 1 10) None Samples.monday))
  = fst (checkPayment 0.5 "0xabc" Samples.monday (Samples.fresh (Samples.limitsOnly 1 10))).
Proof.
  refine (proj1 (X10_daily_only_enforcer_agrees_with_full_enforcer
                   (DailyPolicy.newPolicyEnforcer (Samples.limitsOnly 1 10) None
                      Samples.monday)
                   (Samples.fresh (Samples.limitsOnly 1 10)) 0.5 "0xabc" Samples.monday _) _).
  - repeat split.
  - repeat split.
Defined.

(** X22.  An empty recipient list is no list.  [checkPayment] gives the same
    result whether [approvedRecipients] is left out or is the empty array, and
    the same for [blockedRecipients]: with an empty whitelist every recipient
    passes the whitelist check, it does not deny everyone. *)
Theorem X22_empty_recipient_list_is_no_list
    (a : number) (r : string) (now : Clock) (this : Enforcer)
    (approved approved' blocked blocked' : option (list string)) :
  Lists.noList approved -> Lists.noList approved' ->
  Lists.noList blocked -> Lists.noList blocked' ->
  fst (checkPayment a r now (Lists.withLists approved blocked this))
  = fst (checkPayment a r now (Lists.withLists approved' blocked' this))
  /\ forall c, In c [Spec.Blacklist; Spec.Whitelist] ->
       Spec.fails now (Lists.withLists approved blocked this) a r c = false.
Proof.
  intros Ha Ha' Hb Hb'. split.
  - run. cbn [fst Lists.withLists policy state maxPerTransaction dailyLimit weeklyLimit
      monthlyLimit maxTransactionsPerHour perRecipientDailyLimit approvedRecipients
      blockedRecipients].
    destruct Ha as [->| ->], Ha' as [->| ->], Hb as [->| ->], Hb' as [->| ->];
      reflexivity.
  - intros c Hc. cbn [In] in Hc. destruct Hc as [<-|[<-|[]]];
      cbn [Spec.fails Lists.withLists policy approvedRecipients blockedRecipients].
    + destruct Hb as [->| ->]; reflexivity.
    + destruct Ha as [->| ->]; reflexivity.
Qed.

Lemma X22_empty_recipient_list_is_no_list_witness :
  fst (checkPayment 0.5 "0xAnyone" Samples.monday
         (Lists.withLists (Some []) (Some []) (Samples.fresh Samples.testPolicy)))
  = allow.
Proof.
  rewrite (proj1 (X22_empty_recipient_list_is_no_list 0.5 "0xAnyone" Samples.monday
                    (Samples.fresh Samples.testPolicy) (Some []) None (Some []) None
                    (or_intror eq_refl) (or_introl eq_refl)
                    (or_intror eq_refl) (or_introl eq_refl))).
  reflexivity.
Defined.

End LedgerProperties.

(** ** Further properties of the receipt store *)

Section StoreProperties.
Import Receipts.

Ltac runS :=
  unfold getTodayTotal, createReceipt, recordBlocked, updateReceipt, getToday, getAll,
    getByStatus, getRecent, exportCsv, push, saveReceipts, setReceipts, getEnv,
    Receipts.getThis, mbind, mret, R_bind, R_ret;
  cbn beta iota zeta.

Lemma slice_last {A} (n : Z) (l : list A) :
  0 < n -> rev (slice (- n) l) = firstn (Z.to_nat n) (rev l).
Proof.
  intros Hn. unfold slice. rewrite List.firstn_rev. f_equal.
  destruct (Z.ltb_spec (- n) 0) as [_|H]; [|lia]. f_equal. lia.
Qed.

(** X11.  [getRecent] changes nothing and returns receipts newest first.  For
    a limit above zero (10 when left out) these are the last [limit] receipts
    of the store, or all of them when it holds fewer.  For the limit 0 it
    returns every receipt of the store, and for a limit below zero all but the
    first [-limit] ones. *)
Theorem X11_getRecent_newest_first (limit : option Z) (env : Env) (this : ReceiptStore) :
  let n := default 10 limit in
  let recent := fst (getRecent limit env this) in
  snd (getRecent limit env this) = this
  /\ (0 < n -> recent = firstn (Z.to_nat n) (rev (receipts this)))
  /\ (n = 0 -> recent = rev (receipts this))
  /\ (n < 0 -> recent = rev (skipn (Z.to_nat (- n)) (receipts this))).
Proof.
  cbv zeta. runS. cbn [fst snd].
  refine (conj eq_refl (conj _ (conj _ _))).
  - apply slice_last.
  - intros ->. unfold slice. change (- 0 <? 0) with false. cbv iota.
    rewrite Z.min_l by lia. reflexivity.
  - intros Hn. unfold slice.
    destruct (Z.ltb_spec (- default 10 limit) 0) as [H|_]; [lia|].
    f_equal.
    destruct (Z.le_ge_cases (- default 10 limit) (Z.of_nat (length (receipts this))))
      as [H|H].
    + rewrite Z.min_l by exact H. reflexivity.
    + rewrite Z.min_r by exact H. rewrite Nat2Z.id.
      rewrite !List.skipn_all2; [reflexivity | lia | lia].
Qed.

(** X12.  The four statuses partition the store: [getByStatus] returns
    exactly the receipts of the store that have the status asked for, and the
    four results together hold as many receipts as the store. *)
Theorem X12_getByStatus_partitions_the_store (env : Env) (this : ReceiptStore) :
  let count s := List.length (fst (getByStatus s env this)) in
  (count success + count failed + count pending + count blocked)%nat
    = List.length (receipts this)
  /\ forall r s, In r (fst (getByStatus s env this)) <-> In r (receipts this) /\ status r = s.
Proof.
  cbv zeta. runS. cbn [fst]. split.
  - induction (receipts this) as [|r l IH]; [reflexivity|].
    cbn [List.filter]. destruct (status r); cbn [Status_eqb List.length]; lia.
  - intros r s. rewrite List.filter_In. split; intros [H1 H2]; split; try exact H1.
    + destruct (status r), s; try discriminate; reflexivity.
    + rewrite H2. destruct s; reflexivity.
Qed.

Lemma findIndex_app_fresh {A} (p : A -> bool) (l : list A) (x : A) :
  (forall y, In y l -> p y = false) -> p x = true ->
  findIndex p (l ++ [x]) = Some (List.length l).
Proof.
  intros Hl Hx. induction l as [|y l IH]; cbn [findIndex app List.length].
  - rewrite Hx. reflexivity.
  - rewrite (Hl y (or_introl eq_refl)), IH; [reflexivity|].
    intros z Hz. apply Hl. right. exact Hz.
Qed.

Lemma createReceipt_then_updateReceipt
    (partial : Partial.t) (update : Update.t) (env env' : Env) (this : ReceiptStore) :
  (forall r, In r (receipts this) -> id r <> randomUUID env) ->
  let created := createReceipt partial env this in
  let updated := updateReceipt (id (fst created)) update env' (snd created) in
  fst updated = Some (spread (fst created) update)
  /\ receipts (snd updated) = (receipts this ++ [spread (fst created) update])%list
  /\ receiptsFile (snd updated) = Some (receipts (snd updated)).
Proof.
  intros Hfresh. cbv zeta. runS. cbn [fst snd receipts id].
  rewrite findIndex_app_fresh.
  2:{ intros y Hy. apply String.eqb_neq, Hfresh, Hy. }
  2:{ apply String.eqb_refl. }
  rewrite lookup_app_r by lia. rewrite Nat.sub_diag. cbn [lookup list_lookup].
  cbn [fst snd receipts receiptsFile].
  rewrite insert_app_r_alt by lia. rewrite Nat.sub_diag. cbn [insert list_insert].
  rewrite lookup_app_r by lia. rewrite Nat.sub_diag. cbn.
  repeat split.
Qed.

Lemma findIndex_first {A} (p : A -> bool) (l : list A) (idx : nat) (x : A) :
  l !! idx = Some x -> p x = true ->
  (forall j y, (j < idx)%nat -> l !! j = Some y -> p y = false) ->
  findIndex p l = Some idx.
Proof.
  revert idx. induction l as [|y l IH]; intros idx Hx Hp Hlt; [discriminate|].
  destruct idx as [|idx]; cbn [findIndex].
  - injection Hx as ->. rewrite Hp. reflexivity.
  - rewrite (Hlt 0%nat y); [|lia|reflexivity].
    rewrite (IH idx Hx Hp); [reflexivity|].
    intros j z Hj Hz. apply (Hlt (S j) z); [lia | exact Hz].
Qed.

Lemma findIndex_app_found {A} (p : A -> bool) (l l' : list A) (idx : nat) :
  findIndex p l = Some idx -> findIndex p (l ++ l') = Some idx.
Proof.
  revert idx. induction l as [|y l IH]; intros idx; cbn [findIndex app]; [discriminate|].
  destruct (p y); [trivial|].
  destruct (findIndex p l) as [i|]; [|discriminate].
  intros [= <-]. rewrite (IH i eq_refl). reflexivity.
Qed.

(** X13.  [updateReceipt] with the identifier of a receipt just created
    updates the first receipt that has this identifier.  When no receipt of
    the store had the identifier that [createReceipt] drew, this is the new
    receipt: the call returns it merged with the update, and the store is the
    old store followed by the merged receipt.  When an older receipt had the
    same identifier, the first such receipt is merged with the update instead,
    and the new receipt stays as it was created.  In both cases the file holds
    the list of the store. *)
Theorem X13_created_receipt_is_updated_by_its_id
    (partial : Partial.t) (update : Update.t) (env env' : Env) (this : ReceiptStore) :
  let created := createReceipt partial env this in
  let updated := updateReceipt (id (fst created)) update env' (snd created) in
  ((forall r, In r (receipts this) -> id r <> randomUUID env) ->
     fst updated = Some (spread (fst created) update)
     /\ receipts (snd updated) = (receipts this ++ [spread (fst created) update])%list)
  /\ (forall idx old,
        receipts this !! idx = Some old -> id old = randomUUID env ->
        (forall j r, (j < idx)%nat -> receipts this !! j = Some r -> id r <> randomUUID env) ->
        fst updated = Some (spread old update)
        /\ receipts (snd updated)
           = (<[idx := spread old update]> (receipts this) ++ [fst created])%list)
  /\ receiptsFile (snd updated) = Some (receipts (snd updated)).
Proof.
  cbv zeta. refine (conj _ (conj _ _)).
  - intros Hfresh.
    destruct (createReceipt_then_updateReceipt partial update env env' this Hfresh)
      as (H1 & H2 & _).
    split; assumption.
  - intros idx old Hold Hid Hlt.
    assert (findIndex (fun r => String.eqb (id r) (randomUUID env)) (receipts this)
            = Some idx) as Hf.
    { apply (findIndex_first _ _ idx old Hold).
      - apply String.eqb_eq, Hid.
      - intros j y Hj Hy. apply String.eqb_neq, (Hlt j y Hj Hy). }
    runS. cbn [fst snd receipts id].
    rewrite (findIndex_app_found _ _ _ _ Hf).
    pose proof (lookup_lt_Some _ _ _ Hold) as Hlen.
    rewrite lookup_app_l by exact Hlen. rewrite Hold.
    cbn [fst snd receipts receiptsFile].
    rewrite insert_app_l by exact Hlen.
    rewrite lookup_app_l by (rewrite length_insert; exact Hlen).
    rewrite list_lookup_insert_eq by exact Hlen. split; reflexivity.
  - runS. cbn [fst snd receipts id].
    destruct (findIndex _ _) as [idx|]; [|reflexivity].
    destruct (_ !! idx); reflexivity.
Qed.

Section StoreCalls.

Variable parseFloat : string -> number.

Lemma after_receipts (env : Env) (c : ReceiptCalls.Call) (this : ReceiptStore) :
  loadReceipts (receiptsFile this) = receipts this ->
  let this' := ReceiptCalls.after parseFloat env c this in
  loadReceipts (receiptsFile this') = receipts this'
  /\ List.length (receipts this')
     = (List.length (receipts this) + if ReceiptCalls.adds (env, c) then 1 else 0)%nat.
Proof.
  intros H. cbv zeta. destruct c; cbn [ReceiptCalls.after ReceiptCalls.adds snd];
    try (split; [exact H | change (snd _) with this; lia]).
  - runS. cbn [snd receipts receiptsFile loadReceipts]. rewrite List.length_app. cbn.
    split; [reflexivity | lia].
  - runS. destruct (findIndex _ _) as [idx|]; [|split; [exact H | cbn; lia]].
    destruct (receipts this !! idx) as [old|]; [|split; [exact H | cbn; lia]].
    cbn [snd receipts receiptsFile loadReceipts]. rewrite length_insert.
    split; [reflexivity | lia].
  - runS. cbn [snd receipts receiptsFile loadReceipts]. rewrite List.length_app. cbn.
    split; [reflexivity | lia].
Qed.

(** X14.  No method of the store removes a receipt, and the file keeps up
    with the store.  After any sequence of calls on a new store, the store
    holds as many receipts as the file held at the start plus one for each
    [createReceipt] and [recordBlocked] call, and the receipts that a new
    store would load from the file are the receipts of the store. *)
Theorem X14_receipts_are_never_removed_and_always_saved
    (file : option (list PaymentReceipt)) (calls : list (Env * ReceiptCalls.Call)) :
  let this := ReceiptCalls.afterAll parseFloat calls (newReceiptStore file) in
  loadReceipts (receiptsFile this) = receipts this
  /\ List.length (receipts this)
     = (List.length (loadReceipts file)
        + List.length (List.filter ReceiptCalls.adds calls))%nat.
Proof.
  cbv zeta.
  assert (forall this, loadReceipts (receiptsFile this) = receipts this ->
    loadReceipts (receiptsFile (ReceiptCalls.afterAll parseFloat calls this))
      = receipts (ReceiptCalls.afterAll parseFloat calls this)
    /\ List.length (receipts (ReceiptCalls.afterAll parseFloat calls this))
       = (List.length (receipts this)
          + List.length (List.filter ReceiptCalls.adds calls))%nat) as H.
  { induction calls as [|[env c] calls IH]; intros this Hs.
    - cbn. split; [exact Hs | lia].
    - cbn [ReceiptCalls.afterAll fold_left fst snd List.filter].
      destruct (after_receipts env c this Hs) as [Hs' Hl].
      destruct (IH _ Hs') as [IH1 IH2]. unfold ReceiptCalls.afterAll in *.
      split; [exact IH1|]. rewrite IH2, Hl.
      destruct (ReceiptCalls.adds (env, c)); cbn [List.length]; lia. }
  apply (H (newReceiptStore file)). reflexivity.
Qed.

End StoreCalls.

Lemma append_cons (x : ascii) (a b : string) : String x a +:+ b = String x (a +:+ b).
Proof. reflexivity. Qed.

Lemma append_nil_l (b : string) : "" +:+ b = b.
Proof. reflexivity. Qed.

Lemma append_assoc (a b c : string) : (a +:+ b) +:+ c = a +:+ (b +:+ c).
Proof.
  induction a as [|x a IH]; rewrite ?append_nil_l, ?append_cons;
    [reflexivity | f_equal; exact IH].
Qed.

Lemma append_nil_r (a : string) : a +:+ "" = a.
Proof.
  induction a as [|x a IH]; rewrite ?append_nil_l, ?append_cons;
    [reflexivity | f_equal; exact IH].
Qed.

Lemma hasChar_app (c : ascii) (a b : string) :
  Csv.hasChar c (a +:+ b) = Csv.hasChar c a || Csv.hasChar c b.
Proof.
  induction a as [|x a IH]; rewrite ?append_nil_l, ?append_cons; cbn [Csv.hasChar];
    [reflexivity|]. rewrite IH, orb_assoc. reflexivity.
Qed.

Lemma splitOn_app (sep : ascii) (a rest : string) :
  Csv.hasChar sep a = false ->
  Csv.splitOn sep (a +:+ String sep rest) = a :: Csv.splitOn sep rest.
Proof.
  induction a as [|x a IH]; rewrite ?append_nil_l, ?append_cons;
    cbn [Csv.hasChar Csv.splitOn].
  - intros _. rewrite Ascii.eqb_refl. reflexivity.
  - intros H. apply orb_false_elim in H as [Hx Ha]. rewrite Hx, (IH Ha). reflexivity.
Qed.

Lemma splitOn_plain (sep : ascii) (a : string) :
  Csv.hasChar sep a = false -> Csv.splitOn sep a = [a].
Proof.
  induction a as [|x a IH]; cbn [Csv.hasChar Csv.splitOn]; [reflexivity|].
  intros H. apply orb_false_elim in H as [Hx Ha]. rewrite Hx, (IH Ha). reflexivity.
Qed.

Lemma splitOn_concat (sep : ascii) (x : string) (l : list string) :
  Forall (fun s => Csv.hasChar sep s = false) (x :: l) ->
  Csv.splitOn sep (String.concat (String sep EmptyString) (x :: l)) = x :: l.
Proof.
  revert x. induction l as [|y l IH]; intros x H.
  - cbn [String.concat]. apply splitOn_plain. inversion H; assumption.
  - change (String.concat (String sep "") (x :: y :: l))
      with (x +:+ String sep "" +:+ String.concat (String sep "") (y :: l)).
    inversion H as [|? ? Hx Hl]; subst.
    change (String sep "" +:+ ?s) with (String sep s).
    rewrite (splitOn_app sep x _ Hx), (IH y Hl). reflexivity.
Qed.

Lemma hasChar_concat (c : ascii) (sep : string) (l : list string) :
  Csv.hasChar c sep = false -> Forall (fun s => Csv.hasChar c s = false) l ->
  Csv.hasChar c (String.concat sep l) = false.
Proof.
  intros Hs H. induction H as [|x l Hx Hl IH]; [reflexivity|].
  destruct l as [|y l]; [exact Hx|].
  change (String.concat sep (x :: y :: l)) with (x +:+ sep +:+ String.concat sep (y :: l)).
  rewrite !hasChar_app, Hx, Hs, IH. reflexivity.
Qed.

Lemma hasChar_cell (c : ascii) (val : option string) :
  c <> quoteChar -> (forall v, val = Some v -> Csv.hasChar c v = false) ->
  Csv.hasChar c (cell val) = false.
Proof.
  intros Hc H. destruct val as [v|]; [|reflexivity]. cbn [cell].
  destruct (includes "," v); [|apply H; reflexivity].
  rewrite !hasChar_app, (H v eq_refl). cbn [Csv.hasChar].
  destruct (Ascii.eqb_spec quoteChar c) as [E|_]; [congruence | reflexivity].
Qed.

Lemma hasChar_row (r : PaymentReceipt) :
  Csv.free lineFeed r -> Csv.hasChar lineFeed (row r) = false.
Proof.
  intros H. unfold row. apply hasChar_concat; [reflexivity|].
  apply Forall_map, List.Forall_forall. intros h _.
  apply hasChar_cell; [discriminate | apply H].
Qed.

(** X15.  When no field of a stored receipt contains a line feed, the text
    of [exportCsv] split at its line feeds is the line of the ten column names
    followed by one row for each receipt, in the order of the store; for an
    empty store it is the line of column names alone. *)
Theorem X15_exportCsv_has_one_line_per_receipt (env : Env) (this : ReceiptStore) :
  Forall (Csv.free lineFeed) (receipts this) ->
  Csv.splitOn lineFeed (fst (exportCsv env this))
  = "id,timestamp,url,amount,currency,network,recipient,txHash,status,blockReason"
    :: map row (receipts this).
Proof.
  intros H. runS. cbn [fst]. rewrite splitOn_concat; [reflexivity|].
  constructor; [reflexivity|]. apply Forall_map.
  eapply Forall_impl; [exact H|]. intros r Hr. apply hasChar_row, Hr.
Qed.

Lemma includes_comma (v : string) : includes "," v = Csv.hasChar "," v.
Proof.
  induction v as [|c v IH]; [reflexivity|]. cbn [includes Csv.hasChar String.prefix].
  rewrite IH. destruct (ascii_dec "," c) as [<-|Hne].
  - rewrite Ascii.eqb_refl. destruct v; reflexivity.
  - destruct (Ascii.eqb_spec c ","); [congruence|]. reflexivity.
Qed.

Lemma readCells_plain (q : bool) (cur v rest : string) :
  Csv.hasChar quoteChar v = false ->
  q = true \/ Csv.hasChar "," v = false ->
  Csv.readCells q cur (v +:+ rest) = Csv.readCells q (cur +:+ v) rest.
Proof.
  revert cur. induction v as [|c v IH]; intros cur Hq Hc.
  - rewrite append_nil_l, append_nil_r. reflexivity.
  - cbn [Csv.hasChar] in Hq, Hc. apply orb_false_elim in Hq as [Hq1 Hq2].
    rewrite append_cons. cbn [Csv.readCells]. rewrite Hq1.
    assert (Ascii.eqb c "," && negb q = false) as ->.
    { destruct Hc as [->|Hc]; [apply andb_false_r|].
      apply orb_false_elim in Hc as [-> _]. reflexivity. }
    rewrite IH.
    + rewrite append_assoc. reflexivity.
    + exact Hq2.
    + destruct Hc as [Hc|Hc]; [left; exact Hc|]. right.
      apply orb_false_elim in Hc as [_ Hc]. exact Hc.
Qed.

Lemma readCells_cell (cur v rest : string) :
  Csv.hasChar quoteChar v = false ->
  Csv.readCells false cur (cell (Some v) +:+ rest) = Csv.readCells false (cur +:+ v) rest.
Proof.
  intros Hq. cbn [cell]. rewrite includes_comma.
  destruct (Csv.hasChar "," v) eqn:Hc.
  - rewrite !append_assoc, append_cons, append_nil_l. cbn [Csv.readCells].
    rewrite Ascii.eqb_refl. cbn [negb].
    rewrite (readCells_plain true cur v _ Hq (or_introl eq_refl)).
    rewrite append_cons, append_nil_l. cbn [Csv.readCells].
    rewrite Ascii.eqb_refl. reflexivity.
  - apply readCells_plain; [exact Hq | right; exact Hc].
Qed.

Lemma readCells_val (cur : string) (val : option string) (rest : string) :
  (forall v, val = Some v -> Csv.hasChar quoteChar v = false) ->
  Csv.readCells false cur (cell val +:+ rest)
  = Csv.readCells false (cur +:+ default "" val) rest.
Proof.
  intros H. destruct val as [v|].
  - apply readCells_cell, H. reflexivity.
  - cbn [cell default]. rewrite append_nil_l, append_nil_r. reflexivity.
Qed.

Lemma readCells_concat (val : option string) (vals : list (option string)) :
  Forall (fun val => forall v, val = Some v -> Csv.hasChar quoteChar v = false)
    (val :: vals) ->
  Csv.readCells false "" (String.concat "," (map cell (val :: vals)))
  = map (default "") (val :: vals).
Proof.
  revert val. induction vals as [|val' vals IH]; intros val H;
    inversion H as [|? ? Hv Hvs]; subst.
  - cbn [map String.concat]. rewrite <- (append_nil_r (cell val)).
    rewrite (readCells_val "" val "" Hv). rewrite append_nil_l. reflexivity.
  - change (String.concat "," (map cell (val :: val' :: vals)))
      with (cell val +:+ "," +:+ String.concat "," (map cell (val' :: vals))).
    rewrite (readCells_val "" val _ Hv). rewrite append_cons, !append_nil_l.
    cbn [Csv.readCells].
    change (Ascii.eqb "," quoteChar) with false. cbv iota.
    rewrite Ascii.eqb_refl. cbn [andb negb]. rewrite (IH val' Hvs). reflexivity.
Qed.

(** X16.  A row of [exportCsv] reads back as the ten values of its receipt:
    when no field of the receipt contains a double quote, the cells of the row
    (cut at the commas outside double quotes, the quotes dropped) are the
    values of id, timestamp, url, amount, currency, network, recipient, txHash,
    status and blockReason in this order, the empty string standing for a
    missing txHash or blockReason; commas inside a value do not cut it. *)
Theorem X16_exportCsv_row_reads_back (r : PaymentReceipt) :
  Csv.free quoteChar r ->
  Csv.cells (row r) = map (fun h => default "" (prop r h)) headers.
Proof.
  intros H. unfold Csv.cells, row. rewrite <- (map_map (prop r) cell).
  rewrite <- (map_map (prop r) (default "")).
  apply readCells_concat. apply List.Forall_forall. intros val Hin.
  intros v Hv. cbn [In] in Hin.
  repeat (destruct Hin as [<-|Hin]; [exact (H _ _ Hv)|]). destruct Hin.
Qed.

End StoreProperties.

Lemma X15_exportCsv_has_one_line_per_receipt_witness :
  Csv.splitOn Receipts.lineFeed
    (fst (Receipts.exportCsv Samples.secondReceipt
            {| Receipts.receipts := [Scenarios.blockedReceipt];
               Receipts.receiptsFile := None |}))
  = ["id,timestamp,url,amount,currency,network,recipient,txHash,status,blockReason";
     Receipts.row Scenarios.blockedReceipt].
Proof.
  apply (X15_exportCsv_has_one_line_per_receipt Samples.secondReceipt
           {| Receipts.receipts := [Scenarios.blockedReceipt];
              Receipts.receiptsFile := None |}).
  constructor; [|constructor].
  intros h v. destruct h; cbn; intros E; try discriminate E; injection E as <-;
    reflexivity.
Defined.

Lemma X16_exportCsv_row_reads_back_witness :
  Csv.cells (Receipts.row Scenarios.blockedReceipt)
  = ["6f1c"; "2026-11-02T12:00:00.000Z"; "https://api.example.com/data"; "5.000000";
     "USDC"; "base"; "0x1234"; ""; "blocked";
     "Payment would exceed daily limit. Current: $9.50, Limit: $10.00"].
Proof.
  apply (X16_exportCsv_row_reads_back Scenarios.blockedReceipt).
  intros h v. destruct h; cbn; intros E; try discriminate E; injection E as <-;
    reflexivity.
Defined.

(** ** Properties of the client *)

Section ClientProperties.
Import Receipts.

Variable toFixed : nat -> number -> string.
Variable numberToString : number -> string.

Lemma checkPayment_denied_reason (a : number) (r : string) (now : Clock) (this : Enforcer) :
  allowed (fst (checkPayment a r now this)) = false ->
  exists why, fst (checkPayment a r now this) = deny why.
Proof.
  rewrite checkPayment_firstFailing.
  destruct (Spec.firstFailing now this a r) as [c|]; [|discriminate].
  intros _. eexists. reflexivity.
Qed.

(** X17.  A payment that the policy denies is not sent, provided nothing else
    is thrown while the denial is recorded.  When the probe's payment header
    decodes with a recipient that is a string, the caller does not skip the
    check, [checkPayment] denies the amount and recipient of the header, the
    write of [recordBlocked] succeeds and [onBlocked] does not throw, then
    [fetch] throws [PaymentBlockedError] with the text of the reason that
    [checkPayment] gave and with the receipt that [recordBlocked] made; all it
    does to the outside is to call [onBlocked] with that reason, the paid
    request is not made, whatever it would have answered; the enforcer is
    unchanged; and the store is the one after [recordBlocked]: the receipt,
    appended and saved, has the status blocked, the reason, the url, the raw
    amount and the recipient of the header and the amount with six decimals. *)
Theorem X17_fetch_denied_payment_is_never_sent
    (url : string) (optionsNetwork : option NetworkName) (w : Client.World)
    (this : Client.AgentPayClient) (raw : string) (amount : number) (recipient : string) :
  Client.checked false w = Some (raw, amount, Client.Address recipient) ->
  allowed (fst (checkPayment amount recipient (Client.atCheck w) (Client.policy this)))
    = false ->
  Client.fault w = Client.NoFault ->
  exists why,
    reason (fst (checkPayment amount recipient (Client.atCheck w) (Client.policy this)))
    = Some why
    /\ let reason := Client.text toFixed numberToString (message why) in
       let recorded :=
         recordBlocked url (toFixed 6 amount) raw recipient
           (default (default base (Client.network this)) optionsNetwork) reason
           (Client.receiptEnv w) (Client.receipts this) in
       Client.fetch toFixed numberToString url false optionsNetwork w this
       = (Client.PaymentBlockedError reason (fst recorded),
          [Client.OnBlocked reason url amount recipient],
          {| Client.policy := Client.policy this;
             Client.receipts := snd recorded;
             Client.network := Client.network this |})
       /\ receipts (snd recorded)
          = (receipts (Client.receipts this) ++ [fst recorded])%list
       /\ receiptsFile (snd recorded) = Some (receipts (snd recorded))
       /\ status (fst recorded) = blocked /\ blockReason (fst recorded) = Some reason
       /\ Receipts.url (fst recorded) = url /\ amountRaw (fst recorded) = raw
       /\ Receipts.amount (fst recorded) = toFixed 6 amount
       /\ Receipts.recipient (fst recorded) = recipient.
Proof.
  unfold Client.checked. intros Hc Hden Hfault.
  destruct (Client.probe w) as [[| |raw' amount' recipient']|] eqn:Ep; try discriminate.
  injection Hc as -> -> ->.
  destruct (checkPayment_denied_reason _ _ _ _ Hden) as [why Hwhy].
  exists why. rewrite Hwhy. split; [reflexivity|]. cbv zeta.
  unfold Client.fetch. rewrite Ep, Hfault. cbn [negb]. rewrite Hwhy.
  cbn [negb allowed deny]. unfold Client.reasonText. cbn [reason deny].
  destruct optionsNetwork as [n|]; cbn [default]; repeat split.
Qed.

Lemma pay_settled
    (events : list Client.Event)
    (url : string) (network' : NetworkName) (a : number) (raw r : string)
    (w : Client.World) (this : Client.AgentPayClient)
    (txHash : option string) (decoded : string) :
  Client.paid w = Client.Settled txHash decoded ->
  (forall old, In old (receipts (Client.receipts this)) ->
     id old <> randomUUID (Client.receiptEnv w)) ->
  let pending' :=
    {| id := randomUUID (Client.receiptEnv w);
       timestamp := toISOString (Client.receiptEnv w);
       url := url; amount := toFixed 6 a; amountRaw := raw; currency := "USDC";
       network := network'; recipient := r; txHash := txHash; status := pending;
       blockReason := None; facilitatorResponse := Some decoded |} in
  let stored :=
    {| id := randomUUID (Client.receiptEnv w);
       timestamp := toISOString (Client.receiptEnv w);
       url := url; amount := toFixed 6 a; amountRaw := raw; currency := "USDC";
       network := network'; recipient := r; txHash := txHash; status := success;
       blockReason := None; facilitatorResponse := Some decoded |} in
  Client.pay toFixed events url network' a raw (Client.Address r) w this
  = (Client.Response,
     ((events ++ [Client.FetchWithPayment url]) ++ [Client.OnPayment pending']
      ++ if gt a 0 then [Client.TransferProtocolFee a network'] else [])%list,
     {| Client.policy := snd (recordPayment a r (Client.atRecord w) (Client.policy this));
        Client.receipts :=
          {| receipts := (receipts (Client.receipts this) ++ [stored])%list;
             receiptsFile := Some (receipts (Client.receipts this) ++ [stored])%list |};
        Client.network := Client.network this |}).
Proof.
  intros Hp Hfresh. cbv zeta. unfold Client.pay. rewrite Hp.
  match goal with
  | |- context [createReceipt ?p ?e ?s] =>
      pose proof (createReceipt_then_updateReceipt p (Samples.setStatus success) e e s Hfresh)
        as H;
      destruct (createReceipt p e s) as [receipt store1] eqn:Ec
  end.
  cbv zeta in H. cbn [fst snd] in H.
  assert (receipt = {| id := randomUUID (Client.receiptEnv w);
       timestamp := toISOString (Client.receiptEnv w);
       url := url; amount := toFixed 6 a; amountRaw := raw; currency := "USDC";
       network := network'; recipient := r; txHash := txHash; status := pending;
       blockReason := None; facilitatorResponse := Some decoded |}) as Er.
  { injection Ec as <- _. reflexivity. }
  unfold Samples.setStatus in H.
  destruct (updateReceipt (id receipt) _ (Client.receiptEnv w) store1) as [res store2].
  cbn [fst snd] in H. destruct H as (_ & Hl & Hf).
  destruct store2 as [l f]. cbn [receipts receiptsFile] in Hl, Hf. subst l f.
  rewrite Er. cbn [spread default Update.id Update.timestamp Update.url Update.amount
    Update.amountRaw Update.currency Update.network Update.recipient Update.txHash
    Update.status Update.blockReason Update.facilitatorResponse
    id timestamp Receipts.url amount amountRaw currency network recipient Receipts.txHash
    status blockReason facilitatorResponse].
  destruct (gt a 0); [rewrite <- app_assoc|rewrite app_nil_r]; reflexivity.
Qed.

(** X18.  A checked and settled payment is recorded with the amount and the
    recipient of the probe.  When the policy check is made and allows the
    payment, the paid request answers with a payment response that decodes,
    and no stored receipt has the identifier drawn for the new receipt, then
    [fetch] returns the response; the enforcer is the one after
    [recordPayment] of the probe's amount and recipient; the store is the old
    one followed by a receipt with the status success, the amount with six
    decimals, the raw amount, the recipient and the transaction hash, and it is
    saved.  Outside, [fetch] makes the paid request, then calls [onPayment]
    with the receipt as it was created, whose status is pending, and starts
    the transfer of the protocol fee when the amount is above zero. *)
Theorem X18_fetch_allowed_payment_is_recorded_with_probe_amount
    (url : string) (skipPolicyCheck : bool) (optionsNetwork : option NetworkName)
    (w : Client.World) (this : Client.AgentPayClient)
    (raw : string) (a : number) (r : string) (txHash : option string) (decoded : string) :
  Client.checked skipPolicyCheck w = Some (raw, a, Client.Address r) ->
  allowed (fst (checkPayment a r (Client.atCheck w) (Client.policy this))) = true ->
  Client.paid w = Client.Settled txHash decoded ->
  (forall old, In old (receipts (Client.receipts this)) ->
     id old <> randomUUID (Client.receiptEnv w)) ->
  exists handed stored,
    Client.fetch toFixed numberToString url skipPolicyCheck optionsNetwork w this
    = (Client.Response,
       ([Client.FetchWithPayment url; Client.OnPayment handed]
        ++ if gt a 0
           then [Client.TransferProtocolFee a
                   (default (default base (Client.network this)) optionsNetwork)]
           else [])%list,
       {| Client.policy := snd (recordPayment a r (Client.atRecord w) (Client.policy this));
          Client.receipts :=
            {| receipts := (receipts (Client.receipts this) ++ [stored])%list;
               receiptsFile := Some (receipts (Client.receipts this) ++ [stored])%list |};
          Client.network := Client.network this |})
    /\ status stored = success /\ status handed = pending
    /\ stored = spread handed (Samples.setStatus success)
    /\ amount stored = toFixed 6 a /\ amountRaw stored = raw /\ recipient stored = r
    /\ Receipts.txHash stored = txHash.
Proof.
  unfold Client.checked. intros Hc Hall Hp Hfresh.
  destruct (Client.probe w) as [[| |raw' a' r']|] eqn:Ep; try discriminate.
  destruct skipPolicyCheck; [discriminate|]. injection Hc as -> -> ->.
  unfold Client.fetch. rewrite Ep. cbn [negb]. rewrite Hall. cbn [negb].
  rewrite (pay_settled [] url _ a raw r w this txHash decoded Hp Hfresh).
  destruct optionsNetwork as [n|]; cbn [default app];
    (eexists; eexists; split; [reflexivity | repeat split]).
Qed.

(** X19.  Without the policy check the payment is made and recorded as
    nothing spent.  When the check is not made (the caller skips it, the probe
    shows no payment header, or the header does not decode), [fetch] makes the
    paid request whatever the policy holds.  If the payment response then
    decodes (and the new receipt's identifier is not in the store), the
    enforcer is the one after [recordPayment(0, 'unknown')] and the receipt
    stored with status success has the amount 0 with six decimals and the
    recipient unknown.  If there is no payment response, or it does not decode,
    neither the enforcer nor the store changes. *)
Theorem X19_fetch_unchecked_payment_is_recorded_as_zero
    (url : string) (skipPolicyCheck : bool) (optionsNetwork : option NetworkName)
    (w : Client.World) (this : Client.AgentPayClient) :
  Client.checked skipPolicyCheck w = None ->
  match Client.paid w with
  | Client.Settled txHash decoded =>
      (forall old, In old (receipts (Client.receipts this)) ->
         id old <> randomUUID (Client.receiptEnv w)) ->
      exists events stored,
        Client.fetch toFixed numberToString url skipPolicyCheck optionsNetwork w this
        = (Client.Response, Client.FetchWithPayment url :: events,
           {| Client.policy :=
                snd (recordPayment 0 "unknown" (Client.atRecord w) (Client.policy this));
              Client.receipts :=
                {| receipts := (receipts (Client.receipts this) ++ [stored])%list;
                   receiptsFile :=
                     Some (receipts (Client.receipts this) ++ [stored])%list |};
              Client.network := Client.network this |})
        /\ status stored = success /\ amount stored = toFixed 6 0
        /\ recipient stored = "unknown"
  | _ =>
      Client.fetch toFixed numberToString url skipPolicyCheck optionsNetwork w this
      = (Client.Response, [Client.FetchWithPayment url], this)
  end.
Proof.
  unfold Client.checked. intros Hc.
  assert (exists raw,
    Client.fetch toFixed numberToString url skipPolicyCheck optionsNetwork w this
    = Client.pay toFixed [] url
        (match optionsNetwork with
         | Some n => n
         | None => default base (Client.network this)
         end) 0 raw (Client.Address "unknown") w this) as [raw ->].
  { unfold Client.fetch.
    destruct (Client.probe w) as [[| |raw' a' r']|]; destruct skipPolicyCheck;
      try discriminate; cbn [negb]; eexists; reflexivity. }
  destruct (Client.paid w) as [| |txHash decoded] eqn:Ep.
  - unfold Client.pay. rewrite Ep. reflexivity.
  - unfold Client.pay. rewrite Ep. reflexivity.
  - intros Hfresh.
    rewrite (pay_settled [] url _ 0 raw "unknown" w this txHash decoded Ep Hfresh).
    eexists. eexists. split; [reflexivity|]. repeat split.
Qed.

(** X20.  The order of [getHistory] depends on its argument: without a limit,
    or with the limit 0, it returns every receipt, oldest first; with a limit
    above zero it returns the last [limit] receipts, newest first, so with a
    limit that is not below the number of receipts it returns the reverse of
    what it returns without a limit. *)
Theorem X20_getHistory_order_depends_on_limit
    (limit : option Z) (env : Env) (this : Client.AgentPayClient) :
  let all := receipts (Client.receipts this) in
  match limit with
  | None => Client.getHistory limit env this = all
  | Some l =>
      (l = 0 -> Client.getHistory limit env this = all)
      /\ (0 < l -> Client.getHistory limit env this = firstn (Z.to_nat l) (rev all))
      /\ (Z.of_nat (List.length all) <= l -> l <> 0 ->
          Client.getHistory limit env this = rev all)
  end.
Proof.
  cbv zeta. destruct limit as [l|]; [|reflexivity]. unfold Client.getHistory.
  assert (0 < l ->
          fst (getRecent (Some l) env (Client.receipts this))
          = firstn (Z.to_nat l) (rev (receipts (Client.receipts this)))) as Hpos.
  { intros Hl. apply (slice_last l _ Hl). }
  refine (conj _ (conj _ _)).
  - intros ->. reflexivity.
  - intros Hl. destruct (Z.eqb_spec l 0); [lia|]. apply Hpos, Hl.
  - intros Hl Hne. destruct (Z.eqb_spec l 0); [lia|].
    assert (0 < l) as Hl0 by lia. rewrite (Hpos Hl0).
    apply List.firstn_all2. rewrite List.length_rev. lia.
Qed.

Lemma pay_sent (events : list Client.Event) (url : string) (network' : NetworkName)
    (a : number) (raw : string) (r : Client.Recipient)
    (w : Client.World) (this : Client.AgentPayClient) :
  let res := Client.pay toFixed events url network' a raw r w this in
  fst (fst res) = Client.Response /\ Client.sent url (snd (fst res)).
Proof.
  cbv zeta. unfold Client.pay, Client.sent.
  destruct (Client.paid w) as [| |txHash decoded];
    try (split; [reflexivity | apply in_or_app; right; left; reflexivity]).
  destruct r as [r|];
    [|split; [reflexivity | apply in_or_app; right; left; reflexivity]].
  destruct (createReceipt _ _ _) as [receipt store1].
  destruct (updateReceipt _ _ _ _) as [res store2].
  destruct (gt a 0); cbn [fst snd]; (split; [reflexivity|]);
    repeat rewrite List.in_app_iff; cbn [In]; tauto.
Qed.

Lemma fetch_bypass
    (url : string) (skipPolicyCheck : bool) (optionsNetwork : option NetworkName)
    (w : Client.World) (this : Client.AgentPayClient)
    (raw : string) (a : number) (r : Client.Recipient) :
  Client.probe w = Some (Client.Details raw a r) ->
  skipPolicyCheck = true \/ r = Client.NotAString \/ Client.fault w <> Client.NoFault ->
  let res := Client.fetch toFixed numberToString url skipPolicyCheck optionsNetwork w this in
  fst (fst res) = Client.Response /\ Client.sent url (snd (fst res)).
Proof.
  intros Hp Hby. cbv zeta. unfold Client.fetch. rewrite Hp.
  destruct skipPolicyCheck; cbn [negb]; [apply pay_sent|].
  destruct r as [r|]; [|apply pay_sent].
  destruct (negb (allowed _)); [|apply pay_sent].
  destruct (recordBlocked _ _ _ _ _ _ _ _) as [receipt store1].
  destruct (Client.fault w) as [|f|]; try apply pay_sent.
  destruct Hby as [Hby|[Hby|Hby]]; [discriminate Hby | discriminate Hby | contradiction].
Qed.

(** X21.  The freeze reaches the client only through a policy check that
    runs to its end.  With a frozen enforcer and a probe that announces an
    amount above zero: when the recipient of the header is a string, the caller
    does not skip the check, the write of [recordBlocked] succeeds and
    [onBlocked] does not throw, [fetch] throws [PaymentBlockedError] with the
    per-transaction reason, the paid request is not made, and the store gains
    the blocked receipt, saved.  When the caller skips the check, or the
    recipient of the header is not a string, or the write fails, or
    [onBlocked] throws, the same [fetch] makes the paid request and returns
    the response. *)
Theorem X21_fetch_after_freeze
    (now : Clock) (e : Enforcer) (url : string) (skipPolicyCheck : bool)
    (optionsNetwork : option NetworkName)
    (w : Client.World) (this : Client.AgentPayClient)
    (raw : string) (a : number) (r : Client.Recipient) :
  Client.policy this = snd (freeze now e) ->
  (0 <? a)%float = true ->
  Client.probe w = Some (Client.Details raw a r) ->
  let res := Client.fetch toFixed numberToString url skipPolicyCheck optionsNetwork w this in
  (forall recipient,
     skipPolicyCheck = false -> r = Client.Address recipient ->
     Client.fault w = Client.NoFault ->
     let reason :=
       Client.text toFixed numberToString (message (ExceedsPerTransaction a 0)) in
     let recorded :=
       recordBlocked url (toFixed 6 a) raw recipient
         (default (default base (Client.network this)) optionsNetwork) reason
         (Client.receiptEnv w) (Client.receipts this) in
     res = (Client.PaymentBlockedError reason (fst recorded),
            [Client.OnBlocked reason url a recipient],
            {| Client.policy := Client.policy this;
               Client.receipts := snd recorded;
               Client.network := Client.network this |})
     /\ ~ Client.sent url (snd (fst res))
     /\ status (fst recorded) = blocked
     /\ receipts (snd recorded) = (receipts (Client.receipts this) ++ [fst recorded])%list
     /\ receiptsFile (snd recorded) = Some (receipts (snd recorded)))
  /\ (skipPolicyCheck = true \/ r = Client.NotAString \/ Client.fault w <> Client.NoFault ->
      fst (fst res) = Client.Response /\ Client.sent url (snd (fst res))).
Proof.
  intros Hf Ha Hp. cbv zeta. split.
  - intros recipient -> -> Hfault.
    assert (fst (checkPayment a recipient (Client.atCheck w) (Client.policy this))
            = deny (ExceedsPerTransaction a 0)) as Hden.
    { rewrite Hf.
      apply (checkPayment_over_cap a recipient (Client.atCheck w) (snd (freeze now e))).
      exact Ha. }
    unfold Client.fetch. rewrite Hp, Hfault. cbn [negb]. rewrite Hden.
    cbn [negb allowed deny]. unfold Client.reasonText. cbn [reason deny].
    destruct optionsNetwork as [n|]; cbn [default fst snd];
      (split; [reflexivity|]);
      (split; [unfold Client.sent; cbn; intros [H|[]]; discriminate H|]);
      repeat split.
  - apply (fetch_bypass url skipPolicyCheck optionsNetwork w this raw a r Hp).
Qed.

(** X23.  A payment that the policy denies is sent all the same when
    something else is thrown in the policy block.  Whatever the policy and the
    ledger, when the probe's header decodes and the recipient of the header is
    not a string, or the write of [recordBlocked] fails, or [onBlocked]
    throws, [fetch] makes the paid request and returns the response.  With a
    recipient that is not a string, nothing is recorded: the enforcer and the
    store are unchanged, also when the payment is settled. *)
Theorem X23_fetch_sends_payment_when_policy_block_throws
    (url : string) (optionsNetwork : option NetworkName)
    (w : Client.World) (this : Client.AgentPayClient)
    (raw : string) (a : number) (r : Client.Recipient) :
  Client.probe w = Some (Client.Details raw a r) ->
  r = Client.NotAString \/ Client.fault w <> Client.NoFault ->
  let res := Client.fetch toFixed numberToString url false optionsNetwork w this in
  fst (fst res) = Client.Response
  /\ Client.sent url (snd (fst res))
  /\ (r = Client.NotAString -> res = (Client.Response, [Client.FetchWithPayment url], this)).
Proof.
  intros Hp Hby. cbv zeta.
  destruct (fetch_bypass url false optionsNetwork w this raw a r Hp) as [H1 H2];
    [right; exact Hby|].
  split; [exact H1|]. split; [exact H2|].
  intros ->. unfold Client.fetch, Client.pay. rewrite Hp. cbn [negb app].
  destruct (Client.paid w); reflexivity.
Qed.

End ClientProperties.

Lemma X17_fetch_denied_payment_is_never_sent_witness :
  exists receipt,
    Client.fetch Scenarios.toFixed Scenarios.numberToString "https://api.example.com/data"
      false None Scenarios.tooExpensive Scenarios.client
    = (Client.PaymentBlockedError "Amount $5.00 exceeds per-transaction limit of $1.00"
         receipt,
       [Client.OnBlocked "Amount $5.00 exceeds per-transaction limit of $1.00"
          "https://api.example.com/data" 5 "0xApproved1"],
       {| Client.policy := Samples.fresh Samples.testPolicy;
          Client.receipts :=
            {| Receipts.receipts := [receipt]; Receipts.receiptsFile := Some [receipt] |};
          Client.network := None |})
    /\ Receipts.status receipt = Receipts.blocked.
Proof.
  destruct (X17_fetch_denied_payment_is_never_sent Scenarios.toFixed
              Scenarios.numberToString "https://api.example.com/data" None
              Scenarios.tooExpensive Scenarios.client "5000000" 5 "0xApproved1"
              eq_refl eq_refl eq_refl) as (why & Hwhy & Hf & _ & _ & Hs & _).
  injection Hwhy as <-. eexists. split; [exact Hf | exact Hs].
Defined.

Lemma X18_fetch_allowed_payment_is_recorded_with_probe_amount_witness :
  exists events stored,
    Client.fetch Scenarios.toFixed Scenarios.numberToString "https://api.example.com/data"
      false None Scenarios.settled Scenarios.client
    = (Client.Response, events,
       {| Client.policy :=
            snd (recordPayment 0.5 "0xApproved1" Samples.monday
                   (Samples.fresh Samples.testPolicy));
          Client.receipts :=
            {| Receipts.receipts := [stored]; Receipts.receiptsFile := Some [stored] |};
          Client.network := None |})
    /\ Receipts.status stored = Receipts.success
    /\ Receipts.amount stored = "0.500000".
Proof.
  destruct (X18_fetch_allowed_payment_is_recorded_with_probe_amount Scenarios.toFixed
              Scenarios.numberToString "https://api.example.com/data" false None
              Scenarios.settled Scenarios.client "500000" 0.5 "0xApproved1"
              (Some "0x9f3e") "settled" eq_refl eq_refl eq_refl
              (fun old (H : In old []) => match H with end))
    as (handed & stored & Hf & Hs & _ & _ & Ha & _).
  eexists. exists stored. split; [exact Hf|]. split; [exact Hs | exact Ha].
Defined.

Lemma X19_fetch_unchecked_payment_is_recorded_as_zero_witness :
  exists events stored,
    Client.fetch Scenarios.toFixed Scenarios.numberToString "https://api.example.com/data"
      false None Scenarios.unannounced Scenarios.client
    = (Client.Response, events,
       {| Client.policy :=
            snd (recordPayment 0 "unknown" Samples.monday
                   (Samples.fresh Samples.testPolicy));
          Client.receipts :=
            {| Receipts.receipts := [stored]; Receipts.receiptsFile := Some [stored] |};
          Client.network := None |})
    /\ Receipts.recipient stored = "unknown".
Proof.
  destruct (X19_fetch_unchecked_payment_is_recorded_as_zero Scenarios.toFixed
              Scenarios.numberToString "https://api.example.com/data" false None
              Scenarios.unannounced Scenarios.client eq_refl
              (fun old (H : In old []) => match H with end))
    as (events & stored & Hf & _ & _ & Hr).
  eexists. exists stored. split; [exact Hf | exact Hr].
Defined.

Lemma X21_fetch_after_freeze_witness :
  let frozen :=
    {| Client.policy := snd (freeze Samples.monday (Samples.fresh Samples.testPolicy));
       Client.receipts := Receipts.newReceiptStore None;
       Client.network := None |} in
  (exists reason receipt,
     fst (Client.fetch Scenarios.toFixed Scenarios.numberToString
            "https://api.example.com/data" false None Scenarios.settled frozen)
     = (Client.PaymentBlockedError reason receipt,
        [Client.OnBlocked reason "https://api.example.com/data" 0.5 "0xApproved1"]))
  /\ Client.sent "https://api.example.com/data"
       (snd (fst (Client.fetch Scenarios.toFixed Scenarios.numberToString
                    "https://api.example.com/data" true None Scenarios.settled frozen))).
Proof.
  cbv zeta. split.
  - destruct (proj1 (X21_fetch_after_freeze Scenarios.toFixed Scenarios.numberToString
                  Samples.monday (Samples.fresh Samples.testPolicy)
                  "https://api.example.com/data" false None Scenarios.settled
                  {| Client.policy :=
                       snd (freeze Samples.monday (Samples.fresh Samples.testPolicy));
                     Client.receipts := Receipts.newReceiptStore None;
                     Client.network := None |}
                  "500000" 0.5 (Client.Address "0xApproved1") eq_refl eq_refl eq_refl)
                "0xApproved1" eq_refl eq_refl eq_refl) as (Hf & _).
    eexists. eexists. rewrite Hf. reflexivity.
  - apply (proj2 (X21_fetch_after_freeze Scenarios.toFixed Scenarios.numberToString
                  Samples.monday (Samples.fresh Samples.testPolicy)
                  "https://api.example.com/data" true None Scenarios.settled
                  {| Client.policy :=
                       snd (freeze Samples.monday (Samples.fresh Samples.testPolicy));
                     Client.receipts := Receipts.newReceiptStore None;
                     Client.network := None |}
                  "500000" 0.5 (Client.Address "0xApproved1") eq_refl eq_refl eq_refl)).
    left. reflexivity.
Defined.

Lemma X23_fetch_sends_payment_when_policy_block_throws_witness :
  allowed (fst (checkPayment 5 "0xApproved1" Samples.monday
                  (Client.policy Scenarios.client))) = false
  /\ Client.sent "https://api.example.com/data"
       (snd (fst (Client.fetch Scenarios.toFixed Scenarios.numberToString
                    "https://api.example.com/data" false None
                    Scenarios.tooExpensiveAndCallbackThrows Scenarios.client))).
Proof.
  split; [reflexivity|].
  apply (X23_fetch_sends_payment_when_policy_block_throws Scenarios.toFixed
           Scenarios.numberToString "https://api.example.com/data" None
           Scenarios.tooExpensiveAndCallbackThrows Scenarios.client
           "5000000" 5 (Client.Address "0xApproved1") eq_refl).
  right. discriminate.
Defined.
